(** * Session backends of gastown: the amux adapter, its nudge lock,
      its health classifier and the witness manager.

    A shallow embedding of [internal/amux/amux.go] (in its three revisions),
    of the environment overlay [buildEnv] and of [witness.Manager], followed
    by the properties their design document states about them. *)

From Stdlib Require Import ZArith String Ascii List Bool Lia DecimalString.
From Stdlib Require Import Floats.SpecFloat.
From stdpp Require Import base option list gmap strings.

Local Open Scope string_scope.
Local Open Scope Z_scope.

(* ================================================================== *)
(** * Go's [strings] package, on byte strings *)
(* ================================================================== *)

Module GoStrings.

(** [strings.HasPrefix]. *)
Fixpoint HasPrefix (s prefix : string) {struct prefix} : bool :=
  match prefix with
  | EmptyString => true
  | String c prefix' =>
      match s with
      | EmptyString => false
      | String d s' => Ascii.eqb c d && HasPrefix s' prefix'
      end
  end.

(** [strings.Contains]: [substr] occurs in [s] at some offset. *)
Fixpoint Contains (s substr : string) : bool :=
  HasPrefix s substr
  || match s with
     | EmptyString => false
     | String _ s' => Contains s' substr
     end.

(** The table [asciiSpace] of package [strings]: tab, line feed,
    vertical tab, form feed, carriage return, space. *)
Definition asciiSpace (c : ascii) : bool :=
  let n := nat_of_ascii c in
  ((9 <=? n)%nat && (n <=? 13)%nat) || (n =? 32)%nat.

(** [unicode.IsSpace] on the runes that UTF-8 encodes in two bytes:
    U+0085 (C2 85) and U+00A0 (C2 A0). *)
Definition space2 (b1 b2 : ascii) : bool :=
  (nat_of_ascii b1 =? 194)%nat
  && ((nat_of_ascii b2 =? 133)%nat || (nat_of_ascii b2 =? 160)%nat).

(** [unicode.IsSpace] on the runes that UTF-8 encodes in three bytes:
    U+1680, U+2000..U+200A, U+2028, U+2029, U+202F, U+205F, U+3000. *)
Definition space3 (b1 b2 b3 : ascii) : bool :=
  let n1 := nat_of_ascii b1 in
  let n2 := nat_of_ascii b2 in
  let n3 := nat_of_ascii b3 in
  ((n1 =? 225) && (n2 =? 154) && (n3 =? 128))%nat
  || ((n1 =? 226) && (n2 =? 128)
      && (((128 <=? n3) && (n3 <=? 138)) || (n3 =? 168) || (n3 =? 169)
          || (n3 =? 175)))%nat
  || ((n1 =? 226) && (n2 =? 129) && (n3 =? 159))%nat
  || ((n1 =? 227) && (n2 =? 128) && (n3 =? 128))%nat.

(** Drop the white-space runes at the front of a byte sequence.  [p2] and
    [p3] recognise the two- and three-byte encodings in the order in which
    the bytes are met, so that the same loop serves both ends. *)
Fixpoint trimFront (p2 : ascii -> ascii -> bool)
         (p3 : ascii -> ascii -> ascii -> bool) (l : list ascii)
  : list ascii :=
  match l with
  | [] => []
  | b1 :: l1 =>
      if asciiSpace b1 then trimFront p2 p3 l1
      else
        match l1 with
        | [] => l
        | b2 :: l2 =>
            if p2 b1 b2 then trimFront p2 p3 l2
            else
              match l2 with
              | [] => l
              | b3 :: l3 => if p3 b1 b2 b3 then trimFront p2 p3 l3 else l
              end
        end
  end.

Definition TrimLeftSpace (l : list ascii) : list ascii :=
  trimFront space2 space3 l.

Definition TrimRightSpace (l : list ascii) : list ascii :=
  rev (trimFront (fun b2 b1 => space2 b1 b2)
                 (fun b3 b2 b1 => space3 b1 b2 b3) (rev l)).

(** [strings.TrimSpace]: all leading and trailing white space removed, as
    [unicode.IsSpace] defines it. *)
Definition TrimSpace (s : string) : string :=
  string_of_list_ascii
    (TrimRightSpace (TrimLeftSpace (list_ascii_of_string s))).

(** [strings.Cut(s, "=")] with a one-byte separator: the text before the
    first separator and the text after it. *)
Fixpoint Cut (s : string) (sep : ascii) : option (string * string) :=
  match s with
  | EmptyString => None
  | String c s' =>
      if Ascii.eqb c sep then Some (EmptyString, s')
      else
        match Cut s' sep with
        | Some (before, after) => Some (String c before, after)
        | None => None
        end
  end.

(** [strings.SplitN(s, sep, 2)] with a one-byte separator: one part when
    the separator is absent, two parts otherwise. *)
Definition SplitN2 (s : string) (sep : ascii) : list string :=
  match Cut s sep with
  | Some (before, after) => [before; after]
  | None => [s]
  end.

(** The line feed, which ends the diagnostics of most tools. *)
Definition LF : string := String (ascii_of_nat 10) EmptyString.

End GoStrings.

(* ================================================================== *)
(** * Go's [error] values and what a call can do *)
(* ================================================================== *)

Module GoErrors.

(** An error is made by [errors.New], by [fmt.Errorf] (without a [%w]
    verb, or wrapping another error with one), or outside these packages
    (by [cmd.Run], by a collaborator).  Go tells error values apart by
    identity; here the maker and the text do. *)
Inductive error : Type :=
| New (text : string)
| Errorf (text : string)
| ErrorfW (text : string) (wrapped : error)
| External (text : string).

(** The method [Error()]. *)
Definition Error (e : error) : string :=
  match e with
  | New text => text
  | Errorf text => text
  | ErrorfW text _ => text
  | External text => text
  end.

Fixpoint error_eqb (a b : error) : bool :=
  match a, b with
  | New s, New t => String.eqb s t
  | Errorf s, Errorf t => String.eqb s t
  | ErrorfW s a', ErrorfW t b' => String.eqb s t && error_eqb a' b'
  | External s, External t => String.eqb s t
  | _, _ => false
  end.

(** [errors.Unwrap]. *)
Definition Unwrap (e : error) : option error :=
  match e with
  | ErrorfW _ wrapped => Some wrapped
  | _ => None
  end.

(** [errors.Is]: [target] is [err] or an error on its chain. *)
Fixpoint Is (err target : error) : bool :=
  error_eqb err target
  || match err with
     | ErrorfW _ inner => Is inner target
     | _ => false
     end.

(** What evaluating a Go expression yields: a value, or a run-time panic. *)
Inductive Outcome (A : Type) : Type :=
| Return (a : A)
| Panic (reason : string).
Arguments Return {A} a.
Arguments Panic {A} reason.

(** [args[0]] on a slice. *)
Definition index0 (args : list string) : Outcome string :=
  match args with
  | [] => Panic "runtime error: index out of range [0] with length 0"
  | a :: _ => Return a
  end.

End GoErrors.

Export GoStrings GoErrors.

(* ================================================================== *)
(** * Calls with effects: a state and panic monad *)
(* ================================================================== *)

Module GoEffects.

(** A call runs on a state, changes it, and returns or panics. *)
Definition M (S A : Type) : Type := S -> Outcome A * S.

Definition ret {S A : Type} (a : A) : M S A := fun s => (Return a, s).

Definition bind {S A B : Type} (m : M S A) (k : A -> M S B) : M S B :=
  fun s =>
    match m s with
    | (Return a, s') => k a s'
    | (Panic reason, s') => (Panic reason, s')
    end.

(** A pure expression that may panic, evaluated inside a call. *)
Definition lift {S A : Type} (o : Outcome A) : M S A := fun s => (o, s).

(** [defer deferred(); body]: the deferred call runs when the body is
    left, by a return or by a panic alike. *)
Definition defer {S A : Type} (deferred : M S unit) (body : M S A) : M S A :=
  fun s =>
    let (r, s1) := body s in
    match deferred s1 with
    | (Return _, s2) => (r, s2)
    | (Panic reason, s2) => (Panic reason, s2)
    end.

(** [for _, x := range xs { _ = f(x) }]. *)
Fixpoint forEach {S A B : Type} (xs : list A) (f : A -> M S B) : M S unit :=
  match xs with
  | [] => ret tt
  | x :: xs' => bind (f x) (fun _ => forEach xs' f)
  end.

Definition result {S A : Type} (r : Outcome A * S) : Outcome A := fst r.
Definition after {S A : Type} (r : Outcome A * S) : S := snd r.

End GoEffects.

Export GoEffects.

Notation "x <- m ;; k" := (bind m (fun x => k))
  (at level 100, m at next level, right associativity).

(* ================================================================== *)
(** * What the adapter takes from outside *)
(* ================================================================== *)

(** [time.Duration]: nanoseconds in an [int64]. *)
Definition Duration : Type := Z.
Definition Second : Duration := 1000000000.

(** Go's [float64], as the IEEE 754 binary64 format. *)
Definition float64 : Type := spec_float.
Definition float64_mul : float64 -> float64 -> float64 := SFmul 53 1024.
Definition float64_of_int (n : Z) : float64 := binary_normalize 53 1024 n 0 false.

(** Modelled from the spec: the type [tmux.ZombieStatus] of package
    [internal/tmux], which is not among the sources; the design names its
    four values. *)
Inductive ZombieStatus : Type :=
| SessionHealthy
| SessionDead
| AgentDead
| AgentHung.

(** [SessionInfo], the detail of one session as [amux info --json] and
    [amux ls --json] give it (internal/amux/amux.go). *)
Record SessionInfo : Type := {
  Name : string;
  Command : string;
  PID : Z;
  Alive : bool;
  CreatedAt : string;
  UptimeSecs : float64;
  LastActivity : string;
  IdleSecs : float64
}.

(** [amuxSession], all that the earlier revisions read of a session in
    [amux ls --json]. *)
Record amuxSession : Type := { name : string }.

(** One run of the [amux] binary: what [cmd.Run] returned and the two
    buffers the adapter attached to the process. *)
Record CmdResult : Type := {
  runErr : option error;
  stdoutText : string;
  stderrText : string
}.

(** The outside of the adapter.  [World] is whatever the daemon, the file
    system and the other goroutines hold. *)
Class Platform (World : Type) : Type := {
  (** [exec.Command("amux", args...)] with both buffers, run to its end. *)
  runAmux : list string -> World -> CmdResult * World;
  (** A goroutine blocked on the full nudge channel of a session for at most
      a duration: [true] when a concurrent holder's release lets its send
      through before the timer fires. *)
  awaitSlot : string -> Duration -> World -> bool * World;
  (** The time that passes between [time.After] reading the clock and the
      [select] that follows being entered. *)
  selectDelay : World -> Duration;
  (** The pseudo-random choice of a [select] that finds two cases ready:
      [true] when it takes the timer rather than the send. *)
  selectTimer : World -> bool * World;
  (** [strconv.Quote], the verb [%q] of package [fmt]. *)
  Quote : string -> string;
  (** [json.Unmarshal] into a [SessionInfo] and into a [[]amuxSession]. *)
  unmarshalSessionInfo : string -> SessionInfo + error;
  unmarshalSessions : string -> list amuxSession + error;
  (** [os.Environ()]. *)
  Environ : World -> list string;
  (** The [int64] a conversion yields for a [float64] outside its range,
      which Go leaves to the implementation. *)
  int64Unrepresentable : float64 -> Z
}.

(** The conversion [int64(x)] of a [float64]: the fraction is discarded. *)
Definition int64_of_float64 `{Platform World} (x : float64) : Z :=
  match x with
  | S754_zero _ => 0
  | S754_finite s m e =>
      let magnitude :=
        if 0 <=? e then Z.shiftl (Z.pos m) e else Z.shiftr (Z.pos m) (- e) in
      let v := if s then - magnitude else magnitude in
      if (- 2 ^ 63 <=? v) && (v <? 2 ^ 63) then v else int64Unrepresentable x
  | _ => int64Unrepresentable x
  end.

(* ================================================================== *)
(** * The parts of package [amux] that its three revisions share *)
(* ================================================================== *)

Module AmuxCore.

(** [const nudgeLockTimeout = 30 * time.Second]. *)
Definition nudgeLockTimeout : Duration := 30 * Second.

Definition ErrNoDaemon : error := New "amux daemon not running".
Definition ErrSessionExists : error := New "session already exists".
Definition ErrSessionNotFound : error := New "session not found".

(** The state a call of the package runs on: the outside world and the
    package variable [sessionNudgeLocks], a map from session to a channel
    of capacity one, kept here as whether that channel is full. *)
Record State (World : Type) : Type := {
  world : World;
  sessionNudgeLocks : gmap string bool
}.
Arguments world {World} _.
Arguments sessionNudgeLocks {World} _.

(** [wrapError]. *)
Definition wrapError (err : error) (stderr : string) (args : list string)
  : Outcome error :=
  let stderr := TrimSpace stderr in
  if Contains stderr "daemon not running"
     || Contains stderr "connection refused"
     || Contains stderr "no such file or directory"
  then Return ErrNoDaemon
  else if Contains stderr "already exists"
  then Return ErrSessionExists
  else if Contains stderr "not found"
          || Contains stderr "no such session"
  then Return ErrSessionNotFound
  else if negb (String.eqb stderr "")
  then
    match index0 args with
    | Return a0 => Return (Errorf ("amux " +:+ a0 +:+ ": " +:+ stderr))
    | Panic reason => Panic reason
    end
  else
    match index0 args with
    | Return a0 => Return (ErrorfW ("amux " +:+ a0 +:+ ": " +:+ Error err) err)
    | Panic reason => Panic reason
    end.

Section WithPlatform.
Context {World : Type} `{!Platform World}.

Local Abbreviation St := (State World).

(** [cmd.Run()] on the world of the state. *)
Definition cmdRun (args : list string) : M St CmdResult :=
  fun st =>
    let (r, w) := runAmux args (world st) in
    (Return r, {| world := w; sessionNudgeLocks := sessionNudgeLocks st |}).

(** [run]: standard output, trimmed, or the classified failure. *)
Definition run (args : list string) : M St (string + error) :=
  r <- cmdRun args ;;
  match runErr r with
  | Some err =>
      e <- lift (wrapError err (stderrText r) args) ;;
      ret (inr e)
  | None => ret (inl (TrimSpace (stdoutText r)))
  end.

(** [KillSession]. *)
Definition KillSession (name : string) : M St (option error) :=
  r <- run ["kill"; "-t"; name] ;;
  match r with
  | inl _ => ret None
  | inr err => ret (Some err)
  end.

(** [KillSessionWithProcesses]. *)
Definition KillSessionWithProcesses (name : string) : M St (option error) :=
  KillSession name.

(** [IsAvailable]. *)
Definition IsAvailable : M St bool :=
  r <- run ["ls"] ;;
  match r with
  | inl _ => ret true
  | inr _ => ret false
  end.

(** [getSessionNudgeSem]: [LoadOrStore] keeps the channel already
    stored for the session, or stores a fresh, empty one.  The channel
    returned is the one under the key [session]. *)
Definition getSessionNudgeSem (session : string) : M St unit :=
  fun st =>
    match sessionNudgeLocks st !! session with
    | Some _ => (Return tt, st)
    | None =>
        (Return tt,
         {| world := world st;
            sessionNudgeLocks := <[session := false]> (sessionNudgeLocks st) |})
    end.

(** Whether the timer of [time.After(timeout)] has fired by the time the
    [select] is entered: the timeout is not more than the time that has
    passed since the timer was started.  That time is taken to be less than
    [nudgeLockTimeout]: a goroutine is not held up for thirty seconds between
    two statements. *)
Definition timerFired (timeout : Duration) (w : World) : bool :=
  (timeout <=? selectDelay w) && (timeout <? nudgeLockTimeout).

(** [acquireNudgeLock]: the [select] between the send on the channel and
    [time.After(timeout)].  Channel operations are atomic.  On an empty
    channel the send is ready: it goes through at once, unless the timer has
    fired already, in which case both cases are ready and the [select] picks
    one of them at random.  On a full channel the goroutine blocks, and the
    send goes through only if the slot is emptied in time. *)
Definition acquireNudgeLock (session : string) (timeout : Duration)
  : M St bool :=
  _ <- getSessionNudgeSem session ;;
  fun st =>
    match sessionNudgeLocks st !! session with
    | Some false =>
        if timerFired timeout (world st)
        then
          let (timer, w) := selectTimer (world st) in
          if timer
          then (Return false,
                {| world := w; sessionNudgeLocks := sessionNudgeLocks st |})
          else (Return true,
                {| world := w;
                   sessionNudgeLocks :=
                     <[session := true]> (sessionNudgeLocks st) |})
        else
          (Return true,
           {| world := world st;
              sessionNudgeLocks := <[session := true]> (sessionNudgeLocks st) |})
    | _ =>
        let (sent, w) := awaitSlot session timeout (world st) in
        (Return sent, {| world := w; sessionNudgeLocks := sessionNudgeLocks st |})
    end.

(** [releaseNudgeLock]: the [select] with a [default] case takes the
    token if there is one and returns either way. *)
Definition releaseNudgeLock (session : string) : M St unit :=
  _ <- getSessionNudgeSem session ;;
  fun st =>
    match sessionNudgeLocks st !! session with
    | Some true =>
        (Return tt,
         {| world := world st;
            sessionNudgeLocks := <[session := false]> (sessionNudgeLocks st) |})
    | _ => (Return tt, st)
    end.

(** The body that [NudgeSession] has in every revision, over the
    [SendKeys] of that revision. *)
Definition nudgeSession (SendKeys : string -> string -> M St (option error))
           (session message : string) : M St (option error) :=
  acquired <- acquireNudgeLock session nudgeLockTimeout ;;
  if negb acquired
  then ret (Some (Errorf ("nudge lock timeout for session " +:+ Quote session
                          +:+ ": previous nudge may be hung")))
  else defer (releaseNudgeLock session) (SendKeys session message).

(** Whether the nudge slot of a session is taken. *)
Definition slotHeld (st : St) (session : string) : bool :=
  default false (sessionNudgeLocks st !! session).

End WithPlatform.

End AmuxCore.

(* ================================================================== *)
(** * [internal/amux/amux.go] as it stands *)
(* ================================================================== *)

Module Amux.
Export AmuxCore.

Section WithPlatform.
Context {World : Type} `{!Platform World}.

Local Abbreviation St := (State World).

(** The [strings.ReplaceAll] of [shellQuote]: every single quote becomes
    a closing single quote, a single quote between double quotes, and an
    opening single quote. *)
Fixpoint escapeSingleQuotes (s : string) : string :=
  match s with
  | EmptyString => EmptyString
  | String c s' =>
      if (nat_of_ascii c =? 39)%nat
      then String (ascii_of_nat 39) (String (ascii_of_nat 34)
             (String (ascii_of_nat 39) (String (ascii_of_nat 34)
                (String (ascii_of_nat 39) (escapeSingleQuotes s')))))
      else String c (escapeSingleQuotes s')
  end.

(** [shellQuote]. *)
Definition shellQuote (s : string) : string :=
  "'" +:+ escapeSingleQuotes s +:+ "'".

(** [wrapCommand]. *)
Definition wrapCommand (workDir command : string) : string :=
  if String.eqb workDir EmptyString then command
  else "cd " +:+ shellQuote workDir +:+ " && exec " +:+ command.

(** [NewSession]. *)
Definition NewSession (name workDir : string) : M St (option error) :=
  let cmd := wrapCommand workDir "/bin/zsh" in
  r <- run ["new"; "-d"; "-t"; name; "--"; "/bin/sh"; "-c"; cmd] ;;
  match r with
  | inl _ => ret None
  | inr err => ret (Some err)
  end.

(** [NewSessionWithCommand]. *)
Definition NewSessionWithCommand (name workDir command : string)
  : M St (option error) :=
  let cmd := wrapCommand workDir command in
  r <- run ["new"; "-d"; "-t"; name; "--"; "/bin/sh"; "-c"; cmd] ;;
  match r with
  | inl _ => ret None
  | inr err => ret (Some err)
  end.

(** [HasSession]: any failure of [amux has] reads as "no such session". *)
Definition HasSession (name : string) : M St (bool * option error) :=
  r <- run ["has"; "-t"; name] ;;
  match r with
  | inr _ => ret (false, None)
  | inl _ => ret (true, None)
  end.

(** [GetSessionInfo]. *)
Definition GetSessionInfo (name : string) : M St (SessionInfo + error) :=
  r <- run ["info"; "-t"; name; "--json"] ;;
  match r with
  | inr err => ret (inr err)
  | inl out =>
      match unmarshalSessionInfo out with
      | inr err =>
          ret (inr (ErrorfW ("amux info: parsing JSON: " +:+ Error err) err))
      | inl info => ret (inl info)
      end
  end.

(** [SendKeys]. *)
Definition SendKeys (session keys : string) : M St (option error) :=
  r <- run ["send"; "-t"; session; "-l"; keys] ;;
  match r with
  | inl _ => ret None
  | inr err => ret (Some err)
  end.

(** [NudgeSession]. *)
Definition NudgeSession (session message : string) : M St (option error) :=
  acquired <- acquireNudgeLock session nudgeLockTimeout ;;
  if negb acquired
  then ret (Some (Errorf ("nudge lock timeout for session " +:+ Quote session
                          +:+ ": previous nudge may be hung")))
  else defer (releaseNudgeLock session) (SendKeys session message).

(** [SetEnvironment]. *)
Definition SetEnvironment (session key value : string) : M St (option error) :=
  r <- run ["env"; "set"; "-t"; session; key; value] ;;
  match r with
  | inl _ => ret None
  | inr err => ret (Some err)
  end.

(** [GetEnvironment]. *)
Definition GetEnvironment (session key : string) : M St (string + error) :=
  run ["env"; "get"; "-t"; session; key].

(** [IsAgentRunning]. *)
Definition IsAgentRunning (session : string)
           (expectedPaneCommands : list string) : M St bool :=
  r <- GetSessionInfo session ;;
  match r with
  | inr _ => ret false
  | inl info =>
      if negb (Alive info) then ret false
      else if (length expectedPaneCommands =? 0)%nat then ret true
      else ret (existsb (fun cmd => Contains (Command info) cmd)
                        expectedPaneCommands)
  end.

(** [IsAgentAlive]. *)
Definition IsAgentAlive (session : string) : M St bool :=
  r <- HasSession session ;;
  match r with
  | (exists_, None) => ret exists_
  | (_, Some _) => ret false
  end.

(** The idle time of a descriptor as a [time.Duration]:
    [time.Duration(info.IdleSecs * float64(time.Second))]. *)
Definition idleDuration (info : SessionInfo) : Duration :=
  int64_of_float64 (float64_mul (IdleSecs info) (float64_of_int Second)).

(** [CheckSessionHealth]. *)
Definition CheckSessionHealth (session : string) (maxInactivity : Duration)
  : M St ZombieStatus :=
  r <- GetSessionInfo session ;;
  match r with
  | inr _ => ret SessionDead
  | inl info =>
      if negb (Alive info) then ret AgentDead
      else if (0 <? maxInactivity) && (maxInactivity <? idleDuration info)
      then ret AgentHung
      else ret SessionHealthy
  end.

End WithPlatform.

End Amux.

(* ================================================================== *)
(** * The earlier text of [amux.go]: liveness read from [amux ls] *)
(* ================================================================== *)

Module AmuxList.
Export AmuxCore.

Section WithPlatform.
Context {World : Type} `{!Platform World}.

Local Abbreviation St := (State World).

(** [HasSession]. *)
Definition HasSession (name : string) : M St (bool * option error) :=
  r <- run ["has"; "-t"; name] ;;
  match r with
  | inr _ => ret (false, None)
  | inl _ => ret (true, None)
  end.

(** [SendKeys]. *)
Definition SendKeys (session keys : string) : M St (option error) :=
  r <- run ["send"; "-t"; session; "-l"; keys] ;;
  match r with
  | inl _ => ret None
  | inr err => ret (Some err)
  end.

(** [NudgeSession]. *)
Definition NudgeSession (session message : string) : M St (option error) :=
  acquired <- acquireNudgeLock session nudgeLockTimeout ;;
  if negb acquired
  then ret (Some (Errorf ("nudge lock timeout for session " +:+ Quote session
                          +:+ ": previous nudge may be hung")))
  else defer (releaseNudgeLock session) (SendKeys session message).

(** [IsAgentRunning]: the session is among those [amux ls --json] lists;
    the expected commands are not looked at. *)
Definition IsAgentRunning (session : string)
           (expectedPaneCommands : list string) : M St bool :=
  r <- run ["ls"; "--json"] ;;
  match r with
  | inr _ => ret false
  | inl out =>
      match unmarshalSessions out with
      | inr _ => ret false
      | inl sessions =>
          ret (existsb (fun s => String.eqb (name s) session) sessions)
      end
  end.

(** [IsAgentAlive]. *)
Definition IsAgentAlive (session : string) : M St bool :=
  r <- HasSession session ;;
  match r with
  | (exists_, None) => ret exists_
  | (_, Some _) => ret false
  end.

End WithPlatform.

End AmuxList.

(* ================================================================== *)
(** * The adapter written before amux had [send] and session environments *)
(* ================================================================== *)

Module AmuxNoSend.
Export AmuxCore.

Definition ErrNotImplemented : error := New "not yet implemented in amux".
Definition ErrSendKeysNotSupport : error :=
  New "amux send not yet available (reverted); see gt-1nr".

Section WithPlatform.
Context {World : Type} `{!Platform World}.

Local Abbreviation St := (State World).

(** [HasSession]: only the two classified failures read as "no such
    session"; any other error is handed to the caller. *)
Definition HasSession (name : string) : M St (bool * option error) :=
  r <- run ["has"; "-t"; name] ;;
  match r with
  | inr err =>
      if Is err ErrSessionNotFound || Is err ErrNoDaemon
      then ret (false, None)
      else ret (false, Some err)
  | inl _ => ret (true, None)
  end.

(** [SendKeys]: not available in this revision. *)
Definition SendKeys (session keys : string) : M St (option error) :=
  ret (Some (ErrorfW (Error ErrSendKeysNotSupport +:+ ": SendKeys("
                      +:+ Quote session +:+ ")")
                     ErrSendKeysNotSupport)).

(** [NudgeSession]. *)
Definition NudgeSession (session message : string) : M St (option error) :=
  acquired <- acquireNudgeLock session nudgeLockTimeout ;;
  if negb acquired
  then ret (Some (Errorf ("nudge lock timeout for session " +:+ Quote session
                          +:+ ": previous nudge may be hung")))
  else defer (releaseNudgeLock session) (SendKeys session message).

(** [SetEnvironment] and [GetEnvironment]: not available either. *)
Definition SetEnvironment (session key value : string) : M St (option error) :=
  ret (Some (ErrorfW (Error ErrNotImplemented +:+ ": SetEnvironment("
                      +:+ Quote session +:+ ", " +:+ Quote key +:+ ")")
                     ErrNotImplemented)).

Definition GetEnvironment (session key : string) : M St (string * option error) :=
  ret ("", Some (ErrorfW (Error ErrNotImplemented +:+ ": GetEnvironment("
                          +:+ Quote session +:+ ", " +:+ Quote key +:+ ")")
                         ErrNotImplemented)).

(** [IsAgentRunning]. *)
Definition IsAgentRunning (session : string)
           (expectedPaneCommands : list string) : M St bool :=
  r <- run ["ls"; "--json"] ;;
  match r with
  | inr _ => ret false
  | inl out =>
      match unmarshalSessions out with
      | inr _ => ret false
      | inl sessions =>
          ret (existsb (fun s => String.eqb (name s) session) sessions)
      end
  end.

(** [IsAgentAlive]. *)
Definition IsAgentAlive (session : string) : M St bool :=
  r <- HasSession session ;;
  match r with
  | (exists_, None) => ret exists_
  | (_, Some _) => ret false
  end.

(** The first loop of [buildEnv]: the inherited entries that have an
    [=], keyed by what precedes the first one. *)
Definition inheritEnv (environ : list string) : gmap string string :=
  foldl (fun base e =>
           match SplitN2 e "="%char with
           | [k; v] => <[k := v]> base
           | _ => base
           end) ∅ environ.

(** [buildEnv].  Go ranges over a map in an order it does not fix; the
    order of [map_fold] stands for it. *)
Definition buildEnv (env : gmap string string) : M St (list string) :=
  fun st =>
    let base := inheritEnv (Environ (world st)) in
    let base := map_fold (fun k v base => <[k := v]> base) base env in
    (Return (map_fold (fun k v result => (result ++ [k +:+ "=" +:+ v])%list) [] base),
     st).

End WithPlatform.

End AmuxNoSend.

(* ================================================================== *)
(** * Package [session]: the backend interface *)
(* ================================================================== *)

Module Session.

(** [TmuxExtras], the optional interface of the tmux backend (the methods
    the witness manager calls). *)
Record TmuxExtras (S Theme : Type) : Type := {
  ConfigureGasTownSession :
    string -> Theme -> string -> string -> string -> M S (option error);
  WaitForCommand : string -> list string -> Duration -> M S (option error);
  AcceptBypassPermissionsWarning : string -> M S (option error)
}.
Arguments ConfigureGasTownSession {S Theme} _.
Arguments WaitForCommand {S Theme} _.
Arguments AcceptBypassPermissionsWarning {S Theme} _.

(** [SessionBackend] (the methods the witness manager calls), with the two
    type assertions the manager makes on a backend: to [TmuxExtras] and to
    [*tmux.Tmux]. *)
Record SessionBackend (S Theme : Type) : Type := {
  NewSessionWithCommand : string -> string -> string -> M S (option error);
  KillSession : string -> M S (option error);
  KillSessionWithProcesses : string -> M S (option error);
  HasSession : string -> M S (bool * option error);
  SetEnvironment : string -> string -> string -> M S (option error);
  IsAgentAlive : string -> M S bool;
  asTmuxExtras : option (TmuxExtras S Theme);
  isTmux : bool
}.
Arguments NewSessionWithCommand {S Theme} _.
Arguments KillSession {S Theme} _.
Arguments KillSessionWithProcesses {S Theme} _.
Arguments HasSession {S Theme} _.
Arguments SetEnvironment {S Theme} _.
Arguments IsAgentAlive {S Theme} _.
Arguments asTmuxExtras {S Theme} _.
Arguments isTmux {S Theme} _.

End Session.

(* ================================================================== *)
(** * Package [witness]: the manager *)
(* ================================================================== *)

Module Witness.
Import Session.

Definition ErrNotRunning : error := New "witness not running".
Definition ErrAlreadyRunning : error := New "witness already running".

(** [rig.Rig], the two fields the manager reads. *)
Record Rig : Type := { RigName : string; RigPath : string }.

(** [Manager]. *)
Record Manager : Type := { rig : Rig }.

(** [beads.RoleConfig], the two fields the manager reads. *)
Record RoleConfig : Type := {
  StartCommand : string;
  EnvVars : gmap string string
}.

(** [session.BeaconConfig] and [config.AgentEnvConfig], as the manager
    fills them. *)
Record BeaconConfig : Type := {
  Recipient : string; Sender : string; BeaconTopic : string
}.

Record AgentEnvConfig : Type := {
  Role : string; AgentRig : string; TownRoot : string; Agent : string;
  Prompt : string; Topic : string; AgentSessionName : string
}.

(** The packages the manager calls and that are taken as given: [session]
    (names, prompts, PID tracking), [workspace], [config], [runtime],
    [rig], [beads], [style], [tmux] (themes), [constants], and [os],
    [path/filepath], [log] and [time] of the standard library. *)
Class Collaborators (S : Type) : Type := {
  RuntimeConfig : Type;
  Theme : Type;
  WitnessSessionName : string -> string;
  PrefixFor : string -> string;
  BeaconRecipient : string -> string -> string -> string;
  BuildStartupPrompt : BeaconConfig -> string -> string;
  TrackSessionPID : string -> string -> M S (option error);
  workspaceFind : string -> M S (string * option error);
  ResolveRoleAgentConfig : string -> string -> string -> M S RuntimeConfig;
  RoleSettingsDir : string -> string -> string;
  AgentEnv : AgentEnvConfig -> gmap string string;
  BuildStartupCommandFromConfig :
    AgentEnvConfig -> string -> string -> string -> M S (string + error);
  EnsureSettingsForRole :
    string -> string -> string -> RuntimeConfig -> M S (option error);
  EnsureGitignorePatterns : string -> M S (option error);
  (** [beads.NewWithBeadsDir(townRoot, beads.ResolveBeadsDir(townRoot))
      .GetRoleConfig(id)]; the configuration may be [nil]. *)
  GetRoleConfig : string -> string -> M S (option RoleConfig + error);
  RoleBeadIDTown : string -> string;
  ExpandRolePattern :
    string -> string -> string -> string -> string -> string -> string;
  PrintWarning : string -> M S unit;
  AssignTheme : string -> Theme;
  SupportedShells : list string;
  ClaudeStartTimeout : Duration;
  ShutdownNotifyDelay : Duration;
  osStat : string -> M S (option error);
  filepathJoin : list string -> string;
  logPrintf : string -> M S unit;
  timeSleep : Duration -> M S unit
}.

Section WithBackend.
Context {S : Type} `{!Collaborators S}.

(** [session.NewBackend()], the backend that [GT_SESSION_BACKEND]
    selects. *)
Variable backend : SessionBackend S Theme.

(** [SessionName]. *)
Definition SessionName (m : Manager) : string :=
  WitnessSessionName (PrefixFor (RigName (rig m))).

(** [witnessDir]. *)
Definition witnessDir (m : Manager) : M S string :=
  let witnessRigDir := filepathJoin [RigPath (rig m); "witness"; "rig"] in
  e <- osStat witnessRigDir ;;
  match e with
  | None => ret witnessRigDir
  | Some _ =>
      let witnessDir := filepathJoin [RigPath (rig m); "witness"] in
      e <- osStat witnessDir ;;
      match e with
      | None => ret witnessDir
      | Some _ => ret (RigPath (rig m))
      end
  end.

(** [townRoot]. *)
Definition townRoot (m : Manager) : M S string :=
  r <- workspaceFind (RigPath (rig m)) ;;
  match r with
  | (_, Some _) => ret (RigPath (rig m))
  | (townRoot, None) =>
      if String.eqb townRoot "" then ret (RigPath (rig m)) else ret townRoot
  end.

(** [roleConfig]. *)
Definition roleConfig (m : Manager) : M S (option RoleConfig + error) :=
  townRoot <- townRoot m ;;
  r <- GetRoleConfig townRoot (RoleBeadIDTown "witness") ;;
  match r with
  | inr err =>
      ret (inr (ErrorfW ("loading witness role config: " +:+ Error err) err))
  | inl roleConfig => ret (inl roleConfig)
  end.

(** [roleConfigEnvVars]. *)
Definition roleConfigEnvVars (roleConfig : option RoleConfig)
           (townRoot rigName : string) : gmap string string :=
  match roleConfig with
  | None => ∅
  | Some rc =>
      (fun value =>
         ExpandRolePattern value townRoot rigName "" "witness"
                           (PrefixFor rigName)) <$> EnvVars rc
  end.

(** [buildWitnessStartCommand]. *)
Definition buildWitnessStartCommand
           (rigPath rigName townRoot sessionName agentOverride : string)
           (roleConfig : option RoleConfig) : M S (string + error) :=
  let roleConfig :=
    if negb (String.eqb agentOverride "") then None else roleConfig in
  let fromAgentConfig : M S (string + error) :=
    let initialPrompt :=
      BuildStartupPrompt
        {| Recipient := BeaconRecipient "witness" "" rigName;
           Sender := "deacon";
           BeaconTopic := "patrol" |}
        "Run `gt prime --hook` and begin patrol." in
    r <- BuildStartupCommandFromConfig
           {| Role := "witness"; AgentRig := rigName; TownRoot := townRoot;
              Agent := ""; Prompt := initialPrompt; Topic := "patrol";
              AgentSessionName := sessionName |}
           rigPath initialPrompt agentOverride ;;
    match r with
    | inr err =>
        ret (inr (ErrorfW ("building startup command: " +:+ Error err) err))
    | inl command => ret (inl command)
    end in
  match roleConfig with
  | Some rc =>
      if negb (String.eqb (StartCommand rc) "")
      then ret (inl (ExpandRolePattern (StartCommand rc) townRoot rigName ""
                                       "witness" (PrefixFor rigName)))
      else fromAgentConfig
  | None => fromAgentConfig
  end.

(** The tmux-specific step of [Start]: theme, wait for the agent (the
    one failure that is fatal: the session is killed with its
    processes), bypass dialog.  Other backends sleep two seconds. *)
Definition applyBackendFeatures (m : Manager) (sessionID : string)
  : M S (option error) :=
  match asTmuxExtras backend with
  | Some extras =>
      let theme := AssignTheme (RigName (rig m)) in
      _ <- ConfigureGasTownSession extras sessionID theme (RigName (rig m))
                                   "witness" "witness" ;;
      e <- WaitForCommand extras sessionID SupportedShells ClaudeStartTimeout ;;
      match e with
      | Some err =>
          _ <- KillSessionWithProcesses backend sessionID ;;
          ret (Some (ErrorfW ("waiting for witness to start: " +:+ Error err)
                             err))
      | None =>
          e <- AcceptBypassPermissionsWarning extras sessionID ;;
          _ <- match e with
               | Some err =>
                   logPrintf ("warning: accepting bypass permissions for "
                              +:+ sessionID +:+ ": " +:+ Error err)
               | None => ret tt
               end ;;
          ret None
      end
  | None =>
      _ <- timeSleep (2 * Second) ;;
      ret None
  end.

(** [Start] from the comment "Working directory" on: what it does once
    no session is in the way. *)
Definition startSession (m : Manager) (sessionID agentOverride : string)
           (envOverrides : list string) : M S (option error) :=
  witnessDir <- witnessDir m ;;
  townRoot <- townRoot m ;;
  runtimeConfig <- ResolveRoleAgentConfig "witness" townRoot (RigPath (rig m)) ;;
  let witnessSettingsDir := RoleSettingsDir "witness" (RigPath (rig m)) in
  e <- EnsureSettingsForRole witnessSettingsDir witnessDir "witness"
                             runtimeConfig ;;
  match e with
  | Some err =>
      ret (Some (ErrorfW ("ensuring runtime settings: " +:+ Error err) err))
  | None =>
  e <- EnsureGitignorePatterns witnessDir ;;
  _ <- match e with
       | Some err =>
           PrintWarning ("could not update witness .gitignore: " +:+ Error err)
       | None => ret tt
       end ;;
  rc <- roleConfig m ;;
  match rc with
  | inr err => ret (Some err)
  | inl roleConfig =>
  c <- buildWitnessStartCommand (RigPath (rig m)) (RigName (rig m)) townRoot
                                sessionID agentOverride roleConfig ;;
  match c with
  | inr err => ret (Some err)
  | inl command =>
  e <- NewSessionWithCommand backend sessionID witnessDir command ;;
  match e with
  | Some err => ret (Some (ErrorfW ("creating session: " +:+ Error err) err))
  | None =>
  let envVars :=
    AgentEnv {| Role := "witness"; AgentRig := RigName (rig m);
                TownRoot := townRoot; Agent := agentOverride;
                Prompt := ""; Topic := ""; AgentSessionName := "" |} in
  _ <- forEach (map_to_list envVars)
               (fun kv => SetEnvironment backend sessionID kv.1 kv.2) ;;
  _ <- forEach (map_to_list (roleConfigEnvVars roleConfig townRoot
                                               (RigName (rig m))))
               (fun kv => SetEnvironment backend sessionID kv.1 kv.2) ;;
  _ <- forEach envOverrides
               (fun override =>
                  match Cut override "="%char with
                  | Some (key, value) =>
                      SetEnvironment backend sessionID key value
                  | None => ret None
                  end) ;;
  e <- applyBackendFeatures m sessionID ;;
  match e with
  | Some err => ret (Some err)
  | None =>
  _ <- (if isTmux backend
        then
          e <- TrackSessionPID townRoot sessionID ;;
          match e with
          | Some err =>
              logPrintf ("warning: tracking session PID for " +:+ sessionID
                         +:+ ": " +:+ Error err)
          | None => ret tt
          end
        else ret tt) ;;
  _ <- timeSleep ShutdownNotifyDelay ;;
  ret None
  end end end end end.

(** [Start]. *)
Definition Start (m : Manager) (foreground : bool) (agentOverride : string)
           (envOverrides : list string) : M S (option error) :=
  let sessionID := SessionName m in
  if foreground
  then ret (Some (Errorf "foreground mode is deprecated; use background mode (remove --foreground flag)"))
  else
    r <- HasSession backend sessionID ;;
    let running := r.1 in
    if running
    then
      alive <- IsAgentAlive backend sessionID ;;
      if alive
      then ret (Some ErrAlreadyRunning)
      else
        e <- KillSession backend sessionID ;;
        match e with
        | Some err =>
            ret (Some (ErrorfW ("killing zombie session: " +:+ Error err) err))
        | None => startSession m sessionID agentOverride envOverrides
        end
    else startSession m sessionID agentOverride envOverrides.

(** [Stop]. *)
Definition Stop (m : Manager) : M S (option error) :=
  let sessionID := SessionName m in
  r <- HasSession backend sessionID ;;
  let running := r.1 in
  if negb running
  then ret (Some ErrNotRunning)
  else KillSession backend sessionID.

End WithBackend.

End Witness.

(* ================================================================== *)
(** * The adapter of [amux.go] as the backend of the manager *)
(* ================================================================== *)

Module AmuxBackend.
Import AmuxCore Session Witness.

Section WithPlatform.
Context {World : Type} `{!Platform World} `{!Collaborators (State World)}.

(** What [session.NewBackend()] returns when [GT_SESSION_BACKEND] is
    [amux]: the adapter has none of the methods of [TmuxExtras] and is not
    a [*tmux.Tmux]. *)
Definition amuxBackend : SessionBackend (State World) Theme := {|
  Session.NewSessionWithCommand := Amux.NewSessionWithCommand;
  Session.KillSession := AmuxCore.KillSession;
  Session.KillSessionWithProcesses := AmuxCore.KillSessionWithProcesses;
  Session.HasSession := Amux.HasSession;
  Session.SetEnvironment := Amux.SetEnvironment;
  Session.IsAgentAlive := Amux.IsAgentAlive;
  asTmuxExtras := None;
  isTmux := false
|}.

End WithPlatform.

End AmuxBackend.

(* ================================================================== *)
(** * A small world to run the adapter on *)
(* ================================================================== *)

Module Scenario.
Import AmuxCore.

(** The double quote, and [strconv.Quote] on text that needs no escape
    (printable ASCII without quote or backslash). *)
Definition DQ : string := String (ascii_of_nat 34) EmptyString.
Definition quotePlain (s : string) : string := DQ +:+ s +:+ DQ.

(** A daemon that answers each command line the same way every time, a
    log of the command lines it was sent, whether the holder of a nudge
    slot lets go while another goroutine waits, and the environment of
    the process. *)
Record TestWorld : Type := {
  respond : list string -> CmdResult;
  calls : list (list string);
  releasedInTime : bool;
  environment : list string
}.

Definition ok (out : string) : CmdResult :=
  {| runErr := None; stdoutText := out; stderrText := EmptyString |}.

Definition failed (stderr : string) : CmdResult :=
  {| runErr := Some (External "exit status 1");
     stdoutText := EmptyString; stderrText := stderr |}.

(** The session [w1]: the multiplexer still has it, its agent has exited. *)
Definition w1 : SessionInfo :=
  {| Name := "w1"; Command := "bash"; PID := 4242; Alive := false;
     CreatedAt := "2026-01-01T00:00:00Z";
     UptimeSecs := float64_of_int 600;
     LastActivity := "2026-01-01T00:08:00Z";
     IdleSecs := binary_normalize 53 1024 241 (-1) false |}.

(** The session [w2]: a live shell, idle for 120.5 seconds. *)
Definition w2 : SessionInfo :=
  {| Name := "w2"; Command := "bash"; PID := 4243; Alive := true;
     CreatedAt := "2026-01-01T00:00:00Z";
     UptimeSecs := float64_of_int 600;
     LastActivity := "2026-01-01T00:08:00Z";
     IdleSecs := binary_normalize 53 1024 241 (-1) false |}.

(** The JSON text of a descriptor of this world: both sessions have been
    up for 600 seconds and idle for 120.5. *)
Definition field (key value : string) : string :=
  quotePlain key +:+ ":" +:+ value.

Definition infoJSON (i : SessionInfo) : string :=
  "{" +:+ field "name" (quotePlain (Name i)) +:+ ","
      +:+ field "command" (quotePlain (Command i)) +:+ ","
      +:+ field "pid" (NilZero.string_of_int (Z.to_int (PID i))) +:+ ","
      +:+ field "alive" (if Alive i then "true" else "false") +:+ ","
      +:+ field "created_at" (quotePlain (CreatedAt i)) +:+ ","
      +:+ field "uptime_secs" "600" +:+ ","
      +:+ field "last_activity" (quotePlain (LastActivity i)) +:+ ","
      +:+ field "idle_secs" "120.5" +:+ "}".

Definition listJSON (l : list SessionInfo) : string :=
  "[" +:+ String.concat "," (infoJSON <$> l) +:+ "]".

Definition known : list SessionInfo := [w1; w2].

(** [json.Unmarshal] on the documents of this world. *)
Definition decodeInfo (text : string) : SessionInfo + error :=
  match List.find (fun i => String.eqb (infoJSON i) text) known with
  | Some i => inl i
  | None => inr (External "unexpected end of JSON input")
  end.

Definition decodeSessions (text : string) : list amuxSession + error :=
  if String.eqb text (listJSON known)
  then inl ((fun i => {| name := Name i |}) <$> known)
  else inr (External "unexpected end of JSON input").

(** What the daemon answers: it knows [w1] and [w2]; [amux has] on any
    other name exits with status 1 and prints nothing. *)
Definition daemon (args : list string) : CmdResult :=
  match args with
  | ["has"; "-t"; n] =>
      if String.eqb n "w1" || String.eqb n "w2" then ok EmptyString
      else failed EmptyString
  | ["info"; "-t"; n; "--json"] =>
      if String.eqb n "w1" then ok (infoJSON w1 +:+ LF)
      else if String.eqb n "w2" then ok (infoJSON w2 +:+ LF)
      else failed ("session not found" +:+ LF)
  | ["ls"; "--json"] => ok (listJSON known +:+ LF)
  | ["send"; "-t"; n; "-l"; _] =>
      if String.eqb n "w1" || String.eqb n "w2" then ok EmptyString
      else failed ("session not found" +:+ LF)
  | _ => failed ("unknown command" +:+ LF)
  end.

(** The small world as a platform.  A goroutine enters its [select] 150 ns
    after it started the timer, a [select] that finds the timer and the send
    both ready takes the timer, and a conversion out of range gives the
    least [int64], as on amd64. *)
#[global] Instance testPlatform : Platform TestWorld := {|
  runAmux args w :=
    (respond w args,
     {| respond := respond w; calls := (calls w ++ [args])%list;
        releasedInTime := releasedInTime w; environment := environment w |});
  awaitSlot _ _ w := (releasedInTime w, w);
  selectDelay _ := 150;
  selectTimer w := (true, w);
  Quote := quotePlain;
  unmarshalSessionInfo := decodeInfo;
  unmarshalSessions := decodeSessions;
  Environ := environment;
  int64Unrepresentable _ := - 2 ^ 63
|}.

Definition world0 : TestWorld :=
  {| respond := daemon; calls := []; releasedInTime := false;
     environment := ["HOME=/home/gt"; "PATH=/usr/bin:/bin"; "SHLVL"] |}.

(** The state of a process that has not nudged yet. *)
Definition start0 : State TestWorld :=
  {| world := world0; sessionNudgeLocks := ∅ |}.

End Scenario.

(* ================================================================== *)
(** * Properties of the string and error helpers *)
(* ================================================================== *)

Module GoFacts.

Lemma app_nil_l (t : string) : EmptyString +:+ t = t.
Proof. reflexivity. Qed.

Lemma app_cons (c : ascii) (s t : string) :
  String c s +:+ t = String c (s +:+ t).
Proof. reflexivity. Qed.

Lemma app_empty_r (s : string) : s +:+ EmptyString = s.
Proof.
  induction s as [|c s IH]; [reflexivity|]. now rewrite app_cons, IH.
Qed.

Lemma app_assoc (a b c : string) : (a +:+ b) +:+ c = a +:+ b +:+ c.
Proof.
  induction a as [|x a IH]; [reflexivity|]. now rewrite !app_cons, IH.
Qed.

Lemma HasPrefix_app (p s : string) : HasPrefix (p +:+ s) p = true.
Proof.
  induction p as [|c p IH]; [reflexivity|].
  rewrite app_cons. simpl. now rewrite Ascii.eqb_refl, IH.
Qed.

Lemma Contains_HasPrefix (s sub : string) :
  HasPrefix s sub = true -> Contains s sub = true.
Proof. intros H. destruct s; simpl; rewrite H; reflexivity. Qed.

(** A text that has [sub] somewhere inside contains it. *)
Lemma Contains_app (pre sub post : string) :
  Contains (pre +:+ sub +:+ post) sub = true.
Proof.
  induction pre as [|c pre IH].
  - apply Contains_HasPrefix. apply (HasPrefix_app sub post).
  - rewrite app_cons. cbn [Contains]. rewrite IH. apply orb_true_r.
Qed.

Lemma Contains_suffix (pre sub : string) : Contains (pre +:+ sub) sub = true.
Proof.
  pose proof (Contains_app pre sub EmptyString) as H.
  now rewrite (app_empty_r sub) in H.
Qed.

Lemma error_eqb_refl (e : error) : error_eqb e e = true.
Proof.
  induction e; simpl; rewrite ?String.eqb_refl; auto.
Qed.

Lemma error_eqb_eq (a b : error) : error_eqb a b = true <-> a = b.
Proof.
  split; [|intros ->; apply error_eqb_refl].
  revert b; induction a; intros [] H; simpl in H; try discriminate.
  - apply String.eqb_eq in H. now subst.
  - apply String.eqb_eq in H. now subst.
  - apply andb_true_iff in H as [H1 H2].
    apply String.eqb_eq in H1. apply IHa in H2. now subst.
  - apply String.eqb_eq in H. now subst.
Qed.

Lemma Is_refl (e : error) : Is e e = true.
Proof. destruct e; simpl; rewrite ?String.eqb_refl, ?error_eqb_refl; auto. Qed.

(** An error made with [%w] is, for [errors.Is], the error it wraps. *)
Lemma Is_wrapped (text : string) (e : error) : Is (ErrorfW text e) e = true.
Proof. simpl. rewrite Is_refl. apply orb_true_r. Qed.

End GoFacts.

(* ================================================================== *)
(** * Products of [float64] that are computed without error *)
(* ================================================================== *)

Module FloatFacts.

(** [c] with [t] zero bits appended: [c * 2 ^ t]. *)
Definition shl (c : positive) (t : nat) : positive := Nat.iter t xO c.

Lemma shl_S (c : positive) (t : nat) : shl c (S t) = xO (shl c t).
Proof. reflexivity. Qed.

Lemma shl_value (c : positive) (t : nat) :
  Z.pos (shl c t) = Z.pos c * 2 ^ Z.of_nat t.
Proof.
  induction t as [|t IH]; [simpl; lia|].
  rewrite shl_S. change (Z.pos (shl c t)~0) with (2 * Z.pos (shl c t)).
  rewrite IH, Nat2Z.inj_succ, Z.pow_succ_r by lia. lia.
Qed.

Lemma Pos_iter_shl (c d : positive) : Pos.iter xO c d = shl c (Pos.to_nat d).
Proof. unfold shl. apply Pos2Nat.inj_iter. Qed.

Lemma iter_pos_nat {A : Type} (f : A -> A) (p : positive) (x : A) :
  SpecFloat.iter_pos f p x = Nat.iter (Pos.to_nat p) f x.
Proof.
  revert x. induction p as [p IH|p IH|]; intros x; cbn [SpecFloat.iter_pos].
  - rewrite !IH, Pos2Nat.inj_xI.
    replace (S (2 * Pos.to_nat p)) with (Pos.to_nat p + (Pos.to_nat p + 1))%nat by lia.
    rewrite !Nat.iter_add. reflexivity.
  - rewrite !IH, Pos2Nat.inj_xO.
    replace (2 * Pos.to_nat p)%nat with (Pos.to_nat p + Pos.to_nat p)%nat by lia.
    rewrite Nat.iter_add. reflexivity.
  - reflexivity.
Qed.

Lemma digits_shl (c : positive) (t : nat) :
  Z.pos (digits2_pos (shl c t)) = Z.pos (digits2_pos c) + Z.of_nat t.
Proof.
  induction t as [|t IH]; [simpl; lia|].
  rewrite shl_S. cbn [digits2_pos]. rewrite Pos2Z.inj_succ, IH. lia.
Qed.

Lemma digits_bounds (c : positive) :
  2 ^ (Z.pos (digits2_pos c) - 1) <= Z.pos c < 2 ^ Z.pos (digits2_pos c).
Proof.
  induction c as [c IH|c IH|]; cbn [digits2_pos].
  - rewrite Pos2Z.inj_succ, Pos2Z.inj_xI.
    replace (Z.succ (Z.pos (digits2_pos c)) - 1)
      with (Z.succ (Z.pos (digits2_pos c) - 1)) by lia.
    rewrite !Z.pow_succ_r by lia.
    generalize dependent (2 ^ (Z.pos (digits2_pos c) - 1)).
    generalize dependent (2 ^ Z.pos (digits2_pos c)). intros; lia.
  - rewrite Pos2Z.inj_succ. change (Z.pos c~0) with (2 * Z.pos c).
    replace (Z.succ (Z.pos (digits2_pos c)) - 1)
      with (Z.succ (Z.pos (digits2_pos c) - 1)) by lia.
    rewrite !Z.pow_succ_r by lia.
    generalize dependent (2 ^ (Z.pos (digits2_pos c) - 1)).
    generalize dependent (2 ^ Z.pos (digits2_pos c)). intros; lia.
  - simpl. lia.
Qed.

Lemma digits_le (c : positive) (k : Z) :
  Z.pos c < 2 ^ k -> Z.pos (digits2_pos c) <= k.
Proof.
  intros H. destruct (digits_bounds c) as [Hlow _].
  destruct (Z.le_gt_cases (Z.pos (digits2_pos c)) k) as [|Hgt]; [assumption|].
  exfalso.
  assert (Hpow : 2 ^ k <= 2 ^ (Z.pos (digits2_pos c) - 1))
    by (apply Z.pow_le_mono_r; lia).
  lia.
Qed.

Lemma digits_gt (c : positive) (k : Z) :
  0 <= k -> 2 ^ k <= Z.pos c -> k < Z.pos (digits2_pos c).
Proof.
  intros Hk H. destruct (digits_bounds c) as [_ Hup].
  destruct (Z.lt_ge_cases k (Z.pos (digits2_pos c))) as [|Hge]; [assumption|].
  exfalso.
  assert (Hpow : 2 ^ Z.pos (digits2_pos c) <= 2 ^ k)
    by (apply Z.pow_le_mono_r; lia).
  lia.
Qed.

Lemma shl_mul (c q : positive) (a b : nat) :
  (shl c a * shl q b)%positive = shl (c * q) (a + b).
Proof.
  apply Pos2Z.inj. rewrite Pos2Z.inj_mul, !shl_value, Pos2Z.inj_mul.
  rewrite Nat2Z.inj_add, Z.pow_add_r by lia. ring.
Qed.

(** A shift record with nothing shifted out. *)
Definition unrounded (m : Z) : shr_record :=
  {| shr_m := m; shr_r := false; shr_s := false |}.

Lemma iter_shr_1 (c : positive) (k j : nat) :
  Nat.iter k shr_1 (unrounded (Z.pos (shl c (k + j))))
  = unrounded (Z.pos (shl c j)).
Proof.
  revert j. induction k as [|k IH]; intros j; [reflexivity|].
  replace (S k + j)%nat with (k + S j)%nat by lia.
  rewrite Nat.iter_succ, IH. reflexivity.
Qed.

Lemma shr_fexp_exact (c : positive) (t : nat) (e : Z) :
  Z.pos (digits2_pos c) <= 53 ->
  53 <= Z.pos (digits2_pos c) + Z.of_nat t ->
  - 1074 <= e + Z.of_nat t + Z.pos (digits2_pos c) - 53 ->
  shr_fexp 53 1024 (Z.pos (shl c t)) e loc_Exact
  = (unrounded (Z.pos (shl c (Z.to_nat (53 - Z.pos (digits2_pos c))))),
     e + Z.of_nat t + Z.pos (digits2_pos c) - 53).
Proof.
  intros HD Ht He. unfold shr_fexp, fexp, emin.
  cbn [shr_record_of_loc Zdigits2]. rewrite digits_shl.
  set (D := Z.pos (digits2_pos c)) in *.
  replace (Z.max (D + Z.of_nat t + e - 53) (3 - 1024 - 53) - e)
    with (D + Z.of_nat t - 53) by lia.
  destruct (D + Z.of_nat t - 53) as [|k|k] eqn:Ek; [| |lia].
  - cbn [shr]. f_equal; [|lia].
    replace (Z.to_nat (53 - D)) with t by lia. reflexivity.
  - cbn [shr]. rewrite iter_pos_nat. f_equal; [|lia].
    replace t with (Pos.to_nat k + Z.to_nat (53 - D))%nat by lia.
    apply iter_shr_1.
Qed.

(** Rounding a mantissa whose digits past the 53rd are zeros cuts them
    off and changes nothing else. *)
Lemma binary_round_aux_exact (s : bool) (c : positive) (t : nat) (e : Z) :
  Z.pos (digits2_pos c) <= 53 ->
  53 <= Z.pos (digits2_pos c) + Z.of_nat t ->
  - 1074 <= e + Z.of_nat t + Z.pos (digits2_pos c) - 53 <= 971 ->
  binary_round_aux 53 1024 s (Z.pos (shl c t)) e loc_Exact
  = S754_finite s (shl c (Z.to_nat (53 - Z.pos (digits2_pos c))))
                (e + Z.of_nat t + Z.pos (digits2_pos c) - 53).
Proof.
  intros HD Ht He. unfold binary_round_aux.
  rewrite (shr_fexp_exact c t e) by lia.
  cbn [unrounded shr_m shr_r shr_s loc_of_shr_record round_nearest_even].
  rewrite (shr_fexp_exact c (Z.to_nat (53 - Z.pos (digits2_pos c)))) by lia.
  cbn [unrounded shr_m].
  replace (e + Z.of_nat t + Z.pos (digits2_pos c) - 53
           + Z.of_nat (Z.to_nat (53 - Z.pos (digits2_pos c)))
           + Z.pos (digits2_pos c) - 53)
    with (e + Z.of_nat t + Z.pos (digits2_pos c) - 53) by lia.
  destruct (Z.leb_spec (e + Z.of_nat t + Z.pos (digits2_pos c) - 53) (1024 - 53));
    [reflexivity | lia].
Qed.

(** A whole number of at most 53 digits, scaled by a power of two, is a
    [float64] as it stands. *)
Lemma binary_normalize_exact (c : positive) (e : Z) :
  Z.pos (digits2_pos c) <= 53 ->
  - 1074 <= e + Z.pos (digits2_pos c) - 53 <= 971 ->
  binary_normalize 53 1024 (Z.pos c) e false
  = S754_finite false (shl c (Z.to_nat (53 - Z.pos (digits2_pos c))))
                (e + Z.pos (digits2_pos c) - 53).
Proof.
  intros HD He. cbn [binary_normalize]. unfold binary_round, shl_align, fexp, emin.
  set (D := Z.pos (digits2_pos c)) in *.
  replace (Z.max (D + e - 53) (3 - 1024 - 53) - e) with (D - 53) by lia.
  replace (Z.max (D + e - 53) (3 - 1024 - 53)) with (D + e - 53) by lia.
  destruct (D - 53) as [|k|k] eqn:Ek; [|lia|].
  - change c with (shl c 0) at 1.
    rewrite (binary_round_aux_exact false c 0 e) by (fold D; lia).
    fold D. f_equal. lia.
  - rewrite Pos_iter_shl.
    rewrite (binary_round_aux_exact false c (Pos.to_nat k)) by (fold D; lia).
    fold D. f_equal. lia.
Qed.

(** The product of two such numbers, when it has at most 53 digits
    itself, is computed without error. *)
Lemma SFmul_exact (c q : positive) (a b : nat) (ex ey : Z) :
  Z.pos (digits2_pos (c * q)) <= 53 ->
  53 <= Z.pos (digits2_pos (c * q)) + Z.of_nat a + Z.of_nat b ->
  - 1074 <= ex + ey + Z.of_nat a + Z.of_nat b
            + Z.pos (digits2_pos (c * q)) - 53 <= 971 ->
  SFmul 53 1024 (S754_finite false (shl c a) ex) (S754_finite false (shl q b) ey)
  = S754_finite false
                (shl (c * q) (Z.to_nat (53 - Z.pos (digits2_pos (c * q)))))
                (ex + ey + Z.of_nat a + Z.of_nat b
                 + Z.pos (digits2_pos (c * q)) - 53).
Proof.
  intros HD Ht He. cbn [SFmul xorb]. rewrite shl_mul.
  rewrite binary_round_aux_exact by lia. f_equal. lia.
Qed.

(** One step to the right halves the mantissa, and so do several. *)
Lemma shr_1_m (r : shr_record) :
  0 <= shr_m r -> shr_m (shr_1 r) = shr_m r / 2 /\ 0 <= shr_m (shr_1 r).
Proof.
  destruct r as [m rb sb]. cbn [shr_m]. intros Hm.
  destruct m as [|p|p]; [split; reflexivity | | lia].
  destruct p as [p|p|]; cbn [shr_1 shr_m].
  - rewrite Pos2Z.inj_xI. split; [|lia].
    apply (Z.div_unique _ 2 _ 1); lia.
  - change (Z.pos p~0) with (2 * Z.pos p). split; [|lia].
    apply (Z.div_unique _ 2 _ 0); lia.
  - split; reflexivity.
Qed.

Lemma iter_shr_1_m (k : nat) (r : shr_record) :
  0 <= shr_m r ->
  shr_m (Nat.iter k shr_1 r) = shr_m r / 2 ^ Z.of_nat k
  /\ 0 <= shr_m (Nat.iter k shr_1 r).
Proof.
  intros Hm. induction k as [|k [IH Hpos]].
  - cbn [Nat.iter]. change (2 ^ Z.of_nat 0) with 1. rewrite Z.div_1_r. auto.
  - rewrite Nat.iter_succ. destruct (shr_1_m _ Hpos) as [-> Hpos'].
    split; [|exact Hpos'].
    rewrite IH, Nat2Z.inj_succ, Z.pow_succ_r by lia.
    rewrite Z.div_div by (try apply Z.pow_pos_nonneg; lia).
    f_equal. lia.
Qed.

Lemma round_nearest_even_near (m : Z) (l : location) :
  round_nearest_even m l = m \/ round_nearest_even m l = m + 1.
Proof.
  destruct l as [|[| |]]; cbn [round_nearest_even]; auto.
  destruct (Z.even m); auto.
Qed.

(** The digits of a number are fixed by the powers of two around it. *)
Lemma digits_unique (c : positive) (k : Z) :
  2 ^ (k - 1) <= Z.pos c < 2 ^ k -> Z.pos (digits2_pos c) = k.
Proof.
  intros [Hlow Hup].
  assert (Hk : 0 < k).
  { destruct (Z.lt_ge_cases 0 k) as [|Hle]; [assumption|].
    exfalso. assert (2 ^ k <= 2 ^ 0) by (apply Z.pow_le_mono_r; lia).
    change (2 ^ 0) with 1 in *. lia. }
  pose proof (digits_le c k Hup). pose proof (digits_gt c (k - 1)). lia.
Qed.

(** The first shift of a rounding: the digits past the 53rd go. *)
Lemma shr_fexp_shift (P : positive) (E : Z) :
  53 <= Z.pos (digits2_pos P) ->
  - 1074 <= E + Z.pos (digits2_pos P) - 53 ->
  exists r,
    shr_fexp 53 1024 (Z.pos P) E loc_Exact = (r, E + Z.pos (digits2_pos P) - 53)
    /\ shr_m r = Z.pos P / 2 ^ (Z.pos (digits2_pos P) - 53).
Proof.
  intros HD HE. unfold shr_fexp, fexp, emin.
  cbn [shr_record_of_loc Zdigits2].
  set (D := Z.pos (digits2_pos P)) in *.
  replace (Z.max (D + E - 53) (3 - 1024 - 53) - E) with (D - 53) by lia.
  destruct (D - 53) as [|k|k] eqn:Ek; [| |lia].
  - eexists. split; [cbn [shr]; f_equal; lia|].
    cbn [shr_m]. change (2 ^ 0) with 1. now rewrite Z.div_1_r.
  - eexists. split; [cbn [shr]; f_equal; lia|].
    rewrite iter_pos_nat.
    destruct (iter_shr_1_m (Pos.to_nat k)
                           {| shr_m := Z.pos P; shr_r := false; shr_s := false |})
      as [-> _]; [cbn [shr_m]; lia|].
    cbn [shr_m]. now rewrite positive_nat_Z.
Qed.

(** The second shift of a rounding: none, or one when the mantissa was
    carried to [2^53]. *)
Lemma shr_fexp_settle (q : positive) (e : Z) :
  2 ^ 52 <= Z.pos q <= 2 ^ 53 ->
  - 1074 <= e ->
  exists r e' m3,
    shr_fexp 53 1024 (Z.pos q) e loc_Exact = (r, e')
    /\ shr_m r = Z.pos m3
    /\ e <= e' <= e + 1
    /\ Z.shiftl (Z.pos m3) e' = Z.shiftl (Z.pos q) e.
Proof.
  intros [Hlow Hup] He. unfold shr_fexp, fexp, emin.
  cbn [shr_record_of_loc Zdigits2].
  destruct (Z.eq_dec (Z.pos q) (2 ^ 53)) as [Heq|Hne].
  - assert (Hq : q = 9007199254740992%positive) by (apply Pos2Z.inj; exact Heq).
    subst q. change (Z.pos (digits2_pos 9007199254740992)) with 54.
    replace (Z.max (54 + e - 53) (3 - 1024 - 53) - e) with 1 by lia.
    exists {| shr_m := 4503599627370496; shr_r := false; shr_s := false |},
      (e + 1), 4503599627370496%positive.
    split; [reflexivity|]. split; [reflexivity|]. split; [lia|].
    change (Z.pos 9007199254740992) with (Z.shiftl 4503599627370496 1).
    rewrite Z.shiftl_shiftl by lia. f_equal. lia.
  - assert (HD : Z.pos (digits2_pos q) = 53) by (apply digits_unique; lia).
    rewrite HD.
    replace (Z.max (53 + e - 53) (3 - 1024 - 53) - e) with 0 by lia.
    exists {| shr_m := Z.pos q; shr_r := false; shr_s := false |}, e, q.
    split; [reflexivity|]. split; [reflexivity|]. split; [lia | reflexivity].
Qed.

(** Rounding a mantissa of 53 digits or more: what is left is the
    mantissa without its last digits, or that plus one. *)
Lemma binary_round_aux_near (s : bool) (P : positive) (E : Z) :
  53 <= Z.pos (digits2_pos P) ->
  - 1074 <= E + Z.pos (digits2_pos P) - 53 < 971 ->
  exists m3 e3 m2,
    binary_round_aux 53 1024 s (Z.pos P) E loc_Exact = S754_finite s m3 e3
    /\ 2 ^ 52 <= Z.pos P / 2 ^ (Z.pos (digits2_pos P) - 53) < 2 ^ 53
    /\ (m2 = Z.pos P / 2 ^ (Z.pos (digits2_pos P) - 53)
        \/ m2 = Z.pos P / 2 ^ (Z.pos (digits2_pos P) - 53) + 1)
    /\ Z.shiftl (Z.pos m3) e3 = Z.shiftl m2 (E + Z.pos (digits2_pos P) - 53).
Proof.
  intros HD HE. unfold binary_round_aux.
  destruct (shr_fexp_shift P E HD) as (r1 & -> & Hm1); [lia|].
  set (D := Z.pos (digits2_pos P)) in *.
  set (m1 := Z.pos P / 2 ^ (D - 53)) in *.
  assert (Hm1range : 2 ^ 52 <= m1 < 2 ^ 53).
  { destruct (digits_bounds P) as [Hlow Hup]. fold D in Hlow, Hup.
    assert (Hk : 0 < 2 ^ (D - 53)) by (apply Z.pow_pos_nonneg; lia).
    unfold m1. split.
    - apply Z.div_le_lower_bound; [exact Hk|].
      rewrite <- Z.pow_add_r by lia.
      replace (D - 53 + 52) with (D - 1) by lia. exact Hlow.
    - apply Z.div_lt_upper_bound; [exact Hk|].
      rewrite <- Z.pow_add_r by lia.
      replace (D - 53 + 53) with D by lia. exact Hup. }
  set (m2 := round_nearest_even (shr_m r1) (loc_of_shr_record r1)).
  assert (Hm2 : m2 = m1 \/ m2 = m1 + 1).
  { unfold m2. rewrite <- Hm1. apply round_nearest_even_near. }
  assert (Hm2range : 2 ^ 52 <= m2 <= 2 ^ 53) by (destruct Hm2; lia).
  destruct m2 as [|q|q] eqn:Eq; [exfalso; lia | | exfalso; lia].
  destruct (shr_fexp_settle q (E + D - 53) Hm2range) as (r & e' & m3 & -> & Hr & He' & Hv);
    [lia|].
  rewrite Hr.
  destruct (Z.leb_spec e' (1024 - 53)); [|lia].
  exists m3, e', (Z.pos q). split; [reflexivity|].
  split; [exact Hm1range|]. split; [exact Hm2 | exact Hv].
Qed.

End FloatFacts.

(* ================================================================== *)
(** * The error classifier *)
(* ================================================================== *)

Module ClassifierFacts.
Import AmuxCore GoFacts.

(** With a subcommand to name, [wrapError] returns; with none it would
    index an empty slice. *)
Lemma wrapError_returns (err : error) (stderr sub : string) (rest : list string) :
  exists e, wrapError err stderr (sub :: rest) = Return e.
Proof.
  unfold wrapError.
  repeat match goal with
         | |- context [if ?b then _ else _] => destruct b
         end; simpl; eauto.
Qed.

Example wrapError_no_subcommand :
  wrapError (External "exit status 1") EmptyString []
  = Panic "runtime error: index out of range [0] with length 0".
Proof. reflexivity. Qed.

Example TestWrapError_GenericWithStderr :
  wrapError (External "exit 1") "some unknown error" ["kill"]
  = Return (Errorf "amux kill: some unknown error").
Proof. reflexivity. Qed.

Example TestWrapError_GenericWithoutStderr :
  wrapError (External "exit status 1") EmptyString ["new"]
  = Return (ErrorfW "amux new: exit status 1" (External "exit status 1")).
Proof. reflexivity. Qed.

(** The first phrase that matches decides, whatever else the text holds. *)
Example first_match_wins :
  wrapError (External "exit status 1")
            "session not found: connection refused" ["has"]
  = Return ErrNoDaemon.
Proof. reflexivity. Qed.

(** C4, as the code has it.  For every process error, diagnostic text,
    subcommand and further arguments, [wrapError] looks at the diagnostic
    text with its surrounding white space trimmed, and the first rule that
    applies decides: one of the three daemon-unreachable phrases gives
    [ErrNoDaemon]; else "already exists" gives [ErrSessionExists]; else "not
    found" or "no such session" gives [ErrSessionNotFound]; else a trimmed
    text that is not empty gives an error that wraps nothing and whose
    message is "amux", the subcommand and the trimmed text; else the result
    wraps the process error. *)
Theorem C4_wrapError_classification
        (err : error) (stderr sub : string) (rest : list string) :
  let t := TrimSpace stderr in
  let unreachable :=
    Contains t "daemon not running" || Contains t "connection refused"
    || Contains t "no such file or directory" in
  let duplicate := Contains t "already exists" in
  let missing := Contains t "not found" || Contains t "no such session" in
  let r := wrapError err stderr (sub :: rest) in
  (unreachable = true -> r = Return ErrNoDaemon)
  /\ (unreachable = false -> duplicate = true -> r = Return ErrSessionExists)
  /\ (unreachable = false -> duplicate = false -> missing = true ->
      r = Return ErrSessionNotFound)
  /\ (unreachable = false -> duplicate = false -> missing = false ->
      t <> EmptyString ->
      exists e, r = Return e
                /\ e = Errorf ("amux " +:+ sub +:+ ": " +:+ t)
                /\ Unwrap e = None
                /\ Contains (Error e) sub = true
                /\ Contains (Error e) t = true)
  /\ (unreachable = false -> duplicate = false -> missing = false ->
      t = EmptyString ->
      exists e, r = Return e
                /\ Unwrap e = Some err
                /\ Is e err = true
                /\ Contains (Error e) sub = true).
Proof.
  intros t unreachable duplicate missing r.
  subst r. unfold wrapError. fold t. fold unreachable duplicate missing.
  repeat split.
  - intros ->. reflexivity.
  - intros -> ->. reflexivity.
  - intros -> -> ->. reflexivity.
  - intros -> -> -> Ht.
    destruct (String.eqb_spec t EmptyString) as [E|_]; [contradiction|].
    simpl. eexists. split; [reflexivity|]. repeat split.
    + apply (Contains_app "amux " sub).
    + rewrite <- !app_assoc. apply Contains_suffix.
  - intros -> -> -> Ht. rewrite Ht. simpl.
    eexists. split; [reflexivity|]. repeat split.
    + apply Is_wrapped.
    + apply (Contains_app "amux " sub).
Qed.

(** Each of the five rules of C4 at an input of its own. *)
Lemma C4_wrapError_classification_witness :
  wrapError (External "exit status 1") ("Error: daemon not running" +:+ LF) ["ls"]
  = Return ErrNoDaemon
  /\ wrapError (External "exit status 1") "session already exists" ["new"]
     = Return ErrSessionExists
  /\ wrapError (External "exit status 1") "no such session" ["has"]
     = Return ErrSessionNotFound
  /\ (exists e, wrapError (External "exit status 1") ("permission denied" +:+ LF)
                          ["kill"] = Return e
                /\ e = Errorf "amux kill: permission denied"
                /\ Unwrap e = None
                /\ Contains (Error e) "kill" = true
                /\ Contains (Error e) "permission denied" = true)
  /\ (exists e, wrapError (External "exit status 1") LF ["new"] = Return e
                /\ Unwrap e = Some (External "exit status 1")
                /\ Is e (External "exit status 1") = true
                /\ Contains (Error e) "new" = true).
Proof.
  split; [|split; [|split; [|split]]].
  - apply (C4_wrapError_classification
             (External "exit status 1") ("Error: daemon not running" +:+ LF)
             "ls" []).
    reflexivity.
  - apply (C4_wrapError_classification
             (External "exit status 1") "session already exists" "new" []);
      reflexivity.
  - apply (C4_wrapError_classification
             (External "exit status 1") "no such session" "has" []);
      reflexivity.
  - apply (C4_wrapError_classification
             (External "exit status 1") ("permission denied" +:+ LF) "kill" []);
      try reflexivity.
    vm_compute. discriminate.
  - apply (C4_wrapError_classification
             (External "exit status 1") LF "new" []);
      reflexivity.
Defined.

(** C4 as it is worded fails on the text a tool really prints: the line
    feed that ends it is part of the raw text and not of the message. *)
Lemma C4_raw_stderr_counterexample :
  let stderr := "permission denied" +:+ LF in
  stderr <> EmptyString
  /\ Contains stderr "daemon not running" = false
  /\ Contains stderr "connection refused" = false
  /\ Contains stderr "no such file or directory" = false
  /\ Contains stderr "already exists" = false
  /\ Contains stderr "not found" = false
  /\ Contains stderr "no such session" = false
  /\ wrapError (External "exit status 1") stderr ["kill"]
     = Return (Errorf "amux kill: permission denied")
  /\ Contains (Error (Errorf "amux kill: permission denied")) stderr = false.
Proof. vm_compute. repeat split; discriminate. Qed.

End ClassifierFacts.


(* ================================================================== *)
(** * Running a subcommand *)
(* ================================================================== *)

Module RunFacts.
Import AmuxCore GoFacts ClassifierFacts.

Section WithPlatform.
Context {World : Type} `{!Platform World}.

Local Abbreviation St := (State World).

(** The state once the subprocess for [args] has run: the world has moved,
    the nudge locks have not. *)
Definition ranOn (st : St) (args : list string) : St :=
  {| world := (runAmux args (world st)).2;
     sessionNudgeLocks := sessionNudgeLocks st |}.

(** What the subprocess for [args] answers on a state. *)
Definition answer (st : St) (args : list string) : CmdResult :=
  (runAmux args (world st)).1.

Lemma run_eq (sub : string) (rest : list string) (st : St) :
  run (sub :: rest) st
  = (match runErr (answer st (sub :: rest)) with
     | Some err =>
         match wrapError err (stderrText (answer st (sub :: rest)))
                         (sub :: rest) with
         | Return e => Return (inr e)
         | Panic reason => Panic reason
         end
     | None => Return (inl (TrimSpace (stdoutText (answer st (sub :: rest)))))
     end,
     ranOn st (sub :: rest)).
Proof.
  unfold run, cmdRun, bind, ret, lift, ranOn, answer.
  destruct (runAmux (sub :: rest) (world st)) as [r w]. simpl.
  destruct (runErr r) as [err|]; [|reflexivity].
  destruct (wrapError err (stderrText r) (sub :: rest)); reflexivity.
Qed.

(** A subcommand that exits with success yields its trimmed output. *)
Lemma run_ok (sub : string) (rest : list string) (st : St) :
  runErr (answer st (sub :: rest)) = None ->
  run (sub :: rest) st
  = (Return (inl (TrimSpace (stdoutText (answer st (sub :: rest))))),
     ranOn st (sub :: rest)).
Proof. intros H. rewrite run_eq, H. reflexivity. Qed.

(** A subcommand that fails yields a classified error, never a panic. *)
Lemma run_failed (sub : string) (rest : list string) (st : St) (err : error) :
  runErr (answer st (sub :: rest)) = Some err ->
  exists e,
    wrapError err (stderrText (answer st (sub :: rest))) (sub :: rest) = Return e
    /\ run (sub :: rest) st = (Return (inr e), ranOn st (sub :: rest)).
Proof.
  intros H. rewrite run_eq, H.
  destruct (wrapError_returns err (stderrText (answer st (sub :: rest))) sub rest)
    as [e He].
  exists e. rewrite He. split; reflexivity.
Qed.

Lemma run_returns (sub : string) (rest : list string) (st : St) :
  exists r, run (sub :: rest) st = (Return r, ranOn st (sub :: rest)).
Proof.
  destruct (runErr (answer st (sub :: rest))) as [err|] eqn:E.
  - destruct (run_failed sub rest st err E) as (e & _ & ->). eauto.
  - rewrite (run_ok sub rest st E). eauto.
Qed.

End WithPlatform.

End RunFacts.

(* ================================================================== *)
(** * The adapter of [amux.go]: existence, liveness, health *)
(* ================================================================== *)

Module AmuxFacts.
Import AmuxCore GoFacts FloatFacts ClassifierFacts RunFacts.

Section WithPlatform.
Context {World : Type} `{!Platform World}.

Local Abbreviation St := (State World).

(** [HasSession] of [amux.go] answers [(true, nil)] when [amux has] exits
    with success and [(false, nil)] on every failure; it runs that one
    subcommand and hands no error to its caller. *)
Lemma HasSession_eq (name : string) (st : St) :
  Amux.HasSession name st
  = (Return (bool_decide (runErr (answer st ["has"; "-t"; name]) = None), None),
     ranOn st ["has"; "-t"; name]).
Proof.
  unfold Amux.HasSession, bind.
  destruct (runErr (answer st ["has"; "-t"; name])) as [err|] eqn:E.
  - destruct (run_failed _ _ st err E) as (e & _ & ->). reflexivity.
  - rewrite (run_ok _ _ st E). reflexivity.
Qed.

Lemma HasSession_never_errors (name : string) (st : St) :
  exists found, result (Amux.HasSession name st) = Return (found, None).
Proof. rewrite HasSession_eq. eauto. Qed.

(** The earlier text of [amux.go] has the same [HasSession]. *)
Lemma HasSession_list_eq (name : string) (st : St) :
  AmuxList.HasSession name st = Amux.HasSession name st.
Proof. reflexivity. Qed.

(** [GetSessionInfo] returns: a descriptor, or the error of the probe. *)
Lemma GetSessionInfo_returns (name : string) (st : St) :
  exists r, Amux.GetSessionInfo name st
            = (Return r, ranOn st ["info"; "-t"; name; "--json"]).
Proof.
  unfold Amux.GetSessionInfo, bind.
  destruct (run_returns "info" ["-t"; name; "--json"] st) as [[out|err] ->].
  - destruct (unmarshalSessionInfo out); unfold ret; eauto.
  - unfold ret; eauto.
Qed.

(** [float64(time.Second)]: 10^9 is 5^9 * 2^9, of 30 digits. *)
Lemma float64_Second :
  float64_of_int Second = S754_finite false (shl 1953125 32) (- 23).
Proof. reflexivity. Qed.

(** The conversion of an idle time that is [n * 2^e] seconds, where [n] is
    small enough for [n * 5^9] to have 53 digits at most: the product with
    [float64(time.Second)] is computed without error, and the idle time is
    [n * 10^9 / 2^(-e)] nanoseconds, the fraction cut off. *)
Lemma idleDuration_dyadic (info : SessionInfo) (n : positive) (e : Z) :
  IdleSecs info = binary_normalize 53 1024 (Z.pos n) e false ->
  Z.pos n * 5 ^ 9 < 2 ^ 53 ->
  - 1000 <= e <= 0 ->
  Amux.idleDuration info = Z.pos n * Second / 2 ^ (- e).
Proof.
  intros Hidle Hsmall He.
  assert (Hq : Z.pos (n * 1953125) = Z.pos n * 5 ^ 9) by (rewrite Pos2Z.inj_mul; reflexivity).
  assert (HD : Z.pos (digits2_pos n) <= 53) by (apply digits_le; lia).
  assert (HD1 : 1 <= Z.pos (digits2_pos n)) by lia.
  assert (HP : Z.pos (digits2_pos (n * 1953125)) <= 53)
    by (apply digits_le; rewrite Hq; exact Hsmall).
  assert (HP1 : 20 < Z.pos (digits2_pos (n * 1953125)))
    by (apply digits_gt; [lia | rewrite Hq; change (2 ^ 20) with 1048576;
                                change (5 ^ 9) with 1953125; lia]).
  unfold Amux.idleDuration, float64_mul. rewrite Hidle, float64_Second.
  rewrite (binary_normalize_exact n e) by lia.
  rewrite SFmul_exact by lia.
  set (P := (n * 1953125)%positive) in *.
  set (D := Z.pos (digits2_pos P)) in *.
  set (d := Z.pos (digits2_pos n)) in *.
  replace (e + d - 53 + - 23 + Z.of_nat (Z.to_nat (53 - d)) + Z.of_nat 32 + D - 53)
    with (e + 9 + D - 53) by lia.
  assert (Hvalue : (if 0 <=? e + 9 + D - 53
                    then Z.shiftl (Z.pos (shl P (Z.to_nat (53 - D)))) (e + 9 + D - 53)
                    else Z.shiftr (Z.pos (shl P (Z.to_nat (53 - D))))
                                  (- (e + 9 + D - 53)))
                   = Z.pos n * Second / 2 ^ (- e)).
  { rewrite shl_value, Z2Nat.id by lia. rewrite <- Z.shiftl_mul_pow2 by lia.
    assert (Hshift : forall k, Z.shiftr (Z.shiftl (Z.pos P) (53 - D)) k
                               = Z.shiftl (Z.pos P) (53 - D - k)).
    { intros k. apply Z.shiftr_shiftl_l. lia. }
    assert (Hall : (if 0 <=? e + 9 + D - 53
                    then Z.shiftl (Z.shiftl (Z.pos P) (53 - D)) (e + 9 + D - 53)
                    else Z.shiftr (Z.shiftl (Z.pos P) (53 - D))
                                  (- (e + 9 + D - 53)))
                   = Z.shiftl (Z.pos P) (e + 9)).
    { destruct (Z.leb_spec 0 (e + 9 + D - 53)).
      - rewrite Z.shiftl_shiftl by lia. f_equal. lia.
      - rewrite Hshift. f_equal. lia. }
    rewrite Hall, Hq.
    change Second with (5 ^ 9 * 2 ^ 9).
    destruct (Z.le_gt_cases 0 (e + 9)) as [Hpos|Hneg].
    - rewrite Z.shiftl_mul_pow2 by lia.
      replace (2 ^ 9) with (2 ^ (e + 9) * 2 ^ (- e))
        by (rewrite <- Z.pow_add_r by lia; f_equal; lia).
      rewrite !Z.mul_assoc, Z.div_mul by (apply Z.pow_nonzero; lia).
      reflexivity.
    - rewrite Z.shiftl_div_pow2 by lia.
      replace (2 ^ (- e)) with (2 ^ (- (e + 9)) * 2 ^ 9)
        by (rewrite <- Z.pow_add_r by lia; f_equal; lia).
      rewrite Z.mul_assoc, Z.div_mul_cancel_r
        by (try apply Z.pow_nonzero; lia).
      reflexivity. }
  unfold int64_of_float64. cbv zeta. rewrite Hvalue.
  assert (Hrange : 0 <= Z.pos n * Second / 2 ^ (- e) < 2 ^ 63).
  { assert (Hpow : 0 < 2 ^ (- e)) by (apply Z.pow_pos_nonneg; lia).
    assert (Hnum : 0 <= Z.pos n * Second < 2 ^ 63).
    { change Second with (5 ^ 9 * 512). change (2 ^ 63) with (2 ^ 53 * 1024).
      change (5 ^ 9) with 1953125 in *. lia. }
    split; [apply Z.div_pos; [lia | exact Hpow]|].
    apply Z.le_lt_trans with (Z.pos n * Second); [|lia].
    apply Z.div_le_upper_bound; [exact Hpow|].
    assert (1 <= 2 ^ (- e)) by lia.
    generalize dependent (2 ^ (- e)). generalize dependent (Z.pos n * Second).
    intros; nia. }
  destruct (Z.leb_spec (- 2 ^ 63) (Z.pos n * Second / 2 ^ (- e))); [|lia].
  destruct (Z.ltb_spec (Z.pos n * Second / 2 ^ (- e)) (2 ^ 63)); [|lia].
  reflexivity.
Qed.

(** The conversion of any idle time [m * 2^ex] seconds, of 53 digits at
    most and short of [2^62] nanoseconds: the product is rounded to 53
    digits and cut to whole nanoseconds, and what comes out is within 512
    nanoseconds of [m * 2^ex * 10^9]. *)
Lemma idleDuration_near (info : SessionInfo) (m : positive) (ex : Z) :
  IdleSecs info = S754_finite false m ex ->
  Z.pos m < 2 ^ 53 ->
  - 1000 <= ex <= 0 ->
  Z.pos m * Second / 2 ^ (- ex) < 2 ^ 62 ->
  Z.pos m * Second / 2 ^ (- ex) - 512 < Amux.idleDuration info
  <= Z.pos m * Second / 2 ^ (- ex) + 512.
Proof.
  intros Hidle Hm Hex Hbelow.
  set (reported := Z.pos m * Second / 2 ^ (- ex)) in *.
  unfold Amux.idleDuration, float64_mul. rewrite Hidle, float64_Second.
  cbn [SFmul xorb].
  change (shl 1953125 32) with 8388608000000000%positive.
  set (P := (m * 8388608000000000)%positive).
  assert (HP : Z.pos P = Z.pos m * Second * 2 ^ 23)
    by (unfold P; rewrite Pos2Z.inj_mul; change Second with 1000000000;
        change (2 ^ 23) with 8388608; lia).
  set (D := Z.pos (digits2_pos P)).
  assert (HD : 53 <= D <= 106).
  { split.
    - assert (52 < D); [|lia]. apply digits_gt; [lia|].
      rewrite HP. change Second with 1000000000.
      change (2 ^ 23) with 8388608. change (2 ^ 52) with 4503599627370496. lia.
    - apply digits_le. rewrite HP. change Second with 1000000000.
      change (2 ^ 23) with 8388608.
      change (2 ^ 106) with (2 ^ 53 * 9007199254740992).
      change (2 ^ 53) with 9007199254740992 in *. nia. }
  destruct (binary_round_aux_near false P (ex + - 23))
    as (m3 & e3 & m2 & -> & Hm1 & Hm2 & Hv); [fold D; lia | fold D; lia |].
  fold D in Hm1, Hm2, Hv.
  set (m1 := Z.pos P / 2 ^ (D - 53)) in *.
  set (j := ex + - 23 + D - 53) in *.
  assert (Hmagnitude : (if 0 <=? e3 then Z.shiftl (Z.pos m3) e3
                        else Z.shiftr (Z.pos m3) (- e3))
                       = Z.shiftl m2 j).
  { destruct (0 <=? e3); [exact Hv|]. rewrite Z.shiftr_opp_r. exact Hv. }
  assert (Ha : 0 < 2 ^ (- ex)) by (apply Z.pow_pos_nonneg; lia).
  assert (Hreported : reported = Z.pos P / (2 ^ 23 * 2 ^ (- ex))).
  { rewrite HP, (Z.mul_comm (2 ^ 23)).
    rewrite Z.div_mul_cancel_r by (try apply Z.pow_nonzero; lia). reflexivity. }
  assert (Hbounds : reported - 512 < Z.shiftl m2 j <= reported + 512
                    /\ 0 <= Z.shiftl m2 j).
  { destruct (Z.lt_ge_cases 0 j) as [Hj|Hj].
    - (* the product has whole nanoseconds only *)
      rewrite Z.shiftl_mul_pow2 by lia.
      assert (Hb : 0 < 2 ^ j) by (apply Z.pow_pos_nonneg; lia).
      assert (Hsplit : 2 ^ (D - 53) = 2 ^ 23 * 2 ^ (- ex) * 2 ^ j).
      { rewrite <- !Z.pow_add_r by lia. f_equal. unfold j. lia. }
      assert (Hm1' : m1 = reported / 2 ^ j).
      { unfold m1. rewrite Hsplit, <- Z.div_div by lia. now rewrite <- Hreported. }
      pose proof (Z.mul_div_le reported (2 ^ j) Hb) as Hle.
      pose proof (Z.mul_succ_div_gt reported (2 ^ j) Hb) as Hgt.
      rewrite <- Hm1' in Hle, Hgt.
      assert (Hsmall : 2 ^ j <= 512).
      { destruct (Z.le_gt_cases j 9) as [H9|H9].
        - change 512 with (2 ^ 9). apply Z.pow_le_mono_r; lia.
        - exfalso.
          assert (Hbig : 2 ^ 10 <= 2 ^ j) by (apply Z.pow_le_mono_r; lia).
          change (2 ^ 10) with 1024 in Hbig.
          change (2 ^ 52) with 4503599627370496 in Hm1.
          change (2 ^ 62) with (4503599627370496 * 1024) in Hbelow.
          generalize dependent (2 ^ j). intros; nia. }
      generalize dependent (2 ^ j). intros b Hb Hsplit Hm1' Hle Hgt Hsmall.
      change (2 ^ 52) with 4503599627370496 in Hm1.
      destruct Hm2 as [->| ->]; nia.
    - (* a fraction of a nanosecond is cut off *)
      rewrite Z.shiftl_div_pow2 by lia.
      assert (Hc : 0 < 2 ^ (- j)) by (apply Z.pow_pos_nonneg; lia).
      assert (Hk : 0 < 2 ^ (D - 53)) by (apply Z.pow_pos_nonneg; lia).
      assert (Hsplit : 2 ^ 23 * 2 ^ (- ex) = 2 ^ (D - 53) * 2 ^ (- j)).
      { rewrite <- !Z.pow_add_r by lia. f_equal. unfold j. lia. }
      assert (Hrep : reported = m1 / 2 ^ (- j)).
      { rewrite Hreported, Hsplit, <- Z.div_div by lia. reflexivity. }
      change (2 ^ 52) with 4503599627370496 in Hm1.
      pose proof (Z.mul_div_le m1 (2 ^ (- j)) Hc) as Hle.
      pose proof (Z.mul_succ_div_gt m1 (2 ^ (- j)) Hc) as Hgt.
      rewrite <- Hrep in Hle, Hgt.
      assert (Hnonneg : 0 <= reported) by (rewrite Hrep; apply Z.div_pos; lia).
      destruct Hm2 as [->| ->].
      + rewrite <- Hrep. lia.
      + assert (Hup : (m1 + 1) / 2 ^ (- j) <= reported + 1).
        { apply Z.div_le_upper_bound; [exact Hc|]. lia. }
        assert (Hlow : reported <= (m1 + 1) / 2 ^ (- j)).
        { rewrite Hrep. apply Z.div_le_mono; [exact Hc | lia]. }
        lia. }
  destruct Hbounds as [Hnear Hpos].
  unfold int64_of_float64. cbv zeta. rewrite Hmagnitude.
  assert (Hin : (- 2 ^ 63 <=? Z.shiftl m2 j) && (Z.shiftl m2 j <? 2 ^ 63) = true).
  { change (2 ^ 62) with 4611686018427387904 in Hbelow.
    apply andb_true_iff. split; [apply Z.leb_le | apply Z.ltb_lt];
      change (2 ^ 63) with 9223372036854775808; lia. }
  rewrite Hin. exact Hnear.
Qed.

(** The verdict on a live session, by the idle time as converted. *)
Lemma CheckSessionHealth_alive
      (session : string) (maxInactivity : Duration) (st : St) (info : SessionInfo) :
  result (Amux.GetSessionInfo session st) = Return (inl info) ->
  Alive info = true ->
  result (Amux.CheckSessionHealth session maxInactivity st)
  = Return (if (0 <? maxInactivity) && (maxInactivity <? Amux.idleDuration info)
            then AgentHung else SessionHealthy).
Proof.
  intros Hinfo Halive. unfold Amux.CheckSessionHealth, bind, result in *.
  destruct (Amux.GetSessionInfo session st) as [[[i|err]|] s1];
    cbn [fst] in Hinfo; try discriminate.
  injection Hinfo as ->. rewrite Halive. cbn [negb].
  destruct ((0 <? maxInactivity) && (maxInactivity <? Amux.idleDuration info));
    reflexivity.
Qed.

(** A product that no [int64] holds is converted as the platform pleases. *)
Lemma int64_of_float64_beyond (x : float64) :
  x = S754_nan \/ (exists s, x = S754_infinity s)
  \/ (exists m e, x = S754_finite false m e /\ 63 <= e) ->
  int64_of_float64 x = int64Unrepresentable x.
Proof.
  intros [->|[[s ->]|(m & e & -> & He)]]; [reflexivity | reflexivity |].
  unfold int64_of_float64. cbv zeta.
  destruct (Z.leb_spec 0 e); [|lia].
  rewrite Z.shiftl_mul_pow2 by lia.
  assert (Hpow : 2 ^ 63 <= 2 ^ e) by (apply Z.pow_le_mono_r; lia).
  assert (Hbig : 2 ^ 63 <= Z.pos m * 2 ^ e).
  { change (2 ^ 63) with 9223372036854775808 in *.
    generalize dependent (2 ^ e). intros; nia. }
  destruct (Z.ltb_spec (Z.pos m * 2 ^ e) (2 ^ 63)); [lia|].
  now rewrite andb_false_r.
Qed.


End WithPlatform.

End AmuxFacts.


(** A world with two live sessions: [brief], which reports an idle time of
    2^-29 seconds, a little under two nanoseconds, and [ancient], which
    reports one of 10^10 seconds. *)
Module ScenarioIdle.
Import AmuxCore Scenario.

Definition brief : SessionInfo :=
  {| Name := "brief"; Command := "claude"; PID := 4244; Alive := true;
     CreatedAt := "2026-01-01T00:00:00Z";
     UptimeSecs := float64_of_int 600;
     LastActivity := "2026-01-01T00:10:00Z";
     IdleSecs := binary_normalize 53 1024 1 (- 29) false |}.

Definition ancient : SessionInfo :=
  {| Name := "ancient"; Command := "claude"; PID := 4245; Alive := true;
     CreatedAt := "2026-01-01T00:00:00Z";
     UptimeSecs := float64_of_int 600;
     LastActivity := "2026-01-01T00:10:00Z";
     IdleSecs := float64_of_int 10000000000 |}.

Definition idleJSON (i : SessionInfo) (idle : string) : string :=
  "{" +:+ field "name" (quotePlain (Name i)) +:+ ","
      +:+ field "command" (quotePlain (Command i)) +:+ ","
      +:+ field "pid" (NilZero.string_of_int (Z.to_int (PID i))) +:+ ","
      +:+ field "alive" (if Alive i then "true" else "false") +:+ ","
      +:+ field "created_at" (quotePlain (CreatedAt i)) +:+ ","
      +:+ field "uptime_secs" "600" +:+ ","
      +:+ field "last_activity" (quotePlain (LastActivity i)) +:+ ","
      +:+ field "idle_secs" idle +:+ "}".

Definition briefJSON : string := idleJSON brief "1.862645149230957e-09".
Definition ancientJSON : string := idleJSON ancient "10000000000.0".

(** [json.Unmarshal] on the two documents. *)
Definition decodeIdle (text : string) : SessionInfo + error :=
  if String.eqb text briefJSON then inl brief
  else if String.eqb text ancientJSON then inl ancient
  else inr (External "unexpected end of JSON input").

Definition idleDaemon (args : list string) : CmdResult :=
  match args with
  | ["info"; "-t"; n; "--json"] =>
      if String.eqb n "brief" then ok (briefJSON +:+ LF)
      else if String.eqb n "ancient" then ok (ancientJSON +:+ LF)
      else failed ("session not found" +:+ LF)
  | _ => failed ("unknown command" +:+ LF)
  end.

(** The platform of the small world with this decoder; a conversion out
    of range gives the least [int64], as on amd64. *)
Definition idlePlatform : Platform TestWorld := {|
  runAmux := runAmux (Platform := testPlatform);
  awaitSlot := awaitSlot (Platform := testPlatform);
  selectDelay := selectDelay (Platform := testPlatform);
  selectTimer := selectTimer (Platform := testPlatform);
  Quote := quotePlain;
  unmarshalSessionInfo := decodeIdle;
  unmarshalSessions := decodeSessions;
  Environ := environment;
  int64Unrepresentable _ := - 2 ^ 63
|}.

Definition startIdle : State TestWorld :=
  {| world := {| respond := idleDaemon; calls := []; releasedInTime := false;
                 environment := [] |};
     sessionNudgeLocks := ∅ |}.

End ScenarioIdle.


(* ================================================================== *)
(** * Liveness probes of the three revisions *)
(* ================================================================== *)

Module LivenessFacts.
Import AmuxCore GoFacts ClassifierFacts RunFacts AmuxFacts.

Section WithPlatform.
Context {World : Type} `{!Platform World}.

Local Abbreviation St := (State World).

(** [HasSession] of the adapter without [send]: success is [(true, nil)],
    a failure classified as "not found" or "no daemon" is [(false, nil)],
    and any other failure is returned to the caller. *)
Lemma HasSession_nosend_eq (name : string) (st : St) :
  exists r,
    AmuxNoSend.HasSession name st = (Return r, ranOn st ["has"; "-t"; name])
    /\ match runErr (answer st ["has"; "-t"; name]) with
       | None => r = (true, None)
       | Some err =>
           exists e,
             wrapError err (stderrText (answer st ["has"; "-t"; name]))
                       ["has"; "-t"; name] = Return e
             /\ r = (false,
                     if Is e ErrSessionNotFound || Is e ErrNoDaemon
                     then None else Some e)
       end.
Proof.
  unfold AmuxNoSend.HasSession, bind.
  destruct (runErr (answer st ["has"; "-t"; name])) as [err|] eqn:E.
  - destruct (run_failed _ _ st err E) as (e & He & ->).
    destruct (Is e ErrSessionNotFound || Is e ErrNoDaemon) eqn:Ecls;
      unfold ret; eexists; (split; [reflexivity|]); exists e;
        rewrite Ecls; split; auto.
  - rewrite (run_ok _ _ st E). unfold ret. eauto.
Qed.

Lemma HasSession_nosend_found_or_false (name : string) (st : St) :
  exists found err,
    AmuxNoSend.HasSession name st
    = (Return (found, err), ranOn st ["has"; "-t"; name])
    /\ (err <> None -> found = false).
Proof.
  destruct (HasSession_nosend_eq name st) as ([found err] & Heq & Hcase).
  exists found, err. split; [exact Heq|].
  destruct (runErr (answer st ["has"; "-t"; name])) as [failure|].
  - destruct Hcase as (cls & _ & [= -> _]). reflexivity.
  - injection Hcase as -> ->. congruence.
Qed.

(** C10.  For every session name and state, in each of the three
    revisions, [IsAgentAlive] returns the boolean that [HasSession] returns
    on that state and leaves the state [HasSession] leaves; on [amux.go] it
    is decided by the exit status of [amux has] alone, so that a session the
    multiplexer has, and whose descriptor says the agent has exited, is
    reported alive. *)
Theorem C10_IsAgentAlive_is_HasSession (session : string) (st : St) :
  (exists found err,
      Amux.HasSession session st = (Return (found, err), ranOn st ["has"; "-t"; session])
      /\ Amux.IsAgentAlive session st = (Return found, ranOn st ["has"; "-t"; session]))
  /\ (exists found err,
         AmuxList.HasSession session st
         = (Return (found, err), ranOn st ["has"; "-t"; session])
         /\ AmuxList.IsAgentAlive session st
            = (Return found, ranOn st ["has"; "-t"; session]))
  /\ (exists found err,
         AmuxNoSend.HasSession session st
         = (Return (found, err), ranOn st ["has"; "-t"; session])
         /\ AmuxNoSend.IsAgentAlive session st
            = (Return found, ranOn st ["has"; "-t"; session]))
  /\ Amux.IsAgentAlive session st
     = (Return (bool_decide (runErr (answer st ["has"; "-t"; session]) = None)),
        ranOn st ["has"; "-t"; session])
  /\ (forall info,
        runErr (answer st ["has"; "-t"; session]) = None ->
        result (Amux.GetSessionInfo session st) = Return (inl info) ->
        Alive info = false ->
        result (Amux.IsAgentAlive session st) = Return true).
Proof.
  assert (Hamux : Amux.IsAgentAlive session st
                  = (Return (bool_decide
                               (runErr (answer st ["has"; "-t"; session]) = None)),
                     ranOn st ["has"; "-t"; session])).
  { unfold Amux.IsAgentAlive, bind. rewrite HasSession_eq. reflexivity. }
  split; [|split; [|split; [|split]]].
  - do 2 eexists. split; [apply HasSession_eq | exact Hamux].
  - do 2 eexists. split; [apply HasSession_eq | exact Hamux].
  - destruct (HasSession_nosend_found_or_false session st)
      as (found & err & Heq & Herr).
    exists found, err. split; [exact Heq|].
    unfold AmuxNoSend.IsAgentAlive, bind. rewrite Heq.
    destruct err as [e|]; [|reflexivity].
    rewrite Herr by discriminate. reflexivity.
  - exact Hamux.
  - intros info Hhas _ _. rewrite Hamux, Hhas. reflexivity.
Qed.

(** [IsAgentRunning] of [amux.go], with commands to expect: true exactly
    when the descriptor is alive and its command contains one of them. *)
Lemma IsAgentRunning_true_iff
      (session : string) (expected : list string) (st : St) :
  expected <> [] ->
  result (Amux.IsAgentRunning session expected st) = Return true
  <-> exists info,
      result (Amux.GetSessionInfo session st) = Return (inl info)
      /\ Alive info = true
      /\ exists cmd, In cmd expected /\ Contains (Command info) cmd = true.
Proof.
  intros Hne.
  destruct (GetSessionInfo_returns session st) as [r Hr].
  unfold Amux.IsAgentRunning, bind, result. rewrite Hr. simpl.
  destruct r as [info|err].
  - destruct (Alive info) eqn:Ha; cbn [negb].
    + assert (Hlen : (length expected =? 0)%nat = false)
        by (destruct expected; [contradiction | reflexivity]).
      rewrite Hlen. unfold ret. cbn [fst]. split.
      * intros [= Hex]. apply existsb_exists in Hex. eauto.
      * intros (info' & [= <-] & _ & Hex).
        f_equal. apply existsb_exists. exact Hex.
    + split; [discriminate|].
      intros (info' & [= <-] & Ha' & _). congruence.
  - split; [discriminate|]. intros (info' & [=] & _).
Qed.

(** The two revisions that read [amux ls] do not look at the expected
    commands at all. *)
Lemma IsAgentRunning_list_ignores_expected
      (session : string) (expected : list string) (st : St) :
  AmuxList.IsAgentRunning session expected st
  = AmuxList.IsAgentRunning session [] st
  /\ AmuxNoSend.IsAgentRunning session expected st
     = AmuxList.IsAgentRunning session [] st.
Proof. split; reflexivity. Qed.

(** C6, as the code has it.  On the adapter without [send], for every
    session, text and state, [SendKeys] returns (it does not panic), leaves
    the state as it was, and its result is an error that wraps
    [ErrSendKeysNotSupport] and whose message names the operation and the
    quoted session; the text to send plays no part in it. *)
Theorem C6_SendKeys_not_supported (session keys : string) (st : St) :
  exists e,
    AmuxNoSend.SendKeys session keys st = (Return (Some e), st)
    /\ Is e AmuxNoSend.ErrSendKeysNotSupport = true
    /\ Contains (Error e) "SendKeys" = true
    /\ Contains (Error e) (Quote session) = true
    /\ forall keys', AmuxNoSend.SendKeys session keys' st
                     = AmuxNoSend.SendKeys session keys st.
Proof.
  eexists. split; [reflexivity|].
  split; [apply Is_wrapped|].
  split; [|split; [|reflexivity]]; cbn [Error].
  - apply (Contains_app
             (Error AmuxNoSend.ErrSendKeysNotSupport +:+ ": ") "SendKeys").
  - rewrite <- (app_assoc _ ": SendKeys(").
    apply (Contains_app _ (Quote session) ")").
Qed.

End WithPlatform.

End LivenessFacts.

(** C10 at the session [w1] of the small world: the multiplexer has it,
    its descriptor says the agent has exited, the health check says
    [AgentDead], and [IsAgentAlive] says true. *)
Lemma C10_IsAgentAlive_is_HasSession_witness :
  result (Amux.IsAgentAlive "w1" Scenario.start0) = Return true
  /\ result (Amux.CheckSessionHealth "w1" 0 Scenario.start0) = Return AgentDead.
Proof.
  split.
  - destruct (LivenessFacts.C10_IsAgentAlive_is_HasSession "w1" Scenario.start0)
      as (_ & _ & _ & _ & H).
    eapply H; [reflexivity | vm_compute; reflexivity | reflexivity].
  - vm_compute. reflexivity.
Defined.

(** C3 on the adapter without [send].  [amux has] on a session that does
    not exist exits with status 1 and prints nothing; that failure matches
    no phrase of the classifier, and [HasSession] of this revision returns
    it as an error, where [HasSession] of [amux.go] returns [(false, nil)]
    on the same state. *)
Lemma C3_HasSession_nosend_surfaces_error :
  RunFacts.answer Scenario.start0 ["has"; "-t"; "ghost"]
  = {| runErr := Some (External "exit status 1");
       stdoutText := EmptyString; stderrText := EmptyString |}
  /\ result (AmuxNoSend.HasSession "ghost" Scenario.start0)
     = Return (false,
               Some (ErrorfW "amux has: exit status 1" (External "exit status 1")))
  /\ result (Amux.HasSession "ghost" Scenario.start0) = Return (false, None)
  /\ result (AmuxList.HasSession "ghost" Scenario.start0) = Return (false, None).
Proof. vm_compute. repeat split. Qed.

(** C5 on the two revisions that read [amux ls].  The session [w1] runs
    [bash] and its agent has exited; asked whether [claude] runs in it, both
    revisions answer true, where [IsAgentRunning] of [amux.go] answers false
    on the same state. *)
Lemma C5_IsAgentRunning_list_ignores_commands :
  result (Amux.GetSessionInfo "w1" Scenario.start0) = Return (inl Scenario.w1)
  /\ Alive Scenario.w1 = false
  /\ Contains (Command Scenario.w1) "claude" = false
  /\ result (AmuxList.IsAgentRunning "w1" ["claude"] Scenario.start0) = Return true
  /\ result (AmuxNoSend.IsAgentRunning "w1" ["claude"] Scenario.start0)
     = Return true
  /\ result (Amux.IsAgentRunning "w1" ["claude"] Scenario.start0) = Return false.
Proof. vm_compute. repeat split. Qed.

(** The same on a live session: [w2] is alive and runs [bash], not
    [claude]. *)
Example IsAgentRunning_alive_is_not_enough :
  Alive Scenario.w2 = true
  /\ result (Amux.IsAgentRunning "w2" [] Scenario.start0) = Return true
  /\ result (Amux.IsAgentRunning "w2" ["claude"] Scenario.start0) = Return false
  /\ result (Amux.IsAgentRunning "w2" ["claude"; "bash"] Scenario.start0)
     = Return true
  /\ result (AmuxList.IsAgentRunning "w2" ["claude"] Scenario.start0)
     = Return true.
Proof. vm_compute. repeat split. Qed.

(** C6 as it is worded fails: the error of [SendKeys "w1" "hello"] names the
    session and not the text. *)
Lemma C6_error_omits_text_counterexample :
  exists e,
    result (AmuxNoSend.SendKeys "w1" "hello" Scenario.start0) = Return (Some e)
    /\ Error e = "amux send not yet available (reverted); see gt-1nr: SendKeys("
                 +:+ Scenario.quotePlain "w1" +:+ ")"
    /\ Contains (Error e) "hello" = false
    /\ Contains (Error e) (Scenario.quotePlain "hello") = false.
Proof. eexists. vm_compute. repeat split. Qed.

(* ================================================================== *)
(** * The nudge lock *)
(* ================================================================== *)

Module NudgeLockFacts.
Import AmuxCore GoFacts RunFacts.

Section WithPlatform.
Context {World : Type} `{!Platform World}.

Local Abbreviation St := (State World).

(** The state with the world the wait on a full slot leaves. *)
Definition waitedOn (st : St) (session : string) (timeout : Duration) : St :=
  {| world := (awaitSlot session timeout (world st)).2;
     sessionNudgeLocks := sessionNudgeLocks st |}.

(** The state with the slot of a session set. *)
Definition withSlot (st : St) (session : string) (full : bool) : St :=
  {| world := world st;
     sessionNudgeLocks := <[session := full]> (sessionNudgeLocks st) |}.

Lemma slotHeld_withSlot (st : St) (session other : string) (full : bool) :
  slotHeld (withSlot st session full) other
  = if decide (session = other) then full else slotHeld st other.
Proof.
  unfold slotHeld, withSlot. simpl. rewrite lookup_insert.
  destruct (decide (session = other)); reflexivity.
Qed.

(** A timer that outlasts the delay has not fired, and the timer of
    [NudgeSession] never has. *)
Lemma timerFired_later (timeout : Duration) (w : World) :
  selectDelay w < timeout -> timerFired timeout w = false.
Proof.
  intros H. unfold timerFired.
  destruct (Z.leb_spec timeout (selectDelay w)); [lia | reflexivity].
Qed.

Lemma timerFired_nudgeLockTimeout (w : World) :
  timerFired nudgeLockTimeout w = false.
Proof. unfold timerFired. rewrite Z.ltb_irrefl. apply andb_false_r. Qed.

Lemma acquire_free (session : string) (timeout : Duration) (st : St) :
  slotHeld st session = false ->
  timerFired timeout (world st) = false ->
  acquireNudgeLock session timeout st = (Return true, withSlot st session true).
Proof.
  unfold slotHeld, acquireNudgeLock, getSessionNudgeSem, bind, withSlot.
  destruct (sessionNudgeLocks st !! session) as [[|]|] eqn:E; simpl;
    intros H Hfired.
  - discriminate.
  - rewrite E, Hfired. reflexivity.
  - rewrite lookup_insert_eq, Hfired, insert_insert_eq. reflexivity.
Qed.

(** On a free slot with the timer fired, the [select] decides. *)
Lemma acquire_free_fired (session : string) (timeout : Duration) (st : St) :
  slotHeld st session = false ->
  timerFired timeout (world st) = true ->
  exists st',
    acquireNudgeLock session timeout st
    = (Return (negb (selectTimer (world st)).1), st')
    /\ world st' = (selectTimer (world st)).2
    /\ (sessionNudgeLocks st'
        = <[session := negb (selectTimer (world st)).1]> (sessionNudgeLocks st)
        \/ ((selectTimer (world st)).1 = true
            /\ sessionNudgeLocks st' = sessionNudgeLocks st)).
Proof.
  unfold slotHeld, acquireNudgeLock, getSessionNudgeSem, bind.
  destruct (sessionNudgeLocks st !! session) as [[|]|] eqn:E; simpl;
    intros H Hfired.
  - discriminate.
  - rewrite E, Hfired. destruct (selectTimer (world st)) as [[|] w]; simpl;
      eexists; (split; [reflexivity|]); (split; [reflexivity|]); auto.
  - rewrite lookup_insert_eq, Hfired.
    destruct (selectTimer (world st)) as [[|] w]; simpl;
      eexists; (split; [reflexivity|]); (split; [reflexivity|]); left;
        [reflexivity | apply insert_insert_eq].
Qed.

Lemma acquire_held (session : string) (timeout : Duration) (st : St) :
  slotHeld st session = true ->
  acquireNudgeLock session timeout st
  = (Return (awaitSlot session timeout (world st)).1, waitedOn st session timeout).
Proof.
  unfold slotHeld, acquireNudgeLock, getSessionNudgeSem, bind, waitedOn.
  destruct (sessionNudgeLocks st !! session) as [[|]|] eqn:E; simpl; intros H;
    try discriminate.
  rewrite E. destruct (awaitSlot session timeout (world st)). reflexivity.
Qed.

Lemma release_held (session : string) (st : St) :
  slotHeld st session = true ->
  releaseNudgeLock session st = (Return tt, withSlot st session false).
Proof.
  unfold slotHeld, releaseNudgeLock, getSessionNudgeSem, bind, withSlot.
  destruct (sessionNudgeLocks st !! session) as [[|]|] eqn:E; simpl; intros H;
    try discriminate.
  rewrite E. reflexivity.
Qed.

Lemma release_free (session : string) (st : St) :
  slotHeld st session = false ->
  exists st',
    releaseNudgeLock session st = (Return tt, st')
    /\ world st' = world st
    /\ forall other, slotHeld st' other = slotHeld st other.
Proof.
  unfold slotHeld, releaseNudgeLock, getSessionNudgeSem, bind.
  destruct (sessionNudgeLocks st !! session) as [[|]|] eqn:E; simpl; intros H.
  - discriminate.
  - rewrite E. eauto.
  - rewrite lookup_insert_eq. eexists. split; [reflexivity|]. split; [reflexivity|].
    intros other. simpl. rewrite lookup_insert.
    destruct (decide (session = other)) as [<-|]; [|reflexivity].
    now rewrite E.
Qed.

(** After a release the slot is free, held before or not. *)
Lemma release_frees (session : string) (st : St) :
  exists st',
    releaseNudgeLock session st = (Return tt, st')
    /\ slotHeld st' session = false
    /\ world st' = world st.
Proof.
  destruct (slotHeld st session) eqn:E.
  - rewrite (release_held session st E). eexists. split; [reflexivity|].
    rewrite slotHeld_withSlot. destruct (decide (session = session)); [auto|congruence].
  - destruct (release_free session st E) as (st' & -> & Hw & Hs).
    exists st'. rewrite Hs. auto.
Qed.

(** C8.  For every session, timeout and state.  On a free slot, with a
    timeout that outlasts the delay between starting the timer and entering
    the [select], [acquireNudgeLock] returns true and takes the slot, touching
    no other slot.  On a free slot, with a timeout below that of
    [NudgeSession] that has run out by then, the send and the timer are both
    ready and the result is the choice of the [select]: true with the slot
    taken, or false with the slot left free.  On a held slot that no holder
    frees within the timeout it returns false and leaves every slot as it
    was.  [releaseNudgeLock] returns in both cases, frees a held slot and
    changes no slot when none is held; and after a release an acquire whose
    timeout outlasts the delay succeeds. *)
Theorem C8_nudge_lock (session : string) (timeout : Duration) (st : St) :
  (slotHeld st session = false ->
   selectDelay (world st) < timeout ->
   exists st',
     acquireNudgeLock session timeout st = (Return true, st')
     /\ slotHeld st' session = true
     /\ world st' = world st
     /\ forall other, other <> session -> slotHeld st' other = slotHeld st other)
  /\ (slotHeld st session = false ->
      timeout <= selectDelay (world st) -> timeout < nudgeLockTimeout ->
      exists st',
        acquireNudgeLock session timeout st
        = (Return (negb (selectTimer (world st)).1), st')
        /\ slotHeld st' session = negb (selectTimer (world st)).1
        /\ world st' = (selectTimer (world st)).2
        /\ forall other, other <> session -> slotHeld st' other = slotHeld st other)
  /\ (slotHeld st session = true ->
      (awaitSlot session timeout (world st)).1 = false ->
      acquireNudgeLock session timeout st
      = (Return false, waitedOn st session timeout)
      /\ sessionNudgeLocks (waitedOn st session timeout) = sessionNudgeLocks st)
  /\ (slotHeld st session = true ->
      exists st',
        releaseNudgeLock session st = (Return tt, st')
        /\ slotHeld st' session = false
        /\ world st' = world st
        /\ forall other, other <> session -> slotHeld st' other = slotHeld st other)
  /\ (slotHeld st session = false ->
      exists st',
        releaseNudgeLock session st = (Return tt, st')
        /\ world st' = world st
        /\ forall other, slotHeld st' other = slotHeld st other)
  /\ (selectDelay (world st) < timeout ->
      result (acquireNudgeLock session timeout (after (releaseNudgeLock session st)))
      = Return true).
Proof.
  split; [|split; [|split; [|split; [|split]]]].
  - intros Hfree Hlater.
    rewrite (acquire_free session timeout st Hfree
                          (timerFired_later _ _ Hlater)).
    eexists. split; [reflexivity|]. split; [|split; [reflexivity|]].
    + rewrite slotHeld_withSlot. destruct (decide (session = session)); congruence.
    + intros other Hne. rewrite slotHeld_withSlot.
      destruct (decide (session = other)); congruence.
  - intros Hfree Hout Hshort.
    assert (Hfired : timerFired timeout (world st) = true).
    { unfold timerFired. apply andb_true_iff. split.
      - now apply Z.leb_le.
      - now apply Z.ltb_lt. }
    destruct (acquire_free_fired session timeout st Hfree Hfired)
      as (st' & Heq & Hw & Hlocks).
    exists st'. split; [exact Heq|]. split; [|split; [exact Hw|]].
    + unfold slotHeld in *. destruct Hlocks as [->|[Ht ->]].
      * now rewrite lookup_insert_eq.
      * rewrite Ht. exact Hfree.
    + intros other Hne. unfold slotHeld. destruct Hlocks as [->|[_ ->]];
        [|reflexivity].
      rewrite lookup_insert_ne by congruence. reflexivity.
  - intros Hheld Hwait. rewrite (acquire_held session timeout st Hheld), Hwait.
    split; reflexivity.
  - intros Hheld. rewrite (release_held session st Hheld).
    eexists. split; [reflexivity|]. split; [|split; [reflexivity|]].
    + rewrite slotHeld_withSlot. destruct (decide (session = session)); congruence.
    + intros other Hne. rewrite slotHeld_withSlot.
      destruct (decide (session = other)); congruence.
  - apply release_free.
  - intros Hlater.
    destruct (release_frees session st) as (st' & -> & Hfree & Hw).
    unfold after. simpl.
    rewrite (acquire_free session timeout st' Hfree); [reflexivity|].
    apply timerFired_later. now rewrite Hw.
Qed.

End WithPlatform.

End NudgeLockFacts.

(** C8 on the steps of [TestNudgeLock]: acquire with 100 ms, a second
    acquire with 1 ms while the slot is held, release, acquire again. *)
Lemma C8_nudge_lock_witness :
  let s := "test-nudge-lock" in
  let st1 := after (AmuxCore.acquireNudgeLock s 100000000 Scenario.start0) in
  let st2 := after (AmuxCore.acquireNudgeLock s 1000000 st1) in
  let st3 := after (AmuxCore.releaseNudgeLock s st2) in
  result (AmuxCore.acquireNudgeLock s 100000000 Scenario.start0) = Return true
  /\ result (AmuxCore.acquireNudgeLock s 1000000 st1) = Return false
  /\ AmuxCore.sessionNudgeLocks st2 = AmuxCore.sessionNudgeLocks st1
  /\ AmuxCore.slotHeld st3 s = false
  /\ result (AmuxCore.acquireNudgeLock s 100000000 st3) = Return true.
Proof.
  intros s st1 st2 st3.
  split; [|split; [|split; [|split]]].
  - destruct (NudgeLockFacts.C8_nudge_lock s 100000000 Scenario.start0)
      as (H & _).
    destruct H as (st' & -> & _); reflexivity.
  - destruct (NudgeLockFacts.C8_nudge_lock s 1000000 st1) as (_ & _ & H & _).
    destruct H as (-> & _); reflexivity.
  - destruct (NudgeLockFacts.C8_nudge_lock s 1000000 st1) as (_ & _ & H & _).
    destruct H as (Heq & Hlocks); [reflexivity | reflexivity |].
    subst st2. rewrite Heq. exact Hlocks.
  - destruct (NudgeLockFacts.C8_nudge_lock s 1000000 st2) as (_ & _ & _ & H & _).
    destruct H as (st' & Heq & Hfree & _); [reflexivity|].
    subst st3. rewrite Heq. exact Hfree.
  - apply (proj2 (proj2 (proj2 (proj2 (proj2
             (NudgeLockFacts.C8_nudge_lock s 100000000 st2)))))).
    reflexivity.
Defined.

(** C8 as it is worded fails for a timeout that has run out when the
    [select] is entered: with a timeout of zero on a free slot, in a world
    whose [select] takes the timer, [acquireNudgeLock] returns false, and the
    slot is as free as it was. *)
Lemma C8_elapsed_timeout_counterexample :
  let s := "test-nudge-lock" in
  AmuxCore.slotHeld Scenario.start0 s = false
  /\ result (AmuxCore.acquireNudgeLock s 0 Scenario.start0) = Return false
  /\ AmuxCore.slotHeld (after (AmuxCore.acquireNudgeLock s 0 Scenario.start0)) s
     = false.
Proof. vm_compute. repeat split. Qed.

(* ================================================================== *)
(** * [NudgeSession] *)
(* ================================================================== *)

Module NudgeFacts.
Import AmuxCore GoFacts RunFacts NudgeLockFacts.

Example nudgeLockTimeout_is_30s : nudgeLockTimeout = 30000000000.
Proof. reflexivity. Qed.

Section WithPlatform.
Context {World : Type} `{!Platform World}.

Local Abbreviation St := (State World).

(** What C7 asks of a [NudgeSession] over its [SendKeys].  When the slot is
    held and no holder frees it within [nudgeLockTimeout], the result is an
    error of its own, naming the quoted session, and the state is the one the
    wait leaves: nothing was sent.  When the slot is free, or is freed in
    time, the lock is taken, [SendKeys] runs on the state with the lock held,
    its result (an error or a panic included) is the result of the nudge, and
    the slot is free in the state the nudge leaves. *)
Definition NudgeContract (Nudge Send : string -> string -> M St (option error))
  : Prop :=
  forall (session message : string) (st : St),
    (slotHeld st session = true ->
     (awaitSlot session nudgeLockTimeout (world st)).1 = false ->
     exists e,
       Nudge session message st
       = (Return (Some e), waitedOn st session nudgeLockTimeout)
       /\ e = Errorf ("nudge lock timeout for session " +:+ Quote session
                      +:+ ": previous nudge may be hung")
       /\ Contains (Error e) (Quote session) = true)
    /\ (slotHeld st session = false
        \/ (awaitSlot session nudgeLockTimeout (world st)).1 = true ->
        exists locked,
          acquireNudgeLock session nudgeLockTimeout st = (Return true, locked)
          /\ slotHeld locked session = true
          /\ result (Nudge session message st)
             = result (Send session message locked)
          /\ world (after (Nudge session message st))
             = world (after (Send session message locked))
          /\ slotHeld (after (Nudge session message st)) session = false).

(** The body shared by the three revisions meets the contract over any
    [SendKeys] that leaves the nudge locks alone. *)
Lemma nudgeSession_contract (Send : string -> string -> M St (option error)) :
  (forall session message st,
      sessionNudgeLocks (after (Send session message st)) = sessionNudgeLocks st) ->
  NudgeContract (nudgeSession Send) Send.
Proof.
  intros Hsend session message st. split.
  - intros Hheld Hwait. unfold nudgeSession, bind.
    rewrite (acquire_held _ _ _ Hheld), Hwait. simpl.
    eexists. split; [reflexivity|]. split; [reflexivity|].
    apply (Contains_app "nudge lock timeout for session " (Quote session)).
  - intros Hcase.
    assert (Hacq : exists locked,
               acquireNudgeLock session nudgeLockTimeout st = (Return true, locked)
               /\ slotHeld locked session = true).
    { destruct (slotHeld st session) eqn:E.
      - destruct Hcase as [|Hwait]; [discriminate|].
        rewrite (acquire_held _ _ _ E), Hwait. eexists. split; [reflexivity|].
        exact E.
      - rewrite (acquire_free _ _ _ E (timerFired_nudgeLockTimeout _)).
        eexists. split; [reflexivity|].
        rewrite slotHeld_withSlot.
        destruct (decide (session = session)); congruence. }
    destruct Hacq as (locked & Hacq & Hlocked).
    exists locked. split; [exact Hacq|]. split; [exact Hlocked|].
    unfold nudgeSession, bind. rewrite Hacq. simpl. unfold defer.
    specialize (Hsend session message locked).
    destruct (Send session message locked) as [r sent] eqn:Es.
    unfold after in Hsend. simpl in Hsend.
    assert (Hheld : slotHeld sent session = true).
    { unfold slotHeld in *. now rewrite Hsend. }
    rewrite (release_held _ _ Hheld). unfold result, after. cbn [fst snd].
    split; [reflexivity|]. split; [reflexivity|].
    rewrite slotHeld_withSlot.
    destruct (decide (session = session)); congruence.
Qed.

Lemma SendKeys_keeps_locks (session keys : string) (st : St) :
  sessionNudgeLocks (after (Amux.SendKeys session keys st)) = sessionNudgeLocks st.
Proof.
  unfold Amux.SendKeys, bind.
  destruct (run_returns "send" ["-t"; session; "-l"; keys] st) as [[out|err] ->];
    reflexivity.
Qed.


End WithPlatform.

End NudgeFacts.


(* ================================================================== *)
(** * The environment overlay *)
(* ================================================================== *)

Module BuildEnvFacts.
Import AmuxCore GoFacts.

(** A key cut off before the first [=] has no [=] in it. *)
Lemma Cut_Some (s : string) (sep : ascii) (before rest : string) :
  Cut s sep = Some (before, rest) ->
  s = before +:+ String sep rest /\ Cut before sep = None.
Proof.
  revert before rest. induction s as [|c s IH]; intros before rest; simpl.
  - discriminate.
  - destruct (Ascii.eqb_spec c sep) as [->|Hne].
    + intros [= <- <-]. split; reflexivity.
    + destruct (Cut s sep) as [[b a]|] eqn:E; [|discriminate].
      intros [= <- <-]. destruct (IH b a eq_refl) as [-> Hb].
      split; [reflexivity|]. simpl.
      destruct (Ascii.eqb_spec c sep); [contradiction|]. now rewrite Hb.
Qed.

(** An entry [K=V] whose key has no [=] is cut into [K] and [V]. *)
Lemma Cut_entry (key value : string) (sep : ascii) :
  Cut key sep = None -> Cut (key +:+ String sep value) sep = Some (key, value).
Proof.
  induction key as [|c key IH]; simpl.
  - intros _. now rewrite Ascii.eqb_refl.
  - destruct (Ascii.eqb c sep); [discriminate|].
    destruct (Cut key sep) as [[b a]|]; [discriminate|].
    intros _. now rewrite IH.
Qed.

Lemma entry_inj (k1 v1 k2 v2 : string) :
  Cut k1 "="%char = None -> Cut k2 "="%char = None ->
  k1 +:+ "=" +:+ v1 = k2 +:+ "=" +:+ v2 -> k1 = k2 /\ v1 = v2.
Proof.
  intros H1 H2 Heq.
  pose proof (Cut_entry k1 v1 "="%char H1) as C1.
  pose proof (Cut_entry k2 v2 "="%char H2) as C2.
  change (k1 +:+ "=" +:+ v1) with (k1 +:+ String "="%char v1) in Heq.
  change (k2 +:+ "=" +:+ v2) with (k2 +:+ String "="%char v2) in Heq.
  rewrite Heq in C1. rewrite C1 in C2. now injection C2.
Qed.

(** One turn of the first loop of [buildEnv]. *)
Definition inheritEntry (base : gmap string string) (e : string)
  : gmap string string :=
  match SplitN2 e "="%char with
  | [k; v] => <[k := v]> base
  | _ => base
  end.

Lemma inheritEntry_eq (base : gmap string string) (e : string) :
  inheritEntry base e
  = match Cut e "="%char with
    | Some (k, v) => <[k := v]> base
    | None => base
    end.
Proof.
  unfold inheritEntry, SplitN2. destruct (Cut e "="%char) as [[k v]|]; reflexivity.
Qed.

Lemma inheritEnv_foldl (environ : list string) :
  AmuxNoSend.inheritEnv environ = foldl inheritEntry ∅ environ.
Proof. reflexivity. Qed.

(** Entries with other keys leave the value of a key as it is. *)
Lemma foldl_inheritEntry_other (key : string) (post : list string)
      (base : gmap string string) :
  (forall e v, e ∈ post -> Cut e "="%char <> Some (key, v)) ->
  foldl inheritEntry base post !! key = base !! key.
Proof.
  revert base. induction post as [|e post IH]; intros base Hpost; [reflexivity|].
  simpl. rewrite IH.
  - rewrite inheritEntry_eq. destruct (Cut e "="%char) as [[k v]|] eqn:E; [|reflexivity].
    rewrite lookup_insert_ne; [reflexivity|].
    intros ->. apply (Hpost e v); [left | exact E].
  - intros e' v He'. apply Hpost. now right.
Qed.

(** The last entry for a key decides its inherited value. *)
Lemma inheritEnv_last (pre post : list string) (key value : string) :
  Cut key "="%char = None ->
  (forall e v, e ∈ post -> Cut e "="%char <> Some (key, v)) ->
  AmuxNoSend.inheritEnv (pre ++ (key +:+ "=" +:+ value) :: post) !! key
  = Some value.
Proof.
  intros Hkey Hpost. rewrite inheritEnv_foldl, foldl_app. simpl.
  rewrite (foldl_inheritEntry_other key post _ Hpost), inheritEntry_eq.
  change (key +:+ "=" +:+ value) with (key +:+ String "="%char value).
  rewrite (Cut_entry key value _ Hkey). apply lookup_insert_eq.
Qed.

(** Inherited keys have no [=] in them. *)
Lemma foldl_inheritEntry_keys (environ : list string) (base : gmap string string) :
  (forall k v, base !! k = Some v -> Cut k "="%char = None) ->
  forall k v, foldl inheritEntry base environ !! k = Some v ->
              Cut k "="%char = None.
Proof.
  revert base. induction environ as [|e environ IH]; intros base Hbase; [exact Hbase|].
  simpl. apply IH. intros k v. rewrite inheritEntry_eq.
  destruct (Cut e "="%char) as [[k' v']|] eqn:E; [|apply Hbase].
  destruct (decide (k' = k)) as [->|Hne].
  - intros _. apply (Cut_Some _ _ _ _ E).
  - rewrite lookup_insert_ne by exact Hne. apply Hbase.
Qed.

Lemma inheritEnv_keys (environ : list string) (k v : string) :
  AmuxNoSend.inheritEnv environ !! k = Some v -> Cut k "="%char = None.
Proof.
  rewrite inheritEnv_foldl. apply foldl_inheritEntry_keys.
  intros k' v'. rewrite lookup_empty. discriminate.
Qed.

(** The second loop lays the overlay over the inherited map. *)
Lemma overlay_union (base env : gmap string string) :
  map_fold (fun k v base => <[k := v]> base) base env = env ∪ base.
Proof.
  apply (map_fold_weak_ind (fun r m => r = m ∪ base)).
  - now rewrite (left_id_L ∅ (∪)).
  - intros i x m r _ ->. now rewrite insert_union_l.
Qed.

(** The third loop yields one entry for each binding. *)
Lemma entries_elem_of (final : gmap string string) (e : string) :
  e ∈ map_fold (fun k v result => (result ++ [k +:+ "=" +:+ v])%list) [] final
  <-> exists k v, final !! k = Some v /\ e = k +:+ "=" +:+ v.
Proof.
  revert e.
  apply (map_fold_weak_ind
           (fun r m => forall e, e ∈ r <-> exists k v, m !! k = Some v
                                                     /\ e = k +:+ "=" +:+ v)).
  - intros e. split.
    + intros H. inversion H.
    + intros (k & v & H & _). rewrite lookup_empty in H. discriminate.
  - intros i x m r Hi IH e. rewrite elem_of_app, IH, list_elem_of_singleton. split.
    + intros [(k & v & Hk & ->)| ->].
      * exists k, v. split; [|reflexivity].
        rewrite lookup_insert_ne; [exact Hk|]. intros ->. congruence.
      * exists i, x. split; [apply lookup_insert_eq | reflexivity].
    + intros (k & v & Hk & ->).
      destruct (decide (i = k)) as [->|Hne].
      * rewrite lookup_insert_eq in Hk. injection Hk as ->. now right.
      * rewrite lookup_insert_ne in Hk by exact Hne. left. eauto.
Qed.

Section WithPlatform.
Context {World : Type} `{!Platform World}.

Local Abbreviation St := (State World).

(** [buildEnv] returns, changes nothing, and its entries are those of the
    overlay laid over the inherited map. *)
Lemma buildEnv_eq (env : gmap string string) (st : St) :
  exists entries,
    AmuxNoSend.buildEnv env st = (Return entries, st)
    /\ forall e,
      e ∈ entries
      <-> exists k v,
        (env ∪ AmuxNoSend.inheritEnv (Environ (world st))) !! k = Some v
        /\ e = k +:+ "=" +:+ v.
Proof.
  unfold AmuxNoSend.buildEnv. eexists. split; [reflexivity|].
  intros e. rewrite entries_elem_of, overlay_union. reflexivity.
Qed.

(** C9, as the code has it.  For every overlay and state, [buildEnv]
    returns a list in which: every pair of the overlay appears as [K=v];
    every inherited entry [K=V] that is the last one for its key, and whose
    key is not in the overlay, appears; and, when no key of the overlay has an
    [=] in it, for every inherited entry [K=V] whose key the overlay gives a
    different value [v], [K=v] appears and [K=V] does not. *)
Theorem C9_buildEnv_overlay (env : gmap string string) (st : St) :
  exists entries,
    AmuxNoSend.buildEnv env st = (Return entries, st)
    /\ (forall K v, env !! K = Some v -> K +:+ "=" +:+ v ∈ entries)
    /\ (forall pre post K V,
           Environ (world st) = (pre ++ (K +:+ "=" +:+ V) :: post)%list ->
           Cut K "="%char = None ->
           (forall e v', e ∈ post -> Cut e "="%char <> Some (K, v')) ->
           env !! K = None ->
           K +:+ "=" +:+ V ∈ entries)
    /\ (forall K V v,
           K +:+ "=" +:+ V ∈ Environ (world st) ->
           env !! K = Some v ->
           v <> V ->
           (forall k w, env !! k = Some w -> Cut k "="%char = None) ->
           K +:+ "=" +:+ v ∈ entries /\ K +:+ "=" +:+ V ∉ entries).
Proof.
  destruct (buildEnv_eq env st) as (entries & Heq & Hin).
  exists entries. split; [exact Heq|].
  assert (Hoverlay : forall K v, env !! K = Some v -> K +:+ "=" +:+ v ∈ entries).
  { intros K v HK. apply Hin. exists K, v. split; [|reflexivity].
    apply lookup_union_Some_l. exact HK. }
  split; [exact Hoverlay|]. split.
  - intros pre post K V Henv HK Hpost Hnone. apply Hin.
    exists K, V. split; [|reflexivity].
    rewrite lookup_union_r by exact Hnone.
    rewrite Henv. apply inheritEnv_last; assumption.
  - intros K V v _ HK Hne Hkeys. split; [apply Hoverlay; exact HK|].
    intros Hold. apply Hin in Hold as (k & w & Hk & Hkw).
    assert (Hcut : Cut k "="%char = None).
    { apply lookup_union_Some_raw in Hk as [Hk|[_ Hk]].
      - apply (Hkeys k w Hk).
      - apply (inheritEnv_keys _ k w Hk). }
    apply entry_inj in Hkw as [-> ->]; [|apply (Hkeys K v HK)|exact Hcut].
    rewrite (lookup_union_Some_l _ _ _ _ HK) in Hk. congruence.
Qed.

End WithPlatform.

End BuildEnvFacts.

(** C9 in the small world, whose process inherits [HOME], [PATH] and a
    stray entry without [=]: one new variable, one replaced. *)
Lemma C9_buildEnv_overlay_witness :
  let env : gmap string string :=
    {[ "K" := "v"; "PATH" := "/custom/path" ]} in
  exists entries,
    AmuxNoSend.buildEnv env Scenario.start0 = (Return entries, Scenario.start0)
    /\ "K=v" ∈ entries
    /\ "HOME=/home/gt" ∈ entries
    /\ "PATH=/custom/path" ∈ entries
    /\ "PATH=/usr/bin:/bin" ∉ entries.
Proof.
  intros env.
  destruct (BuildEnvFacts.C9_buildEnv_overlay env Scenario.start0)
    as (entries & Heq & Hoverlay & Hkept & Hreplaced).
  exists entries. split; [exact Heq|].
  split; [apply (Hoverlay "K" "v"); reflexivity|].
  split.
  { apply (Hkept [] ["PATH=/usr/bin:/bin"; "SHLVL"] "HOME" "/home/gt");
      [reflexivity | reflexivity | | reflexivity].
    intros e v' He.
    apply elem_of_cons in He as [->|He]; [vm_compute; discriminate|].
    apply list_elem_of_singleton in He as ->. vm_compute. discriminate. }
  apply (Hreplaced "PATH" "/usr/bin:/bin" "/custom/path").
  - vm_compute. right. left.
  - reflexivity.
  - discriminate.
  - intros k w Hk.
    destruct (decide (k = "K")) as [->|HK]; [reflexivity|].
    destruct (decide (k = "PATH")) as [->|HP]; [reflexivity|].
    unfold env in Hk.
    rewrite lookup_insert_ne in Hk by congruence.
    rewrite lookup_singleton_ne in Hk by congruence.
    discriminate.
Defined.

(** C9 as it is worded fails when the overlay gives a variable the value it
    already has: the original entry is in the result. *)
Lemma C9_same_value_counterexample :
  let env : gmap string string := {[ "PATH" := "/usr/bin:/bin" ]} in
  "PATH=/usr/bin:/bin" ∈ Environ (AmuxCore.world Scenario.start0)
  /\ env !! "PATH" = Some "/usr/bin:/bin"
  /\ exists entries,
      result (AmuxNoSend.buildEnv env Scenario.start0) = Return entries
      /\ "PATH=/usr/bin:/bin" ∈ entries.
Proof.
  intros env. split; [right; left|]. split; [reflexivity|].
  eexists. split; [vm_compute; reflexivity|]. left.
Qed.

(** An overlay key with an [=] in it can spell out an inherited entry
    again, whatever the overlay gives the variable itself. *)
Example buildEnv_key_with_equals :
  let env : gmap string string := {[ "A" := "new"; "A=x" := "y" ]} in
  let st := {| AmuxCore.world :=
                 {| Scenario.respond := Scenario.daemon; Scenario.calls := [];
                    Scenario.releasedInTime := false;
                    Scenario.environment := ["A=x=y"] |};
               AmuxCore.sessionNudgeLocks := ∅ |} in
  exists entries,
    result (AmuxNoSend.buildEnv env st) = Return entries
    /\ "A=new" ∈ entries /\ "A=x=y" ∈ entries.
Proof.
  intros env st. eexists. split; [vm_compute; reflexivity|].
  split; [left | right; left].
Qed.

(* ================================================================== *)
(** * A small backend to run the witness manager on *)
(* ================================================================== *)

Module WitnessScenario.
Import Session Witness.

(** A multiplexer that holds named sessions, each with an agent that is
    alive or not, and a log of the calls made on it. *)
Record Toy : Type := {
  sessions : list (string * bool);
  log : list string
}.

Definition logged (entry : string) (t : Toy) : Toy :=
  {| sessions := sessions t; log := (log t ++ [entry])%list |}.

Definition hasSession (n : string) (t : Toy) : bool :=
  existsb (fun s => String.eqb s.1 n) (sessions t).

Definition agentAlive (n : string) (t : Toy) : bool :=
  existsb (fun s => String.eqb s.1 n && s.2) (sessions t).

Definition without (n : string) (t : Toy) : list (string * bool) :=
  List.filter (fun s => negb (String.eqb s.1 n)) (sessions t).

Definition toyBackend : SessionBackend Toy unit := {|
  NewSessionWithCommand n dir command t :=
    let t := logged ("new " +:+ n +:+ " in " +:+ dir +:+ ": " +:+ command) t in
    if hasSession n t
    then (Return (Some (New "session already exists")), t)
    else (Return None, {| sessions := (n, true) :: sessions t; log := log t |});
  KillSession n t :=
    let t := logged ("kill " +:+ n) t in
    if hasSession n t
    then (Return None, {| sessions := without n t; log := log t |})
    else (Return (Some (New "session not found")), t);
  KillSessionWithProcesses n t :=
    let t := logged ("kill-tree " +:+ n) t in
    (Return None, {| sessions := without n t; log := log t |});
  HasSession n t := (Return (hasSession n t, None), logged ("has " +:+ n) t);
  SetEnvironment n k v t :=
    (Return None, logged ("setenv " +:+ n +:+ " " +:+ k +:+ "=" +:+ v) t);
  IsAgentAlive n t := (Return (agentAlive n t), logged ("alive " +:+ n) t);
  asTmuxExtras := None;
  isTmux := false
|}.

(** Collaborators that succeed and leave the multiplexer alone. *)
#[global] Instance toyCollaborators : Collaborators Toy := {|
  RuntimeConfig := unit;
  Theme := unit;
  WitnessSessionName prefix := prefix +:+ "-witness";
  PrefixFor rigName := "gt-" +:+ rigName;
  BeaconRecipient role name rigName := role +:+ "@" +:+ rigName;
  BuildStartupPrompt beacon text := text;
  TrackSessionPID _ _ := ret None;
  workspaceFind path := ret ("/town", None);
  ResolveRoleAgentConfig _ _ _ := ret tt;
  RoleSettingsDir role rigPath := rigPath +:+ "/" +:+ role;
  AgentEnv cfg := {[ "GT_ROLE" := Role cfg ]};
  BuildStartupCommandFromConfig _ _ _ _ := ret (inl "claude");
  EnsureSettingsForRole _ _ _ _ := ret None;
  EnsureGitignorePatterns _ := ret None;
  GetRoleConfig _ _ := ret (inl None);
  RoleBeadIDTown role := "hq-" +:+ role;
  ExpandRolePattern pattern _ _ _ _ _ := pattern;
  PrintWarning _ := ret tt;
  AssignTheme _ := tt;
  SupportedShells := ["bash"; "zsh"];
  ClaudeStartTimeout := 60 * Second;
  ShutdownNotifyDelay := Second;
  osStat _ := ret None;
  filepathJoin parts := String.concat "/" parts;
  logPrintf _ := ret tt;
  timeSleep _ := ret tt
|}.

Definition manager : Manager :=
  {| rig := {| RigName := "alpha"; RigPath := "/town/alpha" |} |}.

(** The witness session of the rig, with a live agent and with a dead one. *)
Definition healthy : Toy :=
  {| sessions := [("gt-alpha-witness", true)]; log := [] |}.

Definition zombie : Toy :=
  {| sessions := [("gt-alpha-witness", false)]; log := [] |}.

Definition absent : Toy := {| sessions := []; log := [] |}.

End WitnessScenario.

(* ================================================================== *)
(** * [Start] of the witness manager *)
(* ================================================================== *)

Module WitnessFacts.
Import Session Witness GoFacts.

(** Take one more step of a call: name what the next call returns and the
    state it leaves, by cases on a return and a panic. *)
Ltac step_call :=
  match goal with
  | |- context [bind ?c ?k ?s] =>
      let o := fresh "o" in
      let s' := fresh "s" in
      let E := fresh "E" in
      unfold bind at 1; destruct (c s) as [o s'] eqn:E; destruct o
  | |- context [match ?x with Some _ => _ | None => _ end] => destruct x
  | |- context [match ?x with inl _ => _ | inr _ => _ end] => destruct x
  | |- context [if ?b then _ else _] => destruct b
  end.

Section WithBackend.
Context {S : Type} `{!Collaborators S}.
Variable backend : SessionBackend S Theme.

(** Every error the tmux-specific step returns is made by [fmt.Errorf]. *)
Lemma applyBackendFeatures_not_AlreadyRunning (m : Manager) (sessionID : string)
      (st : S) :
  result (applyBackendFeatures backend m sessionID st)
  <> Return (Some ErrAlreadyRunning).
Proof.
  unfold applyBackendFeatures.
  repeat step_call; unfold ret, result; simpl; discriminate.
Qed.

Lemma roleConfig_not_AlreadyRunning (m : Manager) (st : S) :
  result (roleConfig m st) <> Return (inr ErrAlreadyRunning).
Proof.
  unfold roleConfig. repeat step_call; unfold ret, result; simpl; discriminate.
Qed.

Lemma buildWitnessStartCommand_not_AlreadyRunning
      (rigPath rigName root sessionName agentOverride : string)
      (rc : option RoleConfig) (st : S) :
  result (buildWitnessStartCommand rigPath rigName root sessionName
                                   agentOverride rc st)
  <> Return (inr ErrAlreadyRunning).
Proof.
  unfold buildWitnessStartCommand.
  repeat step_call; unfold ret, result; simpl; discriminate.
Qed.

(** Past the check for a running session, [Start] never answers
    [ErrAlreadyRunning]. *)
Lemma startSession_not_AlreadyRunning (m : Manager)
      (sessionID agentOverride : string) (envOverrides : list string) (st : S) :
  result (startSession backend m sessionID agentOverride envOverrides st)
  <> Return (Some ErrAlreadyRunning).
Proof.
  unfold startSession.
  unfold bind at 1. destruct (witnessDir m st) as [[dir|] s1]; [|discriminate].
  unfold bind at 1. destruct (townRoot m s1) as [[root|] s2]; [|discriminate].
  unfold bind at 1.
  destruct (ResolveRoleAgentConfig "witness" root (RigPath (rig m)) s2)
    as [[cfg|] s3]; [|discriminate].
  unfold bind at 1.
  destruct (EnsureSettingsForRole _ dir "witness" cfg s3) as [[[e|]|] s4];
    [discriminate | | discriminate].
  unfold bind at 1.
  destruct (EnsureGitignorePatterns dir s4) as [[ge|] s5]; [|discriminate].
  unfold bind at 1.
  destruct (match ge with
            | Some err => PrintWarning _
            | None => ret tt
            end s5) as [[[]|] s6]; [|discriminate].
  unfold bind at 1.
  pose proof (roleConfig_not_AlreadyRunning m s6) as Hrc.
  destruct (roleConfig m s6) as [[[rc|e]|] s7]; [| |discriminate].
  2:{ unfold ret, result in *. simpl in *. congruence. }
  unfold bind at 1.
  pose proof (buildWitnessStartCommand_not_AlreadyRunning
                (RigPath (rig m)) (RigName (rig m)) root sessionID
                agentOverride rc s7) as Hc.
  destruct (buildWitnessStartCommand _ _ root sessionID agentOverride rc s7)
    as [[[command|e]|] s8]; [| |discriminate].
  2:{ unfold ret, result in *. simpl in *. congruence. }
  unfold bind at 1.
  destruct (NewSessionWithCommand backend sessionID dir command s8)
    as [[[e|]|] s9]; [discriminate | | discriminate].
  unfold bind at 1.
  destruct (forEach _ _ s9) as [[[]|] s10]; [|discriminate].
  unfold bind at 1.
  destruct (forEach _ _ s10) as [[[]|] s11]; [|discriminate].
  unfold bind at 1.
  destruct (forEach _ _ s11) as [[[]|] s12]; [|discriminate].
  unfold bind at 1.
  pose proof (applyBackendFeatures_not_AlreadyRunning m sessionID s12) as Hf.
  destruct (applyBackendFeatures backend m sessionID s12) as [[[e|]|] s13];
    [| |discriminate].
  { unfold ret, result in *. simpl in *. congruence. }
  repeat step_call; unfold ret, result; simpl; discriminate.
Qed.

(** The steps of [Start] before the session is created, when each of them
    succeeds: the working directory, the town root, the runtime settings, the
    role configuration and the start command. *)
Definition prepared (m : Manager) (sessionID agentOverride : string) (st : S)
           (dir root command : string) (rc : option RoleConfig) (st' : S)
  : Prop :=
  exists s1 s2 cfg s3 s4 ge s5 s6 s7,
    witnessDir m st = (Return dir, s1)
    /\ townRoot m s1 = (Return root, s2)
    /\ ResolveRoleAgentConfig "witness" root (RigPath (rig m)) s2 = (Return cfg, s3)
    /\ EnsureSettingsForRole (RoleSettingsDir "witness" (RigPath (rig m))) dir
                              "witness" cfg s3 = (Return None, s4)
    /\ EnsureGitignorePatterns dir s4 = (Return ge, s5)
    /\ match ge with
       | Some err =>
           PrintWarning ("could not update witness .gitignore: " +:+ Error err)
       | None => ret tt
       end s5 = (Return tt, s6)
    /\ roleConfig m s6 = (Return (inl rc), s7)
    /\ buildWitnessStartCommand (RigPath (rig m)) (RigName (rig m)) root
                                 sessionID agentOverride rc s7
       = (Return (inl command), st').

(** Once prepared, [Start] creates the session, and a failure to create it
    is what [Start] returns. *)
Lemma startSession_creates (m : Manager) (sessionID agentOverride : string)
      (envOverrides : list string) (st : S)
      (dir root command : string) (rc : option RoleConfig) (st' : S) :
  prepared m sessionID agentOverride st dir root command rc st' ->
  forall err st'',
    NewSessionWithCommand backend sessionID dir command st'
    = (Return (Some err), st'') ->
    startSession backend m sessionID agentOverride envOverrides st
    = (Return (Some (ErrorfW ("creating session: " +:+ Error err) err)), st'').
Proof.
  intros (s1 & s2 & cfg & s3 & s4 & ge & s5 & s6 & s7
          & H1 & H2 & H3 & H4 & H5 & H6 & H7 & H8) err st'' Hnew.
  unfold startSession.
  unfold bind at 1. rewrite H1.
  unfold bind at 1. rewrite H2.
  unfold bind at 1. rewrite H3.
  unfold bind at 1. rewrite H4.
  unfold bind at 1. rewrite H5.
  unfold bind at 1. rewrite H6.
  unfold bind at 1. rewrite H7.
  unfold bind at 1. rewrite H8.
  unfold bind at 1. rewrite Hnew. reflexivity.
Qed.

(** The guard and the recovery of [Start], for any backend.  For every
    [Start] in background mode ([foreground] false): when [HasSession] says the session exists and
    [IsAgentAlive] says its agent is alive, [Start] returns
    [ErrAlreadyRunning] in the state the two probes leave, having called
    nothing else; when [IsAgentAlive] says the agent is not alive, [Start]
    calls [KillSession] next, and then, if the kill succeeded, goes on exactly
    as a [Start] that found no session does, creating the session once its
    preparations succeed, and, if the kill failed, returns that failure
    wrapped; in neither case is the result [ErrAlreadyRunning]. *)
Theorem Start_guard_and_recovery
        (m : Manager) (agentOverride : string) (envOverrides : list string)
        (st : S) :
  let sessionID := SessionName m in
  let start := Start backend m false agentOverride envOverrides in
  let startSession := startSession backend m sessionID agentOverride envOverrides in
  (forall err st1 st2,
      HasSession backend sessionID st = (Return (true, err), st1) ->
      IsAgentAlive backend sessionID st1 = (Return true, st2) ->
      start st = (Return (Some ErrAlreadyRunning), st2))
  /\ (forall err st1 st2,
         HasSession backend sessionID st = (Return (true, err), st1) ->
         IsAgentAlive backend sessionID st1 = (Return false, st2) ->
         (forall st3,
             KillSession backend sessionID st2 = (Return None, st3) ->
             start st = startSession st3)
         /\ (forall kerr st3,
                KillSession backend sessionID st2 = (Return (Some kerr), st3) ->
                start st
                = (Return (Some (ErrorfW ("killing zombie session: "
                                          +:+ Error kerr) kerr)), st3))
         /\ result (start st) <> Return (Some ErrAlreadyRunning))
  /\ (forall err st1,
         HasSession backend sessionID st = (Return (false, err), st1) ->
         start st = startSession st1)
  /\ (forall st3 dir root command rc st4 err st5,
         prepared m sessionID agentOverride st3 dir root command rc st4 ->
         NewSessionWithCommand backend sessionID dir command st4
         = (Return (Some err), st5) ->
         startSession st3
         = (Return (Some (ErrorfW ("creating session: " +:+ Error err) err)), st5)).
Proof.
  intros sessionID start startSession'. subst start startSession'.
  split; [|split; [|split]].
  - intros err st1 st2 Hhas Halive.
    unfold Start. fold sessionID. unfold bind. rewrite Hhas. simpl.
    rewrite Halive. reflexivity.
  - intros err st1 st2 Hhas Halive.
    assert (Hstart :
              Start backend m false agentOverride envOverrides st
              = bind (KillSession backend sessionID)
                     (fun e =>
                        match e with
                        | Some kerr =>
                            ret (Some (ErrorfW ("killing zombie session: "
                                                +:+ Error kerr) kerr))
                        | None =>
                            startSession backend m sessionID agentOverride
                                         envOverrides
                        end) st2).
    { unfold Start. fold sessionID. unfold bind at 1. rewrite Hhas. simpl.
      unfold bind at 1. rewrite Halive. reflexivity. }
    rewrite Hstart. split; [|split].
    + intros st3 Hkill. unfold bind. rewrite Hkill. reflexivity.
    + intros kerr st3 Hkill. unfold bind. rewrite Hkill. reflexivity.
    + unfold bind.
      destruct (KillSession backend sessionID st2) as [[[kerr|]|] st3].
      * unfold ret, result. simpl. discriminate.
      * apply startSession_not_AlreadyRunning.
      * unfold result. simpl. discriminate.
  - intros err st1 Hhas.
    unfold Start. fold sessionID. unfold bind at 1. rewrite Hhas. reflexivity.
  - intros st3 dir root command rc st4 err st5 Hprep Hnew.
    apply (startSession_creates m sessionID agentOverride envOverrides st3
                                dir root command rc st4 Hprep err st5 Hnew).
Qed.

(** [Start] in foreground mode is refused before anything is looked at. *)
Lemma Start_foreground (m : Manager) (agentOverride : string)
      (envOverrides : list string) (st : S) :
  Start backend m true agentOverride envOverrides st
  = (Return (Some (Errorf "foreground mode is deprecated; use background mode (remove --foreground flag)")),
     st).
Proof. reflexivity. Qed.

End WithBackend.

End WitnessFacts.

(* ================================================================== *)
(** * [Start] over the adapter of [amux.go] *)
(* ================================================================== *)

Module AmuxStartFacts.
Import AmuxCore Session Witness RunFacts AmuxFacts.

Section WithPlatform.
Context {World : Type} `{!Platform World} `{!Collaborators (State World)}.

(** With amux as the backend, [IsAgentAlive] is [HasSession] asked again:
    when [amux has] succeeds both times, [Start] answers
    [ErrAlreadyRunning], whatever the descriptor of the session says about
    its agent.  The manager does not tell a zombie from a healthy session on
    this backend. *)
Lemma Start_amux_existing_session
      (m : Manager) (agentOverride : string) (envOverrides : list string)
      (st : State World) :
  let has := ["has"; "-t"; SessionName m] in
  runErr (answer st has) = None ->
  runErr (answer (ranOn st has) has) = None ->
  Start AmuxBackend.amuxBackend m false agentOverride envOverrides st
  = (Return (Some ErrAlreadyRunning), ranOn (ranOn st has) has).
Proof.
  intros has H1 H2. unfold Start.
  change (Session.HasSession AmuxBackend.amuxBackend) with Amux.HasSession.
  change (Session.IsAgentAlive AmuxBackend.amuxBackend) with Amux.IsAgentAlive.
  unfold bind at 1. rewrite HasSession_eq. fold has. rewrite H1.
  rewrite bool_decide_eq_true_2 by reflexivity. cbn [fst].
  unfold bind at 1. unfold Amux.IsAgentAlive. unfold bind at 1.
  rewrite HasSession_eq. fold has. rewrite H2.
  rewrite bool_decide_eq_true_2 by reflexivity. reflexivity.
Qed.

End WithPlatform.

End AmuxStartFacts.

(** [Start] on the small backend: a healthy witness session is left alone; a
    zombie is killed and a session is created in its place; a session that
    cannot be created fails the start. *)
Lemma Start_guard_and_recovery_on_toy :
  let m := WitnessScenario.manager in
  let t := WitnessScenario.toyBackend in
  Witness.Start t m false EmptyString [] WitnessScenario.healthy
  = (Return (Some Witness.ErrAlreadyRunning),
     {| WitnessScenario.sessions := [("gt-alpha-witness", true)];
        WitnessScenario.log := ["has gt-alpha-witness"; "alive gt-alpha-witness"] |})
  /\ Witness.Start t m false EmptyString [] WitnessScenario.zombie
     = (Return None,
        {| WitnessScenario.sessions := [("gt-alpha-witness", true)];
           WitnessScenario.log :=
             ["has gt-alpha-witness"; "alive gt-alpha-witness";
              "kill gt-alpha-witness";
              "new gt-alpha-witness in /town/alpha/witness/rig: claude";
              "setenv gt-alpha-witness GT_ROLE=witness"] |})
  /\ result (Witness.Start t m false EmptyString [] WitnessScenario.zombie)
     <> Return (Some Witness.ErrAlreadyRunning)
  /\ Witness.Start t m false EmptyString [] WitnessScenario.absent
     = (Return None,
        {| WitnessScenario.sessions := [("gt-alpha-witness", true)];
           WitnessScenario.log :=
             ["has gt-alpha-witness";
              "new gt-alpha-witness in /town/alpha/witness/rig: claude";
              "setenv gt-alpha-witness GT_ROLE=witness"] |})
  /\ result (Witness.startSession t m (Witness.SessionName m) EmptyString []
                                  WitnessScenario.healthy)
     = Return (Some (ErrorfW "creating session: session already exists"
                             (New "session already exists"))).
Proof.
  intros m t.
  pose proof (WitnessFacts.Start_guard_and_recovery
                t m EmptyString [] WitnessScenario.healthy) as (Hh & _ & _ & Hc).
  pose proof (WitnessFacts.Start_guard_and_recovery
                t m EmptyString [] WitnessScenario.zombie) as (_ & Hz & _).
  pose proof (WitnessFacts.Start_guard_and_recovery
                t m EmptyString [] WitnessScenario.absent) as (_ & _ & Ha & _).
  split; [|split; [|split; [|split]]].
  - apply (Hh None (WitnessScenario.logged "has gt-alpha-witness"
                                           WitnessScenario.healthy));
      reflexivity.
  - destruct (Hz None
                 (WitnessScenario.logged "has gt-alpha-witness"
                                         WitnessScenario.zombie)
                 (WitnessScenario.logged "alive gt-alpha-witness"
                    (WitnessScenario.logged "has gt-alpha-witness"
                                            WitnessScenario.zombie))
                 eq_refl eq_refl) as (Hkill & _ & _).
    rewrite (Hkill {| WitnessScenario.sessions := [];
                      WitnessScenario.log :=
                        ["has gt-alpha-witness"; "alive gt-alpha-witness";
                         "kill gt-alpha-witness"] |} eq_refl).
    vm_compute. reflexivity.
  - destruct (Hz None
                 (WitnessScenario.logged "has gt-alpha-witness"
                                         WitnessScenario.zombie)
                 (WitnessScenario.logged "alive gt-alpha-witness"
                    (WitnessScenario.logged "has gt-alpha-witness"
                                            WitnessScenario.zombie))
                 eq_refl eq_refl) as (_ & _ & Hne).
    exact Hne.
  - rewrite (Ha None (WitnessScenario.logged "has gt-alpha-witness"
                                             WitnessScenario.absent) eq_refl).
    vm_compute. reflexivity.
  - erewrite (Hc WitnessScenario.healthy "/town/alpha/witness/rig" "/town"
                 "claude" None WitnessScenario.healthy
                 (New "session already exists")).
    + reflexivity.
    + exists WitnessScenario.healthy, WitnessScenario.healthy, tt,
        WitnessScenario.healthy, WitnessScenario.healthy, None,
        WitnessScenario.healthy, WitnessScenario.healthy,
        WitnessScenario.healthy.
      repeat split.
    + reflexivity.
Defined.

(** A [Start] in foreground mode looks at nothing: on a healthy
    session the result is not [ErrAlreadyRunning], and on a zombie nothing is
    killed and nothing is created. *)
Lemma Start_foreground_on_toy :
  let m := WitnessScenario.manager in
  let t := WitnessScenario.toyBackend in
  let deprecated :=
    Errorf "foreground mode is deprecated; use background mode (remove --foreground flag)" in
  result (Session.HasSession t (Witness.SessionName m) WitnessScenario.healthy)
  = Return (true, None)
  /\ result (Session.IsAgentAlive t (Witness.SessionName m) WitnessScenario.healthy)
     = Return true
  /\ Witness.Start t m true EmptyString [] WitnessScenario.healthy
     = (Return (Some deprecated), WitnessScenario.healthy)
  /\ deprecated <> Witness.ErrAlreadyRunning
  /\ result (Session.HasSession t (Witness.SessionName m) WitnessScenario.zombie)
     = Return (true, None)
  /\ result (Session.IsAgentAlive t (Witness.SessionName m) WitnessScenario.zombie)
     = Return false
  /\ Witness.Start t m true EmptyString [] WitnessScenario.zombie
     = (Return (Some deprecated), WitnessScenario.zombie).
Proof. vm_compute. repeat split; discriminate. Qed.

(* ================================================================== *)
(** * Listing sessions *)
(* ================================================================== *)

Module AmuxInventory.
Import AmuxCore.

Section WithPlatform.
Context {World : Type} `{!Platform World}.

(** [json.Unmarshal] into a [[]SessionInfo]. *)
Variable unmarshalSessionInfos : string -> list SessionInfo + error.

Local Abbreviation St := (State World).

(** [ListSessionInfo] of [amux.go]: a daemon that cannot be reached, and an
    empty output, read as no sessions. *)
Definition ListSessionInfo : M St (list SessionInfo + error) :=
  r <- run ["ls"; "--json"] ;;
  match r with
  | inr err => if Is err ErrNoDaemon then ret (inl []) else ret (inr err)
  | inl out =>
      if String.eqb out EmptyString then ret (inl [])
      else
        match unmarshalSessionInfos out with
        | inr err =>
            ret (inr (ErrorfW ("amux ls: parsing JSON: " +:+ Error err) err))
        | inl sessions => ret (inl sessions)
        end
  end.

(** [ListSessions] of [amux.go]. *)
Definition ListSessions : M St (list string + error) :=
  r <- ListSessionInfo ;;
  match r with
  | inr err => ret (inr err)
  | inl sessions => ret (inl (Name <$> sessions))
  end.

(** [ListSessions] of the two earlier revisions, which decode the listing
    themselves. *)
Definition ListSessionsByName : M St (list string + error) :=
  r <- run ["ls"; "--json"] ;;
  match r with
  | inr err => if Is err ErrNoDaemon then ret (inl []) else ret (inr err)
  | inl out =>
      if String.eqb out EmptyString then ret (inl [])
      else
        match unmarshalSessions out with
        | inr err =>
            ret (inr (ErrorfW ("amux ls: parsing JSON: " +:+ Error err) err))
        | inl sessions => ret (inl (name <$> sessions))
        end
  end.

(** [NewSessionWithCommandAndEnv] of [amux.go]: one [-e K=V] pair for each
    entry of the map, in the order the range meets them, before the [--]. *)
Definition envFlags (env : gmap string string) : list string :=
  map_fold (fun k v args => (args ++ ["-e"; k +:+ "=" +:+ v])%list) [] env.

Definition NewSessionWithCommandAndEnv (name workDir command : string)
           (env : gmap string string) : M St (option error) :=
  let cmd := Amux.wrapCommand workDir command in
  let args := (["new"; "-d"; "-t"; name] ++ envFlags env)%list in
  let args := (args ++ ["--"; "/bin/sh"; "-c"; cmd])%list in
  r <- run args ;;
  match r with
  | inl _ => ret None
  | inr err => ret (Some err)
  end.

End WithPlatform.

End AmuxInventory.

(* ================================================================== *)
(** * What [run] hands to its callers *)
(* ================================================================== *)

Module RunShapeFacts.
Import AmuxCore GoFacts ClassifierFacts RunFacts.

(** The three phrases that mean the daemon cannot be reached. *)
Definition daemonPhrase (t : string) : bool :=
  Contains t "daemon not running" || Contains t "connection refused"
  || Contains t "no such file or directory".

Lemma wrapError_daemon (err : error) (stderr : string) (args : list string) :
  daemonPhrase (TrimSpace stderr) = true ->
  wrapError err stderr args = Return ErrNoDaemon.
Proof. unfold wrapError, daemonPhrase. intros ->. reflexivity. Qed.

(** Every error of [wrapError] is one of the three package errors or
    starts with the name of the tool and of the subcommand. *)
Lemma wrapError_shape (err : error) (stderr sub : string) (rest : list string)
      (e : error) :
  wrapError err stderr (sub :: rest) = Return e ->
  e = ErrNoDaemon \/ e = ErrSessionExists \/ e = ErrSessionNotFound
  \/ HasPrefix (Error e) ("amux " +:+ sub +:+ ": ") = true.
Proof.
  unfold wrapError.
  repeat match goal with
         | |- context [if ?b then _ else _] => destruct b
         end; simpl; intros [= <-]; auto.
  - right; right; right. cbn [Error]. rewrite <- !app_assoc. apply HasPrefix_app.
  - right; right; right. cbn [Error]. rewrite <- !app_assoc. apply HasPrefix_app.
Qed.

Section WithPlatform.
Context {World : Type} `{!Platform World}.

Local Abbreviation St := (State World).

(** X1.  Whatever the subcommand and the state, an error that [run]
    returns is [ErrNoDaemon], [ErrSessionExists] or [ErrSessionNotFound], or
    its message starts with "amux", the subcommand and a colon; and [run]
    returns an error exactly when the process failed. *)
Theorem X1_run_error_shape (sub : string) (rest : list string) (st : St) :
  (forall e,
      result (run (sub :: rest) st) = Return (inr e) ->
      runErr (answer st (sub :: rest)) <> None
      /\ (e = ErrNoDaemon \/ e = ErrSessionExists \/ e = ErrSessionNotFound
          \/ HasPrefix (Error e) ("amux " +:+ sub +:+ ": ") = true))
  /\ (forall out,
         result (run (sub :: rest) st) = Return (inl out) ->
         runErr (answer st (sub :: rest)) = None
         /\ out = TrimSpace (stdoutText (answer st (sub :: rest)))).
Proof.
  destruct (runErr (answer st (sub :: rest))) as [err|] eqn:E.
  - destruct (run_failed sub rest st err E) as (e' & Hw & ->).
    split.
    + intros e [= <-]. split; [discriminate|].
      apply (wrapError_shape _ _ _ _ _ Hw).
    + intros out [=].
  - rewrite (run_ok sub rest st E). split.
    + intros e [=].
    + intros out [= <-]. split; reflexivity.
Qed.

End WithPlatform.

End RunShapeFacts.

(** X1 in the small world: [amux kill] of an unknown command line fails
    with a message that names the subcommand, and [amux has] succeeds. *)
Lemma X1_run_error_shape_witness :
  (exists e,
      result (AmuxCore.run ["kill"; "-t"; "w1"] Scenario.start0) = Return (inr e)
      /\ HasPrefix (Error e) "amux kill: " = true)
  /\ result (AmuxCore.run ["has"; "-t"; "w1"] Scenario.start0)
     = Return (inl EmptyString).
Proof.
  split.
  - eexists. split; [vm_compute; reflexivity|].
    destruct (RunShapeFacts.X1_run_error_shape "kill" ["-t"; "w1"] Scenario.start0)
      as (H & _).
    destruct (H (Errorf "amux kill: unknown command")) as (_ & Hs);
      [vm_compute; reflexivity|].
    destruct Hs as [Hs|[Hs|[Hs|Hs]]]; try discriminate Hs. exact Hs.
  - destruct (RunShapeFacts.X1_run_error_shape "has" ["-t"; "w1"] Scenario.start0)
      as (_ & H).
    destruct (H EmptyString) as (_ & Hout); [vm_compute; reflexivity|].
    vm_compute. reflexivity.
Defined.

(* ================================================================== *)
(** * Listings, liveness and health *)
(* ================================================================== *)

Module InventoryFacts.
Import AmuxCore GoFacts ClassifierFacts RunFacts RunShapeFacts AmuxFacts
       AmuxInventory.

Section WithPlatform.
Context {World : Type} `{!Platform World}.
Variable unmarshalSessionInfos : string -> list SessionInfo + error.

Local Abbreviation St := (State World).

Definition ls : list string := ["ls"; "--json"].

(** X2.  When [amux ls --json] fails and its trimmed diagnostic holds one
    of the daemon-unreachable phrases, the three listing functions return an
    empty list and no error; when it fails with an error that is not
    [ErrNoDaemon], they return that error unchanged. *)
Theorem X2_listing_daemon_down (st : St) (err : error) :
  runErr (answer st ls) = Some err ->
  (daemonPhrase (TrimSpace (stderrText (answer st ls))) = true ->
   ListSessionInfo unmarshalSessionInfos st = (Return (inl []), ranOn st ls)
   /\ ListSessions unmarshalSessionInfos st = (Return (inl []), ranOn st ls)
   /\ ListSessionsByName st = (Return (inl []), ranOn st ls))
  /\ (forall e,
         wrapError err (stderrText (answer st ls)) ls = Return e ->
         Is e ErrNoDaemon = false ->
         ListSessionInfo unmarshalSessionInfos st = (Return (inr e), ranOn st ls)
         /\ ListSessions unmarshalSessionInfos st = (Return (inr e), ranOn st ls)
         /\ ListSessionsByName st = (Return (inr e), ranOn st ls)).
Proof.
  intros Herr.
  destruct (run_failed "ls" ["--json"] st err Herr) as (e' & Hw & Hrun).
  fold ls in Hw, Hrun. split.
  - intros Hphrase.
    rewrite (wrapError_daemon err _ ls Hphrase) in Hw. injection Hw as <-.
    unfold ListSessions, ListSessionInfo, ListSessionsByName, bind.
    fold ls. rewrite Hrun. repeat split.
  - intros e He Hnot. rewrite He in Hw. injection Hw as <-.
    unfold ListSessions, ListSessionInfo, ListSessionsByName, bind.
    fold ls. rewrite Hrun. cbn [fst snd]. rewrite Hnot. repeat split.
Qed.

(** X3.  In the two revisions that read [amux ls], and with a decoder that
    rejects the empty text as [json.Unmarshal] does, [IsAgentRunning] is
    true exactly when [ListSessions] returns a list that holds the name. *)
Theorem X3_IsAgentRunning_iff_listed
        (session : string) (expected : list string) (st : St) :
  (forall sessions, unmarshalSessions EmptyString <> inl sessions) ->
  result (AmuxList.IsAgentRunning session expected st) = Return true
  <-> exists names,
      result (ListSessionsByName st) = Return (inl names) /\ In session names.
Proof.
  intros Hempty.
  unfold AmuxList.IsAgentRunning, ListSessionsByName, bind, result.
  destruct (run_returns "ls" ["--json"] st) as [[out|e] ->]; cbn [fst snd].
  - destruct (String.eqb_spec out EmptyString) as [->|Hout].
    + destruct (unmarshalSessions EmptyString) as [sessions|e] eqn:E.
      * exfalso. apply (Hempty sessions eq_refl).
      * unfold ret. cbn [fst]. split; [discriminate|].
        intros (names & [= <-] & []).
    + destruct (unmarshalSessions out) as [sessions|e]; unfold ret; cbn [fst].
      * split.
        -- intros [= Hex]. exists (name <$> sessions). split; [reflexivity|].
           apply existsb_exists in Hex as (s & Hs & Heq).
           apply String.eqb_eq in Heq. subst session.
           apply in_map_iff. eauto.
        -- intros (names & [= <-] & Hin). f_equal.
           apply in_map_iff in Hin as (s & <- & Hs).
           apply existsb_exists. exists s. split; [exact Hs|].
           apply String.eqb_refl.
      * split; [discriminate|]. intros (names & [=] & _).
  - unfold ret. destruct (Is e ErrNoDaemon); cbn [fst].
    + split; [discriminate|]. intros (names & [= <-] & []).
    + split; [discriminate|]. intros (names & [=] & _).
Qed.

(** X4.  With no commands to expect, [IsAgentRunning] of [amux.go] is true
    exactly when [CheckSessionHealth] without a positive limit says
    [SessionHealthy]; and without a positive limit the health is never
    [AgentHung]. *)
Theorem X4_running_iff_healthy (session : string) (maxInactivity : Duration)
        (st : St) :
  maxInactivity <= 0 ->
  (result (Amux.IsAgentRunning session [] st) = Return true
   <-> result (Amux.CheckSessionHealth session maxInactivity st)
       = Return SessionHealthy)
  /\ result (Amux.CheckSessionHealth session maxInactivity st) <> Return AgentHung.
Proof.
  intros Hmax.
  assert (Hpos : (0 <? maxInactivity) = false) by (apply Z.ltb_ge; exact Hmax).
  destruct (GetSessionInfo_returns session st) as [r Hr].
  unfold Amux.IsAgentRunning, Amux.CheckSessionHealth, bind, result.
  rewrite Hr. cbn [fst snd]. destruct r as [info|e].
  - destruct (Alive info); cbn [negb]; rewrite ?Hpos; unfold ret; cbn [fst andb length Nat.eqb].
    + split; [split; reflexivity | discriminate].
    + split; [split; discriminate | discriminate].
  - unfold ret; cbn [fst]. split; [split; discriminate | discriminate].
Qed.

(** X5.  The verdict [AgentHung] is monotone in the limit: a session hung
    under a limit is hung under every smaller positive limit, and a session
    healthy under a positive limit is healthy under every larger one. *)
Theorem X5_health_monotone (session : string) (small large : Duration) (st : St) :
  0 < small -> small <= large ->
  (result (Amux.CheckSessionHealth session large st) = Return AgentHung ->
   result (Amux.CheckSessionHealth session small st) = Return AgentHung)
  /\ (result (Amux.CheckSessionHealth session small st) = Return SessionHealthy ->
      result (Amux.CheckSessionHealth session large st) = Return SessionHealthy).
Proof.
  intros Hsmall Hle.
  destruct (GetSessionInfo_returns session st) as [r Hr].
  unfold Amux.CheckSessionHealth, bind, result. rewrite Hr. cbn [fst snd].
  destruct r as [info|e]; [|split; intros [=]].
  destruct (Alive info); cbn [negb]; [|split; intros [=]].
  assert (H1 : (0 <? small) = true) by (apply Z.ltb_lt; lia).
  assert (H2 : (0 <? large) = true) by (apply Z.ltb_lt; lia).
  rewrite H1, H2. cbn [andb].
  destruct (large <? Amux.idleDuration info) eqn:El;
    destruct (small <? Amux.idleDuration info) eqn:Es;
    unfold ret; cbn [fst]; split; intros [=]; try reflexivity.
  - apply Z.ltb_lt in El. apply Z.ltb_ge in Es. lia.
  - apply Z.ltb_lt in El. apply Z.ltb_ge in Es. lia.
Qed.

End WithPlatform.

End InventoryFacts.

(* ================================================================== *)
(** * More of the small world *)
(* ================================================================== *)

Module ScenarioMore.
Import AmuxCore Scenario.

(** [json.Unmarshal] into a [[]SessionInfo] on the listing of this world. *)
Definition decodeInfos (text : string) : list SessionInfo + error :=
  if String.eqb text (listJSON known) then inl known
  else inr (External "unexpected end of JSON input").

(** A world whose daemon is not running, and one whose socket cannot be
    opened by this user. *)
Definition downState : State TestWorld :=
  {| world := {| respond := fun _ => failed ("Error: connection refused" +:+ LF);
                 calls := []; releasedInTime := false; environment := [] |};
     sessionNudgeLocks := ∅ |}.

Definition deniedState : State TestWorld :=
  {| world := {| respond := fun _ => failed ("permission denied" +:+ LF);
                 calls := []; releasedInTime := false; environment := [] |};
     sessionNudgeLocks := ∅ |}.

End ScenarioMore.

(** X2 in a world without daemon and in one without permission. *)
Lemma X2_listing_daemon_down_witness :
  result (AmuxInventory.ListSessions ScenarioMore.decodeInfos ScenarioMore.downState)
  = Return (inl [])
  /\ result (AmuxInventory.ListSessionsByName ScenarioMore.downState)
     = Return (inl [])
  /\ result (AmuxInventory.ListSessions ScenarioMore.decodeInfos
                                        ScenarioMore.deniedState)
     = Return (inr (Errorf "amux ls: permission denied")).
Proof.
  destruct (InventoryFacts.X2_listing_daemon_down
              ScenarioMore.decodeInfos ScenarioMore.downState
              (External "exit status 1")) as (Hdown & _); [reflexivity|].
  destruct Hdown as (_ & H1 & H2); [vm_compute; reflexivity|].
  destruct (InventoryFacts.X2_listing_daemon_down
              ScenarioMore.decodeInfos ScenarioMore.deniedState
              (External "exit status 1")) as (_ & Hother); [reflexivity|].
  destruct (Hother (Errorf "amux ls: permission denied")) as (_ & H3 & _);
    [vm_compute; reflexivity | reflexivity |].
  rewrite H1, H2, H3. repeat split.
Defined.

(** X3 in the small world: [w1] is listed, and [IsAgentRunning] of the
    revisions that read the listing says so. *)
Lemma X3_IsAgentRunning_iff_listed_witness :
  result (AmuxList.IsAgentRunning "w1" ["claude"] Scenario.start0) = Return true
  /\ exists names,
      result (AmuxInventory.ListSessionsByName Scenario.start0)
      = Return (inl names)
      /\ In "w1" names.
Proof.
  assert (H : result (AmuxList.IsAgentRunning "w1" ["claude"] Scenario.start0)
              = Return true) by (vm_compute; reflexivity).
  split; [exact H|].
  apply (InventoryFacts.X3_IsAgentRunning_iff_listed "w1" ["claude"]
                                                      Scenario.start0);
    [|exact H].
  intros sessions. vm_compute. discriminate.
Defined.

(** X4 on the live session [w2] and X5 on its idle time of 120.5 seconds. *)
Lemma X4_running_iff_healthy_witness :
  result (Amux.IsAgentRunning "w2" [] Scenario.start0) = Return true
  /\ result (Amux.CheckSessionHealth "w2" 0 Scenario.start0)
     = Return SessionHealthy.
Proof.
  destruct (InventoryFacts.X4_running_iff_healthy "w2" 0 Scenario.start0)
    as (Hiff & _); [lia|].
  assert (H : result (Amux.IsAgentRunning "w2" [] Scenario.start0) = Return true)
    by (vm_compute; reflexivity).
  split; [exact H | apply Hiff; exact H].
Defined.

Lemma X5_health_monotone_witness :
  result (Amux.CheckSessionHealth "w2" (100 * Second) Scenario.start0)
  = Return AgentHung
  /\ result (Amux.CheckSessionHealth "w2" (60 * Second) Scenario.start0)
     = Return AgentHung.
Proof.
  assert (H : result (Amux.CheckSessionHealth "w2" (100 * Second) Scenario.start0)
              = Return AgentHung) by (vm_compute; reflexivity).
  split; [exact H|].
  destruct (InventoryFacts.X5_health_monotone
              "w2" (60 * Second) (100 * Second) Scenario.start0) as (Hh & _);
    [reflexivity | vm_compute; discriminate |].
  apply Hh. exact H.
Defined.

(* ================================================================== *)
(** * The registry of nudge locks *)
(* ================================================================== *)

Module RegistryFacts.
Import AmuxCore GoFacts RunFacts NudgeLockFacts NudgeFacts.

(** The registry [after] is the registry [before] with at most the slot
    of one session set. *)
Definition touchesOnly (session : string) (before after : gmap string bool)
  : Prop :=
  after = before \/ exists full, after = <[session := full]> before.

Lemma touchesOnly_refl (session : string) (m : gmap string bool) :
  touchesOnly session m m.
Proof. now left. Qed.

Lemma touchesOnly_insert (session : string) (full : bool)
      (before after : gmap string bool) :
  touchesOnly session before after ->
  touchesOnly session before (<[session := full]> after).
Proof.
  intros [->|[b ->]]; right; exists full; [reflexivity|].
  apply insert_insert_eq.
Qed.

(** Entries stay, and the slots of other sessions keep their state. *)
Lemma touchesOnly_keeps (session : string) (before after : gmap string bool) :
  touchesOnly session before after ->
  (forall k, is_Some (before !! k) -> is_Some (after !! k))
  /\ (forall other, other <> session ->
                    default false (after !! other) = default false (before !! other)).
Proof.
  intros [->|[b ->]]; split; auto.
  - intros k Hk. rewrite lookup_insert. destruct (decide (session = k)); eauto.
  - intros other Hne. rewrite lookup_insert_ne by congruence. reflexivity.
Qed.

Section WithPlatform.
Context {World : Type} `{!Platform World}.

Local Abbreviation St := (State World).

Lemma acquire_touchesOnly (session : string) (timeout : Duration) (st : St) :
  touchesOnly session (sessionNudgeLocks st)
              (sessionNudgeLocks (after (acquireNudgeLock session timeout st))).
Proof.
  destruct (slotHeld st session) eqn:E.
  - rewrite (acquire_held _ _ _ E). now left.
  - destruct (timerFired timeout (world st)) eqn:Ef.
    + destruct (acquire_free_fired _ _ _ E Ef) as (st' & -> & _ & Hlocks).
      unfold after. cbn [snd]. destruct Hlocks as [->|[_ ->]].
      * right. eauto.
      * now left.
    + rewrite (acquire_free _ _ _ E Ef). right. now exists true.
Qed.

Lemma release_touchesOnly (session : string) (st : St) :
  touchesOnly session (sessionNudgeLocks st)
              (sessionNudgeLocks (after (releaseNudgeLock session st))).
Proof.
  destruct (slotHeld st session) eqn:E.
  - rewrite (release_held _ _ E). right. now exists false.
  - unfold releaseNudgeLock, getSessionNudgeSem, bind, slotHeld in *.
    destruct (sessionNudgeLocks st !! session) as [[|]|] eqn:El;
      simpl in *; try discriminate.
    + rewrite El. now left.
    + rewrite lookup_insert_eq. right. now exists false.
Qed.

Lemma nudgeSession_touchesOnly
      (Send : string -> string -> M St (option error))
      (session message : string) (st : St) :
  (forall s m st', sessionNudgeLocks (after (Send s m st')) = sessionNudgeLocks st') ->
  touchesOnly session (sessionNudgeLocks st)
              (sessionNudgeLocks (after (nudgeSession Send session message st))).
Proof.
  intros Hsend. unfold nudgeSession. unfold bind at 1.
  pose proof (acquire_touchesOnly session nudgeLockTimeout st) as Hacq.
  destruct (acquireNudgeLock session nudgeLockTimeout st) as [[acquired|reason] s1].
  - unfold after in Hacq. cbn [snd] in Hacq.
    destruct acquired; cbn [negb]; [|exact Hacq].
    unfold defer. specialize (Hsend session message s1).
    destruct (Send session message s1) as [r s2]. unfold after in Hsend.
    cbn [snd] in Hsend.
    pose proof (release_touchesOnly session s2) as Hrel.
    destruct (releaseNudgeLock session s2) as [[[]|reason] s3];
      unfold after in *; cbn [snd] in *; rewrite Hsend in Hrel;
      (destruct Hrel as [->|[b ->]];
       [exact Hacq | apply touchesOnly_insert; exact Hacq]).
  - exact Hacq.
Qed.

(** X6.  Acquiring, releasing and nudging never remove an entry from the
    registry of nudge locks and never change the slot of another session;
    this holds for [NudgeSession] of [amux.go] and of the adapter without
    [send], whatever the delivery does. *)
Theorem X6_registry_only_grows
        (session message : string) (timeout : Duration) (st : St) :
  let keeps (st' : St) :=
    (forall k, is_Some (sessionNudgeLocks st !! k) ->
               is_Some (sessionNudgeLocks st' !! k))
    /\ (forall other, other <> session -> slotHeld st' other = slotHeld st other) in
  keeps (after (acquireNudgeLock session timeout st))
  /\ keeps (after (releaseNudgeLock session st))
  /\ keeps (after (Amux.NudgeSession session message st))
  /\ keeps (after (AmuxNoSend.NudgeSession session message st)).
Proof.
  intros keeps. subst keeps. unfold slotHeld.
  split; [|split; [|split]]; apply touchesOnly_keeps.
  - apply acquire_touchesOnly.
  - apply release_touchesOnly.
  - apply (nudgeSession_touchesOnly Amux.SendKeys). apply SendKeys_keeps_locks.
  - apply (nudgeSession_touchesOnly AmuxNoSend.SendKeys). reflexivity.
Qed.

End WithPlatform.

End RegistryFacts.

(* ================================================================== *)
(** * Quoting the working directory for the shell *)
(* ================================================================== *)

Module ShellQuoteFacts.
Import AmuxCore GoFacts.

Definition SQ : ascii := ascii_of_nat 39.
Definition DQc : ascii := ascii_of_nat 34.

Lemma escape_cons (c : ascii) (s : string) :
  Amux.escapeSingleQuotes (String c s)
  = if (nat_of_ascii c =? 39)%nat
    then String SQ (String DQc (String SQ (String DQc
           (String SQ (Amux.escapeSingleQuotes s)))))
    else String c (Amux.escapeSingleQuotes s).
Proof. reflexivity. Qed.

Lemma is_SQ (c : ascii) : (nat_of_ascii c =? 39)%nat = true -> c = SQ.
Proof.
  intros H. apply Nat.eqb_eq in H. unfold SQ. rewrite <- H.
  symmetry. apply ascii_nat_embedding.
Qed.

Lemma escape_inj (a b : string) :
  Amux.escapeSingleQuotes a = Amux.escapeSingleQuotes b -> a = b.
Proof.
  revert b. induction a as [|c a IH]; intros [|d b]; rewrite ?escape_cons.
  - reflexivity.
  - simpl. destruct (nat_of_ascii d =? 39)%nat; discriminate.
  - simpl. destruct (nat_of_ascii c =? 39)%nat; discriminate.
  - destruct (nat_of_ascii c =? 39)%nat eqn:Ec;
      destruct (nat_of_ascii d =? 39)%nat eqn:Ed.
    + intros [= H]. apply is_SQ in Ec, Ed. subst. f_equal. now apply IH.
    + intros [= <- _]. vm_compute in Ed. discriminate.
    + intros [= -> _]. vm_compute in Ec. discriminate.
    + intros [= -> H]. f_equal. now apply IH.
Qed.

Lemma length_app (a b : string) :
  String.length (a +:+ b) = (String.length a + String.length b)%nat.
Proof.
  induction a as [|c a IH]; [reflexivity|].
  rewrite app_cons. cbn [String.length]. now rewrite IH.
Qed.

(** A common ending can be cancelled. *)
Lemma app_cancel_r (x y s : string) : x +:+ s = y +:+ s -> x = y.
Proof.
  revert y. induction x as [|c x IH]; intros [|d y]; rewrite ?app_cons, ?app_nil_l.
  - reflexivity.
  - intros H. apply (f_equal String.length) in H.
    cbn [String.length] in H. rewrite length_app in H. lia.
  - intros H. apply (f_equal String.length) in H.
    cbn [String.length] in H. rewrite length_app in H. lia.
  - intros [= -> H]. f_equal. now apply IH.
Qed.

(** X7.  [shellQuote] is one to one, and so is [wrapCommand] in the working
    directory: two directories are quoted alike only when they are the same
    bytes, and a directory that is not empty never leaves the command as it
    was. *)
Theorem X7_shellQuote_injective (a b command : string) :
  (Amux.shellQuote a = Amux.shellQuote b -> a = b)
  /\ (a <> EmptyString -> b <> EmptyString ->
      Amux.wrapCommand a command = Amux.wrapCommand b command -> a = b)
  /\ Amux.wrapCommand EmptyString command = command
  /\ (a <> EmptyString ->
      HasPrefix (Amux.wrapCommand a command) "cd '" = true
      /\ Amux.wrapCommand a command <> command).
Proof.
  assert (Hq : Amux.shellQuote a = Amux.shellQuote b -> a = b).
  { unfold Amux.shellQuote. intros H.
    change ("'" +:+ Amux.escapeSingleQuotes a +:+ "'")
      with (String SQ (Amux.escapeSingleQuotes a +:+ String SQ EmptyString)) in H.
    change ("'" +:+ Amux.escapeSingleQuotes b +:+ "'")
      with (String SQ (Amux.escapeSingleQuotes b +:+ String SQ EmptyString)) in H.
    injection H as H. apply app_cancel_r in H. now apply escape_inj. }
  split; [exact Hq|]. split; [|split].
  - intros Ha Hb. unfold Amux.wrapCommand.
    destruct (String.eqb_spec a EmptyString); [contradiction|].
    destruct (String.eqb_spec b EmptyString); [contradiction|].
    intros H.
    change ("cd " +:+ Amux.shellQuote a +:+ " && exec " +:+ command)
      with (String "c" (String "d" (String " "
              (Amux.shellQuote a +:+ " && exec " +:+ command)))) in H.
    change ("cd " +:+ Amux.shellQuote b +:+ " && exec " +:+ command)
      with (String "c" (String "d" (String " "
              (Amux.shellQuote b +:+ " && exec " +:+ command)))) in H.
    injection H as H. apply app_cancel_r in H.
    rewrite !app_nil_l in H. apply app_cancel_r in H. now apply escape_inj.
  - reflexivity.
  - intros Ha. unfold Amux.wrapCommand.
    destruct (String.eqb_spec a EmptyString); [contradiction|].
    split; [reflexivity|].
    intros H. apply (f_equal String.length) in H.
    rewrite !length_app in H. cbn [String.length] in H. lia.
Qed.

(** The part of POSIX quote removal that a word of [shellQuote] needs:
    between single quotes every byte stands for itself, and so does a single
    quote between double quotes. *)
Inductive quoting : Type := Outside | InSingle | InDouble.

Fixpoint unquoteFrom (mode : quoting) (word : string) : option string :=
  match word with
  | EmptyString => match mode with Outside => Some EmptyString | _ => None end
  | String c rest =>
      match mode with
      | Outside =>
          if Ascii.eqb c SQ then unquoteFrom InSingle rest
          else if Ascii.eqb c DQc then unquoteFrom InDouble rest
          else None
      | InSingle =>
          if Ascii.eqb c SQ then unquoteFrom Outside rest
          else option_map (String c) (unquoteFrom InSingle rest)
      | InDouble =>
          if Ascii.eqb c DQc then unquoteFrom Outside rest
          else if Ascii.eqb c SQ
               then option_map (String c) (unquoteFrom InDouble rest)
               else None
      end
  end.

Lemma unquote_escaped (s : string) :
  unquoteFrom InSingle (Amux.escapeSingleQuotes s +:+ String SQ EmptyString)
  = Some s.
Proof.
  induction s as [|c s IH]; [reflexivity|].
  rewrite escape_cons. destruct (nat_of_ascii c =? 39)%nat eqn:Ec.
  - apply is_SQ in Ec. subst c. rewrite !app_cons.
    cbn [unquoteFrom]. change (Ascii.eqb SQ SQ) with true.
    change (Ascii.eqb DQc SQ) with false. change (Ascii.eqb DQc DQc) with true.
    change (Ascii.eqb SQ DQc) with false. cbn [option_map].
    rewrite IH. reflexivity.
  - rewrite app_cons. cbn [unquoteFrom].
    destruct (Ascii.eqb_spec c SQ) as [->|_]; [vm_compute in Ec; discriminate|].
    rewrite IH. reflexivity.
Qed.

(** X8.  Read back by the shell ([/bin/sh -c], to which the wrapped
    command is handed), the word [shellQuote] makes is the working directory,
    byte for byte, whatever it holds. *)
Theorem X8_shellQuote_round_trip (s : string) :
  unquoteFrom Outside (Amux.shellQuote s) = Some s.
Proof.
  unfold Amux.shellQuote.
  change ("'" +:+ Amux.escapeSingleQuotes s +:+ "'")
    with (String SQ (Amux.escapeSingleQuotes s +:+ String SQ EmptyString)).
  cbn [unquoteFrom]. change (Ascii.eqb SQ SQ) with true. apply unquote_escaped.
Qed.

Example shellQuote_quote : Amux.shellQuote "it's"
  = String SQ ("it" +:+ String SQ (String DQc (String SQ (String DQc
      (String SQ ("s" +:+ String SQ EmptyString)))))).
Proof. reflexivity. Qed.

End ShellQuoteFacts.

(** X7 on two directories. *)
Lemma X7_shellQuote_injective_witness :
  Amux.wrapCommand "/town/alpha" "claude" = "cd '/town/alpha' && exec claude"
  /\ Amux.wrapCommand "/town/alpha" "claude" <> "claude"
  /\ (Amux.wrapCommand "/town/alpha" "claude" = Amux.wrapCommand "/town/beta" "claude"
      -> "/town/alpha" = "/town/beta").
Proof.
  destruct (ShellQuoteFacts.X7_shellQuote_injective "/town/alpha" "/town/beta"
                                                    "claude")
    as (_ & Hw & _ & Hne).
  split; [reflexivity|]. split.
  - apply Hne. discriminate.
  - apply Hw; discriminate.
Defined.

(* ================================================================== *)
(** * Environment variables of a new session *)
(* ================================================================== *)

Module EnvFacts.
Import AmuxCore GoFacts RunFacts BuildEnvFacts AmuxInventory.

(** The flags for a list of pairs, in its order. *)
Definition flagsOf (pairs : list (string * string)) : list string :=
  flat_map (fun kv => ["-e"; kv.1 +:+ "=" +:+ kv.2]) pairs.

Lemma flagsOf_snoc (pairs : list (string * string)) (k v : string) :
  flagsOf (pairs ++ [(k, v)]) = (flagsOf pairs ++ ["-e"; k +:+ "=" +:+ v])%list.
Proof.
  unfold flagsOf. rewrite flat_map_app. reflexivity.
Qed.

Lemma length_flagsOf (pairs : list (string * string)) :
  length (flagsOf pairs) = (2 * length pairs)%nat.
Proof. induction pairs as [|p pairs IH]; simpl; [reflexivity|]. rewrite IH. lia. Qed.

(** The flags are, for some order of the entries of the map, one [-e]
    followed by [K=V] for each entry. *)
Lemma envFlags_pairs (env : gmap string string) :
  exists pairs, pairs ≡ₚ map_to_list env /\ envFlags env = flagsOf pairs.
Proof.
  unfold envFlags.
  apply (map_fold_weak_ind
           (fun r m => exists pairs, pairs ≡ₚ map_to_list m /\ r = flagsOf pairs)).
  - exists []. rewrite map_to_list_empty. split; reflexivity.
  - intros k v m r Hk (pairs & Hp & ->). exists (pairs ++ [(k, v)])%list. split.
    + rewrite (map_to_list_insert m k v Hk), <- Hp.
      symmetry. apply Permutation_cons_append.
    + symmetry. apply flagsOf_snoc.
Qed.

Section WithPlatform.
Context {World : Type} `{!Platform World}.

Local Abbreviation St := (State World).

(** X9.  [NewSessionWithCommandAndEnv] runs [amux new -d -t name], then,
    for some order of the entries of the map, one [-e] followed by [K=V] for
    each entry and nothing else, then [-- /bin/sh -c] and the wrapped command:
    twice as many flags as entries, with every pair among them; with an empty
    map it is [NewSessionWithCommand]. *)
Theorem X9_env_flags (name workDir command : string) (env : gmap string string)
        (st : St) :
  (exists pairs,
      pairs ≡ₚ map_to_list env
      /\ length (flagsOf pairs) = (2 * size env)%nat
      /\ (forall k v, env !! k = Some v -> In (k +:+ "=" +:+ v) (flagsOf pairs))
      /\ NewSessionWithCommandAndEnv name workDir command env st
         = (r <- run (["new"; "-d"; "-t"; name] ++ flagsOf pairs
                      ++ ["--"; "/bin/sh"; "-c"; Amux.wrapCommand workDir command])%list ;;
            match r with
            | inl _ => ret None
            | inr err => ret (Some err)
            end) st)
  /\ NewSessionWithCommandAndEnv name workDir command ∅ st
     = Amux.NewSessionWithCommand name workDir command st.
Proof.
  split; [|reflexivity].
  destruct (envFlags_pairs env) as (pairs & Hp & Heq).
  exists pairs. split; [exact Hp|]. split; [|split].
  - rewrite length_flagsOf, Hp, length_map_to_list. reflexivity.
  - intros k v Hkv. unfold flagsOf. apply in_flat_map.
    exists (k, v). split; [|right; left; reflexivity].
    apply list_elem_of_In. rewrite Hp. apply elem_of_map_to_list. exact Hkv.
  - unfold NewSessionWithCommandAndEnv. rewrite Heq, <- List.app_assoc.
    reflexivity.
Qed.

Lemma entries_length (final : gmap string string) :
  length (map_fold (fun k v result => (result ++ [k +:+ "=" +:+ v])%list) [] final)
  = size final.
Proof.
  apply (map_fold_weak_ind (fun r m => length r = size m)).
  - now rewrite map_size_empty.
  - intros k v m r Hk IH. rewrite length_app, IH, (map_size_insert_None k v m Hk).
    simpl. lia.
Qed.

(** X10.  The environment [buildEnv] returns has one entry for each
    variable of the overlay laid over the inherited ones, every entry has an
    [=] in it (inherited entries without one are dropped), and, when no key
    of the overlay has an [=], no variable has two entries. *)
Theorem X10_buildEnv_shape (env : gmap string string) (st : St) :
  exists entries,
    AmuxNoSend.buildEnv env st = (Return entries, st)
    /\ length entries
       = size (env ∪ AmuxNoSend.inheritEnv (Environ (world st)))
    /\ (forall e, e ∈ entries -> Contains e "=" = true)
    /\ ((forall k w, env !! k = Some w -> Cut k "="%char = None) ->
        forall K v1 v2,
          Cut K "="%char = None ->
          K +:+ "=" +:+ v1 ∈ entries -> K +:+ "=" +:+ v2 ∈ entries -> v1 = v2).
Proof.
  destruct (buildEnv_eq env st) as (entries & Heq & Hin).
  exists entries. split; [exact Heq|]. split; [|split].
  - unfold AmuxNoSend.buildEnv in Heq. injection Heq as <-.
    rewrite entries_length, overlay_union. reflexivity.
  - intros e He. apply Hin in He as (k & v & _ & ->).
    apply (Contains_app k "=" v).
  - intros Hkeys K v1 v2 HK H1 H2.
    assert (Hone : forall v, K +:+ "=" +:+ v ∈ entries ->
                             (env ∪ AmuxNoSend.inheritEnv (Environ (world st))) !! K
                             = Some v).
    { intros v Hv. apply Hin in Hv as (k & w & Hk & Hkw).
      assert (Hcut : Cut k "="%char = None).
      { apply lookup_union_Some_raw in Hk as [Hk'|[_ Hk']].
        - apply (Hkeys k w Hk').
        - apply (inheritEnv_keys _ k w Hk'). }
      apply entry_inj in Hkw as [-> ->]; [exact Hk | exact HK | exact Hcut]. }
    pose proof (Hone v1 H1) as E1. pose proof (Hone v2 H2) as E2. congruence.
Qed.

(** X11.  On the adapter without session environments, [SetEnvironment]
    and [GetEnvironment] return without running anything: the result is an
    error that wraps [ErrNotImplemented] and names the operation, the quoted
    session and the quoted key; no value is stored and none is returned. *)
Theorem X11_environment_not_implemented (session key value : string) (st : St) :
  (exists e,
      AmuxNoSend.SetEnvironment session key value st = (Return (Some e), st)
      /\ Is e AmuxNoSend.ErrNotImplemented = true
      /\ Contains (Error e) "SetEnvironment" = true
      /\ Contains (Error e) (Quote session) = true
      /\ Contains (Error e) (Quote key) = true
      /\ forall value', AmuxNoSend.SetEnvironment session key value' st
                        = AmuxNoSend.SetEnvironment session key value st)
  /\ (exists e,
         AmuxNoSend.GetEnvironment session key st = (Return (EmptyString, Some e), st)
         /\ Is e AmuxNoSend.ErrNotImplemented = true
         /\ Contains (Error e) "GetEnvironment" = true
         /\ Contains (Error e) (Quote session) = true
         /\ Contains (Error e) (Quote key) = true).
Proof.
  split; eexists; (split; [reflexivity|]); (split; [apply Is_wrapped|]);
    cbn [Error].
  - split; [apply (Contains_app (Error AmuxNoSend.ErrNotImplemented +:+ ": ")
                                "SetEnvironment")|].
    split; [rewrite <- (app_assoc _ ": SetEnvironment(");
            apply (Contains_app _ (Quote session))|].
    split; [|reflexivity].
    rewrite <- (app_assoc _ ": SetEnvironment("), <- (app_assoc _ (Quote session)),
      <- (app_assoc _ ", ").
    apply (Contains_app _ (Quote key) ")").
  - split; [apply (Contains_app (Error AmuxNoSend.ErrNotImplemented +:+ ": ")
                                "GetEnvironment")|].
    split; [rewrite <- (app_assoc _ ": GetEnvironment(");
            apply (Contains_app _ (Quote session))|].
    rewrite <- (app_assoc _ ": GetEnvironment("), <- (app_assoc _ (Quote session)),
      <- (app_assoc _ ", ").
    apply (Contains_app _ (Quote key) ")").
Qed.

End WithPlatform.

End EnvFacts.

(* ================================================================== *)
(** * [HasSession] of the revision that filters errors *)
(* ================================================================== *)

Module ExistenceFacts.
Import AmuxCore GoFacts ClassifierFacts RunFacts LivenessFacts RunShapeFacts.

Section WithPlatform.
Context {World : Type} `{!Platform World}.

Local Abbreviation St := (State World).

(** The two phrases that mean the session is unknown. *)
Definition unknownPhrase (t : string) : bool :=
  Contains t "not found" || Contains t "no such session".

(** X12.  When [amux has] fails, with a process error that is neither of
    the two package errors, [HasSession] of the revision that filters errors
    answers [false]; it keeps the error to itself exactly when the trimmed
    diagnostics name the daemon as unreachable or, without the phrase "already
    exists", the session as unknown.  Diagnostics with "already exists" and no
    daemon phrase come back as [ErrSessionExists]. *)
Theorem X12_HasSession_filters (name : string) (st : St) (err : error) :
  let has := ["has"; "-t"; name] in
  let stderr := TrimSpace (stderrText (answer st has)) in
  runErr (answer st has) = Some err ->
  Is err ErrSessionNotFound = false ->
  Is err ErrNoDaemon = false ->
  exists r,
    AmuxNoSend.HasSession name st = (Return (false, r), ranOn st has)
    /\ (r = None
        <-> daemonPhrase stderr = true
            \/ (Contains stderr "already exists" = false
                /\ unknownPhrase stderr = true))
    /\ (daemonPhrase stderr = false ->
        Contains stderr "already exists" = true ->
        r = Some ErrSessionExists).
Proof.
  intros has stderr Hrun Hnf Hnd.
  destruct (HasSession_nosend_eq name st) as (r & Heq & Hcase).
  fold has in Heq, Hcase. rewrite Hrun in Hcase.
  destruct Hcase as (e & Hw & ->). eexists. split; [exact Heq|].
  revert Hw. unfold wrapError. fold stderr. unfold daemonPhrase, unknownPhrase.
  destruct (Contains stderr "daemon not running"
            || Contains stderr "connection refused"
            || Contains stderr "no such file or directory") eqn:Ed.
  { intros [= <-]. simpl. split; [|discriminate]. split; auto. }
  destruct (Contains stderr "already exists") eqn:Ee.
  { intros [= <-]. simpl. split; [|reflexivity].
    split; [discriminate|]. intros [H|[H _]]; discriminate. }
  destruct (Contains stderr "not found" || Contains stderr "no such session")
    eqn:Eu.
  { intros [= <-]. simpl. split; [|discriminate]. split; auto. }
  destruct (negb (String.eqb stderr "")); cbn [index0 has]; intros [= <-].
  - simpl. split; [|discriminate].
    split; [discriminate|]. intros [H|[_ H]]; discriminate.
  - cbn [Is error_eqb ErrSessionNotFound ErrNoDaemon]. 
    change (Is err (New "session not found")) with (Is err ErrSessionNotFound).
    change (Is err (New "amux daemon not running")) with (Is err ErrNoDaemon).
    rewrite Hnf, Hnd. simpl. split; [|discriminate].
    split; [discriminate|]. intros [H|[_ H]]; discriminate.
Qed.

End WithPlatform.

End ExistenceFacts.

(** X12 where the socket cannot be opened: the error comes back. *)
Lemma X12_HasSession_filters_witness :
  exists r,
    AmuxNoSend.HasSession "w1" ScenarioMore.deniedState
    = (Return (false, r),
       RunFacts.ranOn ScenarioMore.deniedState ["has"; "-t"; "w1"])
    /\ r <> None.
Proof.
  destruct (ExistenceFacts.X12_HasSession_filters
              "w1" ScenarioMore.deniedState (External "exit status 1"))
    as (r & Heq & Hiff & _); [reflexivity | reflexivity | reflexivity |].
  exists r. split; [exact Heq|].
  intros Hr. apply Hiff in Hr. vm_compute in Hr.
  destruct Hr as [Hr|[_ Hr]]; discriminate.
Defined.

(* ================================================================== *)
(** * The witness manager: probes *)
(* ================================================================== *)

Module WitnessProbes.
Import Session Witness.

Section WithBackend.
Context {S : Type} `{!Collaborators S}.

(** [CheckSessionHealth] of the backend that [session.NewBackend()]
    returns. *)
Variable CheckSessionHealth : string -> Duration -> M S ZombieStatus.

(** [IsRunning]. *)
Definition IsRunning (m : Manager) : M S (bool * option error) :=
  status <- CheckSessionHealth (SessionName m) 0 ;;
  ret (match status with SessionHealthy => true | _ => false end, None).

(** [IsHealthy]. *)
Definition IsHealthy (m : Manager) (maxInactivity : Duration) : M S ZombieStatus :=
  CheckSessionHealth (SessionName m) maxInactivity.

End WithBackend.

End WitnessProbes.

(* ================================================================== *)
(** * The witness manager: errors, and what is not fatal *)
(* ================================================================== *)

Module ManagerFacts.
Import Session Witness GoFacts WitnessFacts.

Lemma bind_cong {S A B : Type} (m1 m2 : M S A) (k1 k2 : A -> M S B) (s : S) :
  m1 s = m2 s -> (forall a s', k1 a s' = k2 a s') ->
  bind m1 k1 s = bind m2 k2 s.
Proof.
  intros Hm Hk. unfold bind. rewrite Hm.
  destruct (m2 s) as [[a|reason] s']; [apply Hk | reflexivity].
Qed.

(** Two calls that do the same to the state and panic alike, whatever
    they return. *)
Definition sameEffect {S A B : Type} (f : M S A) (g : M S B) : Prop :=
  forall s,
    match f s, g s with
    | (Return _, s1), (Return _, s2) => s1 = s2
    | (Panic r1, s1), (Panic r2, s2) => r1 = r2 /\ s1 = s2
    | _, _ => False
    end.

(** A loop that drops what its body returns cannot tell such bodies
    apart. *)
Lemma forEach_sameEffect {S A B C : Type} (xs : list A)
      (f : A -> M S B) (g : A -> M S C) (s : S) :
  (forall x, sameEffect (f x) (g x)) -> forEach xs f s = forEach xs g s.
Proof.
  intros H. revert s. induction xs as [|x xs IH]; intros s; [reflexivity|].
  cbn [forEach]. unfold bind. specialize (H x s).
  destruct (f x s) as [[b|r1] s1], (g x s) as [[c|r2] s2]; try contradiction.
  - subst s2. apply IH.
  - destruct H as [-> ->]. reflexivity.
Qed.

(** The call with its error dropped. *)
Definition quiet {S : Type} (f : M S (option error)) : M S (option error) :=
  fun s =>
    match f s with
    | (Return _, s') => (Return None, s')
    | (Panic reason, s') => (Panic reason, s')
    end.

Lemma quiet_sameEffect {S : Type} (f : M S (option error)) :
  sameEffect (quiet f) f.
Proof.
  intros s. unfold quiet. destruct (f s) as [[e|reason] s']; auto.
Qed.

Lemma ret_sameEffect {S A B : Type} (a : A) (b : B) :
  sameEffect (S := S) (ret a) (ret b).
Proof. intros s. reflexivity. Qed.

(** The contexts that [Start] puts before the error of a step. *)
Definition startContexts : list string :=
  ["killing zombie session: "; "ensuring runtime settings: ";
   "loading witness role config: "; "building startup command: ";
   "creating session: "; "waiting for witness to start: "].

(** An error made by [fmt.Errorf("<context>: %w", inner)]. *)
Definition inContext (e : error) : Prop :=
  exists ctx inner,
    e = ErrorfW (ctx +:+ Error inner) inner /\ In ctx startContexts.

Ltac in_context :=
  eexists _, _; split; [reflexivity | simpl; tauto].

Section WithBackend.
Context {S : Type} `{!Collaborators S}.
Variable backend : SessionBackend S Theme.

(** The backend with the errors of [SetEnvironment] dropped. *)
Definition withQuietEnvironment : SessionBackend S Theme := {|
  NewSessionWithCommand := NewSessionWithCommand backend;
  KillSession := KillSession backend;
  KillSessionWithProcesses := KillSessionWithProcesses backend;
  HasSession := HasSession backend;
  SetEnvironment n k v := quiet (SetEnvironment backend n k v);
  IsAgentAlive := IsAgentAlive backend;
  asTmuxExtras := asTmuxExtras backend;
  isTmux := isTmux backend
|}.

Lemma startSession_quiet (m : Manager) (sessionID agentOverride : string)
      (envOverrides : list string) (st : S) :
  startSession withQuietEnvironment m sessionID agentOverride envOverrides st
  = startSession backend m sessionID agentOverride envOverrides st.
Proof.
  unfold startSession.
  apply bind_cong; [reflexivity|]. intros dir s1.
  apply bind_cong; [reflexivity|]. intros root s2.
  apply bind_cong; [reflexivity|]. intros cfg s3.
  apply bind_cong; [reflexivity|]. intros [e|] s4; [reflexivity|].
  apply bind_cong; [reflexivity|]. intros ge s5.
  apply bind_cong; [reflexivity|]. intros [] s6.
  apply bind_cong; [reflexivity|]. intros [rc|e] s7; [|reflexivity].
  apply bind_cong; [reflexivity|]. intros [command|e] s8; [|reflexivity].
  apply bind_cong; [reflexivity|]. intros [e|] s9; [reflexivity|].
  apply bind_cong.
  { apply forEach_sameEffect. intros kv. apply quiet_sameEffect. }
  intros [] s10.
  apply bind_cong.
  { apply forEach_sameEffect. intros kv. apply quiet_sameEffect. }
  intros [] s11.
  apply bind_cong.
  { apply forEach_sameEffect. intros override.
    destruct (Cut override "="%char) as [[key value]|].
    - apply quiet_sameEffect.
    - apply ret_sameEffect. }
  intros [] s12. reflexivity.
Qed.

(** X15.  The errors of [SetEnvironment] are not fatal: [Start] returns
    what it returns, and leaves the state it leaves, when every
    [SetEnvironment] of the backend has its error dropped.  What
    [SetEnvironment] does to the session, and a panic in it, are kept. *)
Theorem X15_environment_errors_not_fatal
        (m : Manager) (foreground : bool) (agentOverride : string)
        (envOverrides : list string) (st : S) :
  Start withQuietEnvironment m foreground agentOverride envOverrides st
  = Start backend m foreground agentOverride envOverrides st.
Proof.
  unfold Start. destruct foreground; [reflexivity|].
  apply bind_cong; [reflexivity|]. intros [[] err] s1; cbn [fst].
  - apply bind_cong; [reflexivity|]. intros [] s2; [reflexivity|].
    apply bind_cong; [reflexivity|]. intros [e|] s3; [reflexivity|].
    apply startSession_quiet.
  - apply startSession_quiet.
Qed.

(** An error of the steps that only the tmux backend has is in one of the
    contexts of [Start]. *)
Lemma applyBackendFeatures_inContext (m : Manager) (sessionID : string)
      (st : S) (e : error) :
  result (applyBackendFeatures backend m sessionID st) = Return (Some e) ->
  inContext e.
Proof.
  unfold applyBackendFeatures.
  repeat step_call; unfold ret, result; cbn [fst]; intros [= <-]; in_context.
Qed.

(** X16.  Of the steps that only the tmux backend has, the wait for the
    agent is the one that can fail [Start]: an error from them means that
    the backend has these steps, that [WaitForCommand] returned an error
    after the theme was set, whatever setting it returned, that the error
    is that one in the context "waiting for witness to start", and that
    the session was then killed with its processes, whatever that kill
    returned. *)
Theorem X16_only_the_wait_is_fatal
        (m : Manager) (sessionID : string) (st : S) (e : error) :
  result (applyBackendFeatures backend m sessionID st) = Return (Some e) ->
  exists extras themed s1 err s2 killed s3,
    asTmuxExtras backend = Some extras
    /\ ConfigureGasTownSession extras sessionID (AssignTheme (RigName (rig m)))
                               (RigName (rig m)) "witness" "witness" st
       = (Return themed, s1)
    /\ WaitForCommand extras sessionID SupportedShells ClaudeStartTimeout s1
       = (Return (Some err), s2)
    /\ KillSessionWithProcesses backend sessionID s2 = (Return killed, s3)
    /\ e = ErrorfW ("waiting for witness to start: " +:+ Error err) err
    /\ applyBackendFeatures backend m sessionID st = (Return (Some e), s3).
Proof.
  unfold applyBackendFeatures.
  destruct (asTmuxExtras backend) as [extras|].
  2:{ unfold bind. destruct (timeSleep (2 * Second) st) as [[[]|] s1];
      intros [=]. }
  unfold bind at 1.
  destruct (ConfigureGasTownSession extras _ _ _ _ _ st) as [[themed|] s1] eqn:Et;
    [|intros [=]].
  unfold bind at 1.
  destruct (WaitForCommand extras _ _ _ s1) as [[[err|]|] s2] eqn:Ew;
    [| |intros [=]].
  - unfold bind at 1.
    destruct (KillSessionWithProcesses backend sessionID s2) as [[killed|] s3]
      eqn:Ek; [|intros [=]].
    unfold ret, result. cbn [fst]. intros [= <-].
    exists extras, themed, s1, err, s2, killed, s3.
    repeat split; try assumption; try reflexivity.
    unfold bind. rewrite Et, Ew, Ek. reflexivity.
  - unfold bind at 1.
    destruct (AcceptBypassPermissionsWarning extras sessionID s2)
      as [[accepted|] s3]; [|intros [=]].
    unfold bind at 1.
    destruct (match accepted with
              | Some err => logPrintf _
              | None => ret tt
              end s3) as [[[]|] s4]; intros [=].
Qed.

End WithBackend.

End ManagerFacts.

(* ================================================================== *)
(** * The witness manager: where the errors of [Start] come from *)
(* ================================================================== *)

Module StartErrorFacts.
Import Session Witness GoFacts WitnessFacts ManagerFacts.

Section WithBackend.
Context {S : Type} `{!Collaborators S}.
Variable backend : SessionBackend S Theme.

Lemma roleConfig_inContext (m : Manager) (st : S) (e : error) :
  result (roleConfig m st) = Return (inr e) -> inContext e.
Proof.
  unfold roleConfig.
  unfold bind at 1. destruct (townRoot m st) as [[root|] s1]; [|intros [=]].
  unfold bind at 1.
  destruct (GetRoleConfig root (RoleBeadIDTown "witness") s1) as [[[rc|err]|] s2];
    unfold ret, result; cbn [fst]; intros [= <-].
  in_context.
Qed.

(** X13.  An agent override makes [buildWitnessStartCommand] deaf to the
    role configuration; without one, a role that has a start command gets that
    command, expanded, and nothing is asked of the agent configuration; and
    whenever the function fails, the error is the one of the agent
    configuration in the context "building startup command". *)
Theorem X13_start_command_precedence
        (rigPath rigName root sessionName agentOverride : string)
        (rc : option RoleConfig) (st : S) :
  (agentOverride <> EmptyString ->
   forall rc',
     buildWitnessStartCommand rigPath rigName root sessionName agentOverride rc st
     = buildWitnessStartCommand rigPath rigName root sessionName agentOverride
                                rc' st)
  /\ (forall role,
         agentOverride = EmptyString -> rc = Some role ->
         StartCommand role <> EmptyString ->
         buildWitnessStartCommand rigPath rigName root sessionName agentOverride
                                  rc st
         = (Return (inl (ExpandRolePattern (StartCommand role) root rigName
                                           EmptyString "witness"
                                           (PrefixFor rigName))), st))
  /\ (forall role,
         rc = Some role -> StartCommand role = EmptyString ->
         buildWitnessStartCommand rigPath rigName root sessionName agentOverride
                                  rc st
         = buildWitnessStartCommand rigPath rigName root sessionName
                                    agentOverride None st)
  /\ (forall e,
         result (buildWitnessStartCommand rigPath rigName root sessionName
                                          agentOverride rc st)
         = Return (inr e) ->
         exists inner,
           e = ErrorfW ("building startup command: " +:+ Error inner) inner).
Proof.
  split; [|split; [|split]].
  - intros Hne rc'. unfold buildWitnessStartCommand.
    apply String.eqb_neq in Hne. rewrite Hne. reflexivity.
  - intros role -> -> Hcmd. unfold buildWitnessStartCommand.
    apply String.eqb_neq in Hcmd. cbn [String.eqb negb]. rewrite Hcmd.
    reflexivity.
  - intros role -> Hcmd. unfold buildWitnessStartCommand.
    destruct (negb (agentOverride =? EmptyString)%string); [reflexivity|].
    rewrite Hcmd. reflexivity.
  - intros e. unfold buildWitnessStartCommand.
    repeat step_call; unfold ret, result; cbn [fst]; intros [= <-]; eauto.
Qed.

Lemma buildWitnessStartCommand_inContext
      (rigPath rigName root sessionName agentOverride : string)
      (rc : option RoleConfig) (st : S) (e : error) :
  result (buildWitnessStartCommand rigPath rigName root sessionName
                                   agentOverride rc st)
  = Return (inr e) ->
  inContext e.
Proof.
  unfold buildWitnessStartCommand.
  repeat step_call; unfold ret, result; cbn [fst]; intros [= <-]; in_context.
Qed.

Lemma startSession_inContext (m : Manager) (sessionID agentOverride : string)
      (envOverrides : list string) (st : S) (e : error) :
  result (startSession backend m sessionID agentOverride envOverrides st)
  = Return (Some e) ->
  inContext e.
Proof.
  unfold startSession.
  unfold bind at 1. destruct (witnessDir m st) as [[dir|] s1]; [|intros [=]].
  unfold bind at 1. destruct (townRoot m s1) as [[root|] s2]; [|intros [=]].
  unfold bind at 1.
  destruct (ResolveRoleAgentConfig "witness" root (RigPath (rig m)) s2)
    as [[cfg|] s3]; [|intros [=]].
  unfold bind at 1.
  destruct (EnsureSettingsForRole _ dir "witness" cfg s3) as [[[err|]|] s4];
    [intros [= <-]; in_context | | intros [=]].
  unfold bind at 1.
  destruct (EnsureGitignorePatterns dir s4) as [[ge|] s5]; [|intros [=]].
  unfold bind at 1.
  destruct (match ge with
            | Some err => PrintWarning _
            | None => ret tt
            end s5) as [[[]|] s6]; [|intros [=]].
  unfold bind at 1.
  pose proof (roleConfig_inContext m s6) as Hrc.
  destruct (roleConfig m s6) as [[[rc|err]|] s7]; [| |intros [=]].
  2:{ intros [= <-]. apply Hrc. reflexivity. }
  unfold bind at 1.
  pose proof (buildWitnessStartCommand_inContext
                (RigPath (rig m)) (RigName (rig m)) root sessionID
                agentOverride rc s7) as Hc.
  destruct (buildWitnessStartCommand _ _ root sessionID agentOverride rc s7)
    as [[[command|err]|] s8]; [| |intros [=]].
  2:{ intros [= <-]. apply Hc. reflexivity. }
  unfold bind at 1.
  destruct (NewSessionWithCommand backend sessionID dir command s8)
    as [[[err|]|] s9]; [intros [= <-]; in_context | | intros [=]].
  unfold bind at 1.
  destruct (forEach _ _ s9) as [[[]|] s10]; [|intros [=]].
  unfold bind at 1.
  destruct (forEach _ _ s10) as [[[]|] s11]; [|intros [=]].
  unfold bind at 1.
  destruct (forEach _ _ s11) as [[[]|] s12]; [|intros [=]].
  unfold bind at 1.
  pose proof (applyBackendFeatures_inContext backend m sessionID s12) as Hf.
  destruct (applyBackendFeatures backend m sessionID s12) as [[[err|]|] s13];
    [| |intros [=]].
  { intros [= <-]. apply Hf. reflexivity. }
  repeat step_call; unfold ret, result; cbn [fst]; intros [=].
Qed.

(** X14.  Every error [Start] returns is [ErrAlreadyRunning], the
    refusal of the foreground mode, or the error of one step wrapped in the
    context of that step: killing the zombie, ensuring the runtime settings,
    loading the role configuration, building the startup command, creating
    the session, or waiting for the agent.  No error of a collaborator comes
    back bare, and a warning ([.gitignore], the bypass dialog, the PID
    tracking, the environment) never comes back at all. *)
Theorem X14_Start_errors
        (m : Manager) (foreground : bool) (agentOverride : string)
        (envOverrides : list string) (st : S) (e : error) :
  result (Start backend m foreground agentOverride envOverrides st)
  = Return (Some e) ->
  e = ErrAlreadyRunning
  \/ (foreground = true
      /\ e = Errorf "foreground mode is deprecated; use background mode (remove --foreground flag)")
  \/ (foreground = false
      /\ exists ctx inner,
          e = ErrorfW (ctx +:+ Error inner) inner
          /\ In ctx startContexts
          /\ Unwrap e = Some inner).
Proof.
  assert (Hctx : forall e', inContext e' ->
                            exists ctx inner,
                              e' = ErrorfW (ctx +:+ Error inner) inner
                              /\ In ctx startContexts
                              /\ Unwrap e' = Some inner).
  { intros e' (ctx & inner & -> & Hin). exists ctx, inner. auto. }
  unfold Start. destruct foreground.
  { unfold ret, result. cbn [fst]. intros [= <-]. right. left. auto. }
  unfold bind at 1.
  destruct (HasSession backend (SessionName m) st) as [[[[] herr]|] s1];
    cbn [fst]; [| |intros [=]].
  - unfold bind at 1.
    destruct (IsAgentAlive backend (SessionName m) s1) as [[[]|] s2];
      [| |intros [=]].
    + intros [= <-]. left. reflexivity.
    + unfold bind at 1.
      destruct (KillSession backend (SessionName m) s2) as [[[kerr|]|] s3];
        [| |intros [=]].
      * intros [= <-]. right. right. split; [reflexivity|].
        apply Hctx. in_context.
      * intros H. right. right. split; [reflexivity|].
        apply Hctx. apply (startSession_inContext _ _ _ _ _ _ H).
  - intros H. right. right. split; [reflexivity|].
    apply Hctx. apply (startSession_inContext _ _ _ _ _ _ H).
Qed.

End WithBackend.

End StartErrorFacts.

(** A backend with the steps of tmux, on the small multiplexer: the agent
    does not come up in time. *)
Module WitnessScenarioTmux.
Import Session Witness WitnessScenario.

Definition toyExtras : TmuxExtras Toy unit := {|
  ConfigureGasTownSession n _ _ _ _ t := (Return None, logged ("theme " +:+ n) t);
  WaitForCommand n _ _ t :=
    (Return (Some (New "timeout waiting for command")), logged ("wait " +:+ n) t);
  AcceptBypassPermissionsWarning n t := (Return None, logged ("accept " +:+ n) t)
|}.

Definition toyTmux : SessionBackend Toy unit := {|
  NewSessionWithCommand := NewSessionWithCommand toyBackend;
  KillSession := KillSession toyBackend;
  KillSessionWithProcesses := KillSessionWithProcesses toyBackend;
  HasSession := HasSession toyBackend;
  SetEnvironment := SetEnvironment toyBackend;
  IsAgentAlive := IsAgentAlive toyBackend;
  asTmuxExtras := Some toyExtras;
  isTmux := true
|}.

End WitnessScenarioTmux.

(** X14 on the small backend: a healthy session, and the foreground mode. *)
Lemma X14_Start_errors_witness :
  let m := WitnessScenario.manager in
  let t := WitnessScenario.toyBackend in
  let deprecated :=
    Errorf "foreground mode is deprecated; use background mode (remove --foreground flag)" in
  result (Witness.Start t m false EmptyString [] WitnessScenario.healthy)
  = Return (Some Witness.ErrAlreadyRunning)
  /\ (Witness.ErrAlreadyRunning = Witness.ErrAlreadyRunning
      \/ (false = true /\ Witness.ErrAlreadyRunning = deprecated)
      \/ (false = false
          /\ exists ctx inner,
              Witness.ErrAlreadyRunning = ErrorfW (ctx +:+ Error inner) inner
              /\ In ctx ManagerFacts.startContexts
              /\ Unwrap Witness.ErrAlreadyRunning = Some inner)).
Proof.
  intros m t deprecated.
  assert (H : result (Witness.Start t m false EmptyString []
                                    WitnessScenario.healthy)
              = Return (Some Witness.ErrAlreadyRunning)) by reflexivity.
  split; [exact H|].
  apply (@StartErrorFacts.X14_Start_errors
           _ WitnessScenario.toyCollaborators t m false EmptyString []
           WitnessScenario.healthy _ H).
Defined.

(** X16 on the backend whose agent does not come up: the session that was
    created is gone again. *)
Lemma X16_only_the_wait_is_fatal_witness :
  let m := WitnessScenario.manager in
  let t := WitnessScenarioTmux.toyTmux in
  let e := ErrorfW "waiting for witness to start: timeout waiting for command"
                   (New "timeout waiting for command") in
  result (Witness.applyBackendFeatures t m "gt-alpha-witness"
                                       WitnessScenario.healthy)
  = Return (Some e)
  /\ exists s3,
      Witness.applyBackendFeatures t m "gt-alpha-witness" WitnessScenario.healthy
      = (Return (Some e), s3).
Proof.
  intros m t e.
  assert (H : result (Witness.applyBackendFeatures t m "gt-alpha-witness"
                                                   WitnessScenario.healthy)
              = Return (Some e)) by reflexivity.
  split; [exact H|].
  destruct (@ManagerFacts.X16_only_the_wait_is_fatal
              _ WitnessScenario.toyCollaborators
              t m "gt-alpha-witness" WitnessScenario.healthy e H)
    as (_ & _ & _ & _ & _ & _ & s3 & _ & _ & _ & _ & _ & Heq).
  exists s3. exact Heq.
Defined.

(* ================================================================== *)
(** * The witness manager over the adapter of [amux.go] *)
(* ================================================================== *)

Module AmuxManagerFacts.
Import AmuxCore Session Witness WitnessProbes GoFacts RunFacts AmuxFacts
       AmuxStartFacts.

Section WithPlatform.
Context {World : Type} `{!Platform World} `{!Collaborators (State World)}.

Local Abbreviation St := (State World).

(** X17.  Over the adapter of [amux.go], [Stop] runs [amux has] and, when
    that fails for whatever reason (an unknown session, a daemon that is not
    running, a missing binary), answers [ErrNotRunning] and kills nothing;
    when it succeeds, [Stop] is [KillSession] on the state the probe left, and
    its error, if any, is that of [amux kill]. *)
Theorem X17_Stop_over_amux (m : Manager) (st : St) :
  let name := SessionName m in
  let has := ["has"; "-t"; name] in
  (runErr (answer st has) <> None ->
   Stop AmuxBackend.amuxBackend m st = (Return (Some ErrNotRunning), ranOn st has))
  /\ (runErr (answer st has) = None ->
      Stop AmuxBackend.amuxBackend m st = AmuxCore.KillSession name (ranOn st has)
      /\ after (Stop AmuxBackend.amuxBackend m st)
         = ranOn (ranOn st has) ["kill"; "-t"; name]
      /\ (runErr (answer (ranOn st has) ["kill"; "-t"; name]) = None
          <-> result (Stop AmuxBackend.amuxBackend m st) = Return None)).
Proof.
  intros name has.
  assert (Hstop : Stop AmuxBackend.amuxBackend m st
                  = (if bool_decide (runErr (answer st has) = None)
                     then AmuxCore.KillSession name (ranOn st has)
                     else (Return (Some ErrNotRunning), ranOn st has))).
  { unfold Stop.
    change (Session.HasSession AmuxBackend.amuxBackend) with Amux.HasSession.
    change (Session.KillSession AmuxBackend.amuxBackend)
      with AmuxCore.KillSession.
    unfold bind at 1. rewrite HasSession_eq. fold name has. cbn [fst].
    case_bool_decide; reflexivity. }
  rewrite Hstop. clear Hstop. split.
  - intros Hfail. case_bool_decide; [contradiction|]. reflexivity.
  - intros Hok. case_bool_decide; [|contradiction].
    split; [reflexivity|].
    unfold AmuxCore.KillSession, bind.
    destruct (runErr (answer (ranOn st has) ["kill"; "-t"; name])) as [err|] eqn:E.
    + destruct (run_failed "kill" ["-t"; name] (ranOn st has) err E)
        as (e & _ & ->).
      split; [reflexivity|]. split; [discriminate|]. intros [=].
    + rewrite (run_ok "kill" ["-t"; name] (ranOn st has) E).
      split; [reflexivity|]. split; reflexivity.
Qed.

(** X18.  Over the adapter of [amux.go], a session that the multiplexer
    has and whose descriptor says the agent has exited is not running for
    [IsRunning], and [AgentDead] for [IsHealthy] under every limit, while
    [Start] takes it for a running witness: it answers [ErrAlreadyRunning]
    after two probes and neither kills nor creates anything. *)
Theorem X18_dead_agent_over_amux
        (m : Manager) (agentOverride : string) (envOverrides : list string)
        (maxInactivity : Duration) (st : St) (info : SessionInfo) :
  let name := SessionName m in
  let has := ["has"; "-t"; name] in
  runErr (answer st has) = None ->
  runErr (answer (ranOn st has) has) = None ->
  result (Amux.GetSessionInfo name st) = Return (inl info) ->
  Alive info = false ->
  result (IsRunning Amux.CheckSessionHealth m st) = Return (false, None)
  /\ result (IsHealthy Amux.CheckSessionHealth m maxInactivity st)
     = Return AgentDead
  /\ Start AmuxBackend.amuxBackend m false agentOverride envOverrides st
     = (Return (Some ErrAlreadyRunning), ranOn (ranOn st has) has).
Proof.
  intros name has H1 H2 Hinfo Hdead.
  assert (Hhealth : forall limit,
             result (Amux.CheckSessionHealth name limit st) = Return AgentDead).
  { intros limit. unfold Amux.CheckSessionHealth, bind.
    destruct (Amux.GetSessionInfo name st) as [[[i|err]|] s1];
      unfold result in Hinfo; cbn [fst] in Hinfo; try discriminate.
    injection Hinfo as ->. rewrite Hdead. reflexivity. }
  split; [|split].
  - unfold IsRunning, bind. fold name.
    pose proof (Hhealth 0) as H0.
    destruct (Amux.CheckSessionHealth name 0 st) as [[status|] s1];
      unfold result in H0; cbn [fst] in H0; try discriminate.
    injection H0 as ->. reflexivity.
  - apply Hhealth.
  - apply (Start_amux_existing_session m agentOverride envOverrides st H1 H2).
Qed.

(** [IsRunning] never returns an error, and says [true] exactly when the
    health under no limit is [SessionHealthy]. *)
Lemma IsRunning_iff_healthy
      (check : string -> Duration -> M St ZombieStatus) (m : Manager) (st : St)
      (running : bool) (err : option error) :
  result (IsRunning check m st) = Return (running, err) ->
  err = None
  /\ (running = true
      <-> result (check (SessionName m) 0 st) = Return SessionHealthy).
Proof.
  unfold IsRunning, bind.
  destruct (check (SessionName m) 0 st) as [[status|] s1];
    unfold ret, result; cbn [fst]; intros [= <- <-]; split; try reflexivity.
  destruct status; split; intros [=]; reflexivity.
Qed.

End WithPlatform.

End AmuxManagerFacts.

(** The witness manager of a rig whose witness session is [w1] of the small
    world, with collaborators that succeed and touch nothing. *)
Module ScenarioManager.
Import AmuxCore Session Witness Scenario.

Definition amuxCollaborators : Collaborators (State TestWorld) := {|
  RuntimeConfig := unit;
  Theme := unit;
  WitnessSessionName prefix := prefix;
  PrefixFor rigName := rigName;
  BeaconRecipient role name rigName := role +:+ "@" +:+ rigName;
  BuildStartupPrompt beacon text := text;
  TrackSessionPID _ _ := ret None;
  workspaceFind path := ret ("/town", None);
  ResolveRoleAgentConfig _ _ _ := ret tt;
  RoleSettingsDir role rigPath := rigPath +:+ "/" +:+ role;
  AgentEnv cfg := {[ "GT_ROLE" := Role cfg ]};
  BuildStartupCommandFromConfig _ _ _ _ := ret (inl "claude");
  EnsureSettingsForRole _ _ _ _ := ret None;
  EnsureGitignorePatterns _ := ret None;
  GetRoleConfig _ _ := ret (inl None);
  RoleBeadIDTown role := "hq-" +:+ role;
  ExpandRolePattern pattern _ _ _ _ _ := pattern;
  PrintWarning _ := ret tt;
  AssignTheme _ := tt;
  SupportedShells := ["bash"; "zsh"];
  ClaudeStartTimeout := 60 * Second;
  ShutdownNotifyDelay := Second;
  osStat _ := ret None;
  filepathJoin parts := String.concat "/" parts;
  logPrintf _ := ret tt;
  timeSleep _ := ret tt
|}.

Definition manager : Manager :=
  {| rig := {| RigName := "w1"; RigPath := "/town/w1" |} |}.

End ScenarioManager.

(** X18 on the session [w1], whose agent has exited: not running, and yet
    not started. *)
Lemma X18_dead_agent_over_amux_witness :
  let c := ScenarioManager.amuxCollaborators in
  let m := ScenarioManager.manager in
  result (@WitnessProbes.IsRunning _ c Amux.CheckSessionHealth m Scenario.start0)
  = Return (false, None)
  /\ result (@Witness.Start _ c (@AmuxBackend.amuxBackend _ _ c) m false
                            EmptyString [] Scenario.start0)
     = Return (Some Witness.ErrAlreadyRunning).
Proof.
  intros c m.
  destruct (@AmuxManagerFacts.X18_dead_agent_over_amux
              _ _ c m EmptyString [] 0 Scenario.start0 Scenario.w1)
    as (H1 & _ & H3);
    [reflexivity | reflexivity | vm_compute; reflexivity | reflexivity |].
  split; [exact H1 | rewrite H3; reflexivity].
Defined.

(* ================================================================== *)
(** * The helpers of the tests *)
(* ================================================================== *)

Module TestHelpers.

(** [searchString]: the loop over the offsets [0 .. len(s)-len(sub)], which
    is empty when [sub] is the longer text.  The slice [s[i:i+len(sub)]] is
    within [s] at each of these offsets. *)
Fixpoint searchLoop (rounds i : nat) (s sub : string) : bool :=
  match rounds with
  | O => false
  | S rounds' =>
      if String.eqb (String.substring i (String.length sub) s) sub then true
      else searchLoop rounds' (S i) s sub
  end.

Definition searchString (s sub : string) : bool :=
  let last := Z.of_nat (String.length s) - Z.of_nat (String.length sub) in
  searchLoop (Z.to_nat (last + 1)) 0 s sub.

(** [contains]. *)
Definition contains (s sub : string) : bool :=
  (String.length sub <=? String.length s)%nat && searchString s sub.

(** [containsAll]. *)
Fixpoint containsAll (s : string) (subs : list string) : bool :=
  match subs with
  | [] => true
  | sub :: subs' => if negb (contains s sub) then false else containsAll s subs'
  end.

(** [uniqueSession], from the name of the test, the suffix and the clock
    in nanoseconds: [fmt.Sprintf("test-%s-%s-%d", ...)], cut at 60 bytes. *)
Definition uniqueSession (testName suffix : string) (unixNano : Z) : string :=
  let name := "test-" +:+ testName +:+ "-" +:+ suffix +:+ "-"
              +:+ NilZero.string_of_int (Z.to_int (Z.rem unixNano 10000)) in
  if (60 <? String.length name)%nat then String.substring 0 60 name else name.

End TestHelpers.

Module TestHelperFacts.
Import GoFacts TestHelpers.

Lemma substring_prefix (s sub : string) :
  String.eqb (String.substring 0 (String.length sub) s) sub = HasPrefix s sub.
Proof.
  revert s. induction sub as [|d sub IH]; intros s.
  - destruct s; reflexivity.
  - destruct s as [|c s]; [reflexivity|].
    cbn [String.length String.substring String.eqb HasPrefix].
    rewrite IH.
    destruct (Ascii.eqb_spec c d) as [->|Hne].
    + now rewrite Ascii.eqb_refl.
    + assert (Hdc : Ascii.eqb d c = false) by (apply Ascii.eqb_neq; congruence).
      now rewrite Hdc.
Qed.

Lemma searchLoop_S (rounds i : nat) (s sub : string) :
  searchLoop (S rounds) i s sub
  = if String.eqb (String.substring i (String.length sub) s) sub then true
    else searchLoop rounds (S i) s sub.
Proof. reflexivity. Qed.

Lemma searchLoop_shift (rounds i : nat) (c : ascii) (s sub : string) :
  searchLoop rounds (S i) (String c s) sub = searchLoop rounds i s sub.
Proof.
  revert i. induction rounds as [|rounds IH]; intros i; [reflexivity|].
  cbn [searchLoop String.substring]. now rewrite IH.
Qed.

Lemma HasPrefix_length (s sub : string) :
  HasPrefix s sub = true -> (String.length sub <= String.length s)%nat.
Proof.
  revert s. induction sub as [|d sub IH]; intros s H; [simpl; lia|].
  destruct s as [|c s]; [discriminate|].
  simpl in H. apply andb_true_iff in H as [_ H]. apply IH in H. simpl. lia.
Qed.

Lemma Contains_length (s sub : string) :
  Contains s sub = true -> (String.length sub <= String.length s)%nat.
Proof.
  induction s as [|c s IH]; cbn [Contains]; intros H;
    apply orb_true_iff in H as [H|H].
  - now apply HasPrefix_length.
  - discriminate.
  - now apply HasPrefix_length.
  - apply IH in H. simpl. lia.
Qed.

Lemma searchLoop_Contains (s sub : string) :
  (String.length sub <= String.length s)%nat ->
  searchLoop (S (String.length s - String.length sub)) 0 s sub = Contains s sub.
Proof.
  induction s as [|c s IH]; intros Hlen.
  - rewrite searchLoop_S, substring_prefix.
    cbn [Contains searchLoop]. destruct (HasPrefix EmptyString sub); reflexivity.
  - cbn [String.length] in *.
    destruct (le_lt_dec (String.length sub) (String.length s)) as [Hle|Hlt].
    + replace (S (String.length s) - String.length sub)%nat
        with (S (String.length s - String.length sub)) by lia.
      rewrite searchLoop_S, substring_prefix, searchLoop_shift, (IH Hle).
      cbn [Contains]. destruct (HasPrefix (String c s) sub); reflexivity.
    + replace (S (String.length s) - String.length sub)%nat with 0%nat by lia.
      rewrite searchLoop_S, substring_prefix. cbn [Contains searchLoop].
      destruct (Contains s sub) eqn:E.
      * apply Contains_length in E. lia.
      * destruct (HasPrefix (String c s) sub); reflexivity.
Qed.

(** X19.  The search of the unit tests is [strings.Contains]: [contains]
    agrees with it on every pair of texts, also when the part is empty or
    longer than the whole, and [containsAll] holds exactly when every part
    is contained. *)
Theorem X19_contains_is_Contains (s : string) (subs : list string) :
  (forall sub, contains s sub = Contains s sub)
  /\ (containsAll s subs = true
      <-> forall sub, In sub subs -> Contains s sub = true).
Proof.
  assert (H : forall sub, contains s sub = Contains s sub).
  { intros sub. unfold contains, searchString.
    destruct (String.length sub <=? String.length s)%nat eqn:E.
    - apply Nat.leb_le in E. cbn [andb].
      replace (Z.to_nat (Z.of_nat (String.length s)
                         - Z.of_nat (String.length sub) + 1))
        with (S (String.length s - String.length sub)) by lia.
      apply (searchLoop_Contains s sub E).
    - apply Nat.leb_gt in E. cbn [andb].
      destruct (Contains s sub) eqn:Ec; [|reflexivity].
      apply Contains_length in Ec. lia. }
  split; [exact H|].
  induction subs as [|sub subs IH]; cbn [containsAll].
  - split; [intros _ sub []|reflexivity].
  - rewrite H. destruct (Contains s sub) eqn:E; cbn [negb].
    + rewrite IH. split.
      * intros Hall x [<-|Hin]; [exact E | now apply Hall].
      * intros Hall x Hin. apply Hall. now right.
    + split; [discriminate|]. intros Hall.
      rewrite (Hall sub (or_introl eq_refl)) in E. discriminate.
Qed.

Lemma substring_whole (n : nat) (a b : string) :
  (n <= String.length a)%nat ->
  String.substring 0 n (a +:+ b) = String.substring 0 n a.
Proof.
  revert a. induction n as [|n IH]; intros a Hn.
  - destruct a as [|c a]; rewrite ?app_nil_l, ?app_cons; [destruct b|];
      reflexivity.
  - destruct a as [|c a]; [simpl in Hn; lia|].
    rewrite app_cons. cbn [String.substring]. rewrite IH; [reflexivity|].
    simpl in Hn. lia.
Qed.

Lemma length_substring (n : nat) (s : string) :
  (String.length (String.substring 0 n s) <= n)%nat.
Proof.
  revert s. induction n as [|n IH]; intros s.
  - destruct s; simpl; lia.
  - destruct s as [|c s]; [simpl; lia|].
    cbn [String.substring String.length]. specialize (IH s). lia.
Qed.

(** X21.  A name from [uniqueSession] has at most 60 bytes; and when
    "test-" and the name of the test fill 60 bytes already, the suffix and
    the clock leave no trace: every suffix and every instant give the same
    name. *)
Theorem X21_uniqueSession_truncates
        (testName suffix suffix' : string) (unixNano unixNano' : Z) :
  (String.length (uniqueSession testName suffix unixNano) <= 60)%nat
  /\ ((60 <= String.length ("test-" +:+ testName))%nat ->
      uniqueSession testName suffix unixNano
      = uniqueSession testName suffix' unixNano').
Proof.
  split.
  - unfold uniqueSession.
    match goal with
    | |- context [(60 <? ?n)%nat] => destruct (60 <? n)%nat eqn:E
    end.
    + apply length_substring.
    + apply Nat.ltb_ge in E. exact E.
  - intros Hlong.
    assert (Hcut : forall sfx nano,
               uniqueSession testName sfx nano
               = String.substring 0 60 ("test-" +:+ testName)).
    { intros sfx nano. unfold uniqueSession.
      set (tail := "-" +:+ sfx +:+ "-"
                   +:+ NilZero.string_of_int (Z.to_int (Z.rem nano 10000))).
      assert (Hname : "test-" +:+ testName +:+ tail
                      = ("test-" +:+ testName) +:+ tail)
        by (symmetry; apply app_assoc).
      rewrite Hname.
      assert (Htail : (1 <= String.length tail)%nat)
        by (unfold tail; rewrite app_cons; simpl; lia).
      assert (Hlt : (60 <? String.length (("test-" +:+ testName) +:+ tail))%nat
                    = true)
        by (apply Nat.ltb_lt; rewrite ShellQuoteFacts.length_app; lia).
      rewrite Hlt. apply substring_whole. exact Hlong. }
    rewrite (Hcut suffix unixNano), (Hcut suffix' unixNano'). reflexivity.
Qed.

End TestHelperFacts.

(** X21 on a test with a long name: two sessions of one test, asked for at
    two instants under two suffixes, get one name. *)
Lemma X21_uniqueSession_truncates_witness :
  let test := "TestIntegration_GTPolecat_EndToEnd/with_environment_overrides" in
  TestHelpers.uniqueSession test "a" 1700000000000001234
  = TestHelpers.uniqueSession test "b" 1700000000000005678.
Proof.
  intros test.
  apply (TestHelperFacts.X21_uniqueSession_truncates test "a" "b").
  vm_compute. lia.
Defined.

(* ================================================================== *)
(** * The commands [IsAgentRunning] expects *)
(* ================================================================== *)

Module PatternFacts.
Import AmuxCore GoFacts RunFacts AmuxFacts.

Lemma Contains_empty (s : string) : Contains s EmptyString = true.
Proof. destruct s; reflexivity. Qed.

Section WithPlatform.
Context {World : Type} `{!Platform World}.

Local Abbreviation St := (State World).

(** What [IsAgentRunning] of [amux.go] returns, by cases on the probe. *)
Lemma IsAgentRunning_eq (session : string) (expected : list string) (st : St) :
  exists r,
    Amux.GetSessionInfo session st
    = (Return r, ranOn st ["info"; "-t"; session; "--json"])
    /\ Amux.IsAgentRunning session expected st
       = (Return match r with
                 | inr _ => false
                 | inl info =>
                     Alive info
                     && match expected with
                        | [] => true
                        | _ => existsb (fun cmd => Contains (Command info) cmd)
                                       expected
                        end
                 end,
          ranOn st ["info"; "-t"; session; "--json"]).
Proof.
  destruct (GetSessionInfo_returns session st) as [r Hr].
  exists r. split; [exact Hr|].
  unfold Amux.IsAgentRunning, bind. rewrite Hr.
  destruct r as [info|err]; [|reflexivity].
  destruct (Alive info); [|reflexivity].
  destruct expected; reflexivity.
Qed.

(** X20.  The commands that [IsAgentRunning] of [amux.go] expects can only
    narrow the answer: a session that is running under some list is running
    under the empty one; two lists that are not empty, joined, accept what
    either accepts; and the empty text among the commands accepts every live
    session, as the empty list does. *)
Theorem X20_expected_commands
        (session : string) (first second : list string) (st : St) :
  (result (Amux.IsAgentRunning session first st) = Return true ->
   result (Amux.IsAgentRunning session [] st) = Return true)
  /\ (first <> [] -> second <> [] ->
      (result (Amux.IsAgentRunning session (first ++ second)%list st) = Return true
       <-> result (Amux.IsAgentRunning session first st) = Return true
           \/ result (Amux.IsAgentRunning session second st) = Return true))
  /\ (In EmptyString first ->
      Amux.IsAgentRunning session first st = Amux.IsAgentRunning session [] st).
Proof.
  destruct (IsAgentRunning_eq session first st) as (r & Hr & H1).
  destruct (IsAgentRunning_eq session second st) as (r2 & Hr2 & H2).
  destruct (IsAgentRunning_eq session (first ++ second)%list st)
    as (r12 & Hr12 & H12).
  destruct (IsAgentRunning_eq session [] st) as (r0 & Hr0 & H0).
  rewrite Hr in Hr2, Hr12, Hr0.
  injection Hr2 as <-. injection Hr12 as <-. injection Hr0 as <-.
  rewrite H1, H2, H12, H0. unfold result. cbn [fst].
  destruct r as [info|err].
  2:{ split; [auto|]. split; [|reflexivity].
      intros _ _. split; [discriminate|]. intros [H|H]; discriminate. }
  destruct (Alive info); cbn [andb].
  2:{ split; [auto|]. split; [|reflexivity].
      intros _ _. split; [discriminate|]. intros [H|H]; discriminate. }
  split; [reflexivity|]. split.
  - intros Hf Hs.
    destruct first as [|f first]; [contradiction|].
    destruct second as [|s second]; [contradiction|].
    change ((f :: first) ++ s :: second)%list
      with (f :: (first ++ s :: second))%list.
    cbv iota.
    change (f :: (first ++ s :: second))%list
      with ((f :: first) ++ s :: second)%list.
    rewrite existsb_app.
    destruct (existsb _ (f :: first)), (existsb _ (s :: second)); cbn [orb];
      split; auto; intros [H|H]; discriminate.
  - intros Hin. destruct first as [|f first]; [reflexivity|].
    f_equal. f_equal. apply existsb_exists.
    exists EmptyString. split; [exact Hin | apply Contains_empty].
Qed.

End WithPlatform.

End PatternFacts.

(** C2 over the adapter of [amux.go].  The witness session [w1] exists
    and its agent has exited: [amux has] succeeds, the descriptor says
    [alive] false, the health check says [AgentDead].  [Start] has the
    branch that kills such a session and creates it anew, and takes it on a
    backend whose [IsAgentAlive] looks at the agent, as the small backend
    shows; but [IsAgentAlive] of [amux.go] is [HasSession] asked again, so
    that here [Start] answers [ErrAlreadyRunning] after two runs of
    [amux has], and nothing is killed and nothing is created. *)
Lemma C2_Start_amux_zombie_not_recovered :
  let c := ScenarioManager.amuxCollaborators in
  let m := ScenarioManager.manager in
  let start :=
    @Witness.Start _ c (@AmuxBackend.amuxBackend _ _ c) m false EmptyString []
                   Scenario.start0 in
  @Witness.SessionName _ c m = "w1"
  /\ result (Amux.HasSession "w1" Scenario.start0) = Return (true, None)
  /\ result (Amux.GetSessionInfo "w1" Scenario.start0) = Return (inl Scenario.w1)
  /\ Alive Scenario.w1 = false
  /\ result (Amux.CheckSessionHealth "w1" 0 Scenario.start0) = Return AgentDead
  /\ result (Amux.IsAgentAlive "w1" Scenario.start0) = Return true
  /\ result start = Return (Some Witness.ErrAlreadyRunning)
  /\ Scenario.calls (AmuxCore.world (after start))
     = [["has"; "-t"; "w1"]; ["has"; "-t"; "w1"]]
  /\ @Witness.Start _ WitnessScenario.toyCollaborators
                    WitnessScenario.toyBackend WitnessScenario.manager false
                    EmptyString [] WitnessScenario.zombie
     = (Return None,
        {| WitnessScenario.sessions := [("gt-alpha-witness", true)];
           WitnessScenario.log :=
             ["has gt-alpha-witness"; "alive gt-alpha-witness";
              "kill gt-alpha-witness";
              "new gt-alpha-witness in /town/alpha/witness/rig: claude";
              "setenv gt-alpha-witness GT_ROLE=witness"] |}).
Proof. vm_compute. repeat split. Qed.
